(** * Axiom game-development agent: the synthesis pipeline

    A shallow embedding of the pipeline core of the repository
    (state_manager.py, modules/fixer.py, modules/planner.py,
    modules/coder.py and the orchestrator in agent.py) together with the
    properties its specification states about it.

    Conventions of the embedding:
    - a Python [str] is a list of Unicode code points ([pystr]); text that
      is written to a file is text the UTF-8 codec accepts;
    - the collaborators of the pipeline (inference service, retrieval
      index, sandbox, console, clock) are arguments of the functions that
      call them: each call site receives the outcome of its call;
    - a Python exception is a constructor of [exn], and a function that can
      raise returns a [result];
    - a Python [int] is an integer of [Z]; a Python [float] is a binary64
      number, and a finite one is the rational it denotes, in lowest terms
      (what [float.as_integer_ratio] returns). *)

From Stdlib Require Import Ascii String QArith Qround Qpower Qabs Lqa.
From Stdlib Require Floats.SpecFloat.
From stdpp Require Import base option list gmap.

Local Open Scope N_scope.
Local Open Scope list_scope.

(* ===================================================================== *)
(** * Python strings *)
(* ===================================================================== *)

Module PyStr.

(** A character is its code point [ord c]; a string is the list of its
    characters. *)
Abbreviation char := N (only parsing).
Abbreviation pystr := (list N) (only parsing).

(** Source literals are UTF-8 text: [lit] decodes the bytes of a literal
    into its code points. *)
Fixpoint utf8_go (bs : list N) (acc : N) (need : nat) : pystr :=
  match bs with
  | [] => []
  | b :: bs' =>
    match need with
    | S k =>
      let acc' := acc * 64 + b mod 64 in
      match k with
      | O => acc' :: utf8_go bs' 0 O
      | S _ => utf8_go bs' acc' k
      end
    | O =>
      if b <? 128 then b :: utf8_go bs' 0 O
      else if b <? 224 then utf8_go bs' (b mod 32) 1%nat
      else if b <? 240 then utf8_go bs' (b mod 16) 2%nat
      else utf8_go bs' (b mod 8) 3%nat
    end
  end.

Definition lit (s : string) : pystr :=
  utf8_go (map N_of_ascii (list_ascii_of_string s)) 0 O.

Definition NL : char := 10.
Definition TAB : char := 9.
Definition CR : char := 13.
Definition SPACE : char := 32.
Definition DQUOTE : char := 34.
Definition SLASH : char := 47.

(** [a == b] on strings. *)
Fixpoint str_eqb (a b : pystr) : bool :=
  match a, b with
  | [], [] => true
  | x :: a', y :: b' => (x =? y) && str_eqb a' b'
  | _, _ => false
  end.

(** [s.startswith(p)]. *)
Fixpoint startswith (s p : pystr) {struct p} : bool :=
  match p with
  | [] => true
  | a :: p' =>
    match s with
    | [] => false
    | b :: s' => (a =? b) && startswith s' p'
    end
  end.

(** [sub in s]. *)
Fixpoint contains (sub s : pystr) : bool :=
  startswith s sub ||
  match s with
  | [] => false
  | _ :: s' => contains sub s'
  end.

(** [s.split(sep)] for a non-empty separator: after a match the
    remaining [length sep - 1] characters of the separator are skipped. *)
Fixpoint split_from (sep s : pystr) (skip : nat) : list pystr :=
  match s with
  | [] => [[]]
  | c :: s' =>
    match skip with
    | S k => split_from sep s' k
    | O =>
      if startswith s sep then [] :: split_from sep s' (length sep - 1)
      else
        match split_from sep s' O with
        | l :: ls => (c :: l) :: ls
        | [] => [[c]]
        end
    end
  end.

Definition split (sep s : pystr) : list pystr := split_from sep s O.

(** [sep.join(parts)]. *)
Fixpoint join (sep : pystr) (parts : list pystr) : pystr :=
  match parts with
  | [] => []
  | [p] => p
  | p :: rest => p ++ sep ++ join sep rest
  end.

(** [s[:n]] and [s[-n:]] for a non-negative constant [n]. *)
Definition prefix_n (n : nat) (s : pystr) : pystr := take n s.
Definition suffix_n (n : nat) (s : pystr) : pystr := drop (length s - n) s.

(** [s.replace(a, b)] for one-character [a] and [b]. *)
Definition replace_char (a b : char) (s : pystr) : pystr :=
  map (fun c => if c =? a then b else c) s.

(** The character tables of the interpreter that the code consults:
    [str.isspace] (used by [strip] and by the pattern class \s),
    the decimal digits of the pattern class \d, and [str.lower]. *)
Record unicode := {
  isspace : char -> bool;
  isdigit : char -> bool;
  lower : pystr -> pystr
}.

Section WithTables.
Variable U : unicode.

Fixpoint lstrip (s : pystr) : pystr :=
  match s with
  | [] => []
  | c :: s' => if isspace U c then lstrip s' else s
  end.

Definition rstrip (s : pystr) : pystr := rev (lstrip (rev s)).

(** [s.strip()]. *)
Definition strip (s : pystr) : pystr := rstrip (lstrip s).
End WithTables.

(** The tables restricted to Basic Latin: they agree with the
    interpreter's on every string of ASCII characters. *)
Definition latin_isspace (c : char) : bool :=
  ((9 <=? c) && (c <=? 13)) || ((28 <=? c) && (c <=? 32)).
Definition latin_isdigit (c : char) : bool := (48 <=? c) && (c <=? 57).
Definition latin_lower (s : pystr) : pystr :=
  map (fun c => if (65 <=? c) && (c <=? 90) then c + 32 else c) s.
Definition latin : unicode :=
  {| isspace := latin_isspace; isdigit := latin_isdigit; lower := latin_lower |}.

End PyStr.

Import PyStr.

(** A source literal, decoded once. *)
Notation "'py:' s" :=
  (ltac:(let v := eval vm_compute in (lit s%string) in exact v))
  (at level 1, s at level 0, only parsing).

(* ===================================================================== *)
(** * The collaborators *)
(* ===================================================================== *)

Module Services.

(** Outcome of one [ollama.generate] call: the text of the reply, or the
    exception it raised, by its message [str(e)]. *)
Inductive inference :=
| Reply (response : pystr)
| Raised (message : pystr).

(** A hit of [rag.search]: its text and [metadata.get('type', '')].
    [search] catches every exception and returns a list. *)
Record document := { text : pystr; doc_type : pystr }.

(** [rag.search(query, category, n_results)]. *)
Definition retrieval := pystr -> pystr -> nat -> list document.

(** Outcome of [subprocess.run] on the temporary file: the process ended,
    it was killed at the time limit, or something else raised. *)
Inductive run :=
| Exited (returncode : Z) (stdout stderr : pystr)
| TimeoutExpired
| Failed (message : pystr).

(** config.py *)
Definition MAX_CODE_EXECUTION_TIME : pystr := py:"30".
Definition MODEL_planner : pystr := py:"phi3:mini".
Definition MODEL_coder : pystr := py:"codellama:7b-instruct".
Definition MODEL_fixer : pystr := py:"qwen2.5:3b-instruct".

End Services.

Import Services.

(* ===================================================================== *)
(** * modules/fixer.py *)
(* ===================================================================== *)

Module Fixer.

Definition ENCODING_DECL : pystr := py:"# -*- coding: utf-8 -*-".

(** The test [32 <= ord(char) <= 126 or char in '\n\t\r']. *)
Definition permitted (c : char) : bool :=
  ((32 <=? c) && (c <=? 126)) || (c =? NL) || (c =? TAB) || (c =? CR).

Definition blank (c : char) : char := if permitted c then c else SPACE.

(** The loop that drops repeated encoding declarations: the state is
    [(cleaned_lines, encoding_added)]. *)
Fixpoint drop_repeated (lines cleaned : list pystr) (encoding_added : bool)
  : list pystr * bool :=
  match lines with
  | [] => (cleaned, encoding_added)
  | line :: rest =>
    if contains ENCODING_DECL line then
      if encoding_added then drop_repeated rest cleaned encoding_added
      else drop_repeated rest (cleaned ++ [line]) true
    else drop_repeated rest (cleaned ++ [line]) encoding_added
  end.

(** [for i, line in enumerate(cleaned_lines): if decl in line:
    cleaned_lines.pop(i); cleaned_lines.insert(0, line); break]. *)
Fixpoint move_decl_first (before rest : list pystr) : list pystr :=
  match rest with
  | [] => before
  | line :: rest' =>
    if contains ENCODING_DECL line then line :: before ++ rest'
    else move_decl_first (before ++ [line]) rest'
  end.

(** Step 1: the declaration is put in front unless the text begins
    with it. *)
Definition with_declaration (code : pystr) : pystr :=
  if startswith code ENCODING_DECL then code
  else ENCODING_DECL ++ [NL] ++ code.

Definition _sanitize_code (code : pystr) : pystr :=
  match code with
  | [] => []
  | _ :: _ =>
    let code1 := with_declaration code in
    let code2 := map blank code1 in
    let lines := split [NL] code2 in
    let '(cleaned_lines, encoding_added) := drop_repeated lines [] false in
    let cleaned_lines :=
      match cleaned_lines with
      | first :: _ =>
        if encoding_added && negb (contains ENCODING_DECL first)
        then move_decl_first [] cleaned_lines
        else cleaned_lines
      | [] => cleaned_lines
      end in
    join [NL] cleaned_lines
  end.

(** An entry of [errors_detected]; static issues carry no [rag_context]. *)
Module Issue.
Record t := mk {
  type : pystr;
  description : pystr;
  severity : pystr;
  rag_context : option pystr
}.
End Issue.

Definition when {A} (b : bool) (x : A) : list A := if b then [x] else [].

Definition _static_analysis (code : pystr) : list Issue.t :=
  when (negb (startswith code ENCODING_DECL))
    (Issue.mk py:"encoding_error" py:"Missing encoding declaration"
              py:"critical" None)
  ++ when (negb (contains py:"import pygame" code))
    (Issue.mk py:"missing_import" py:"Missing pygame import"
              py:"critical" None)
  ++ when (negb (contains py:"pygame.init()" code))
    (Issue.mk py:"missing_init" py:"Missing pygame.init()"
              py:"critical" None)
  ++ when (negb (contains py:"while" code)
           || negb (contains py:"pygame.event.get()" code))
    (Issue.mk py:"missing_game_loop" py:"No main game loop found"
              py:"high" None)
  ++ when (negb (contains py:"pygame.display.flip()" code)
           && negb (contains py:"pygame.display.update()" code))
    (Issue.mk py:"missing_display_update" py:"No screen update found"
              py:"high" None)
  ++ when (existsb (fun c => 127 <? c) code)
    (Issue.mk py:"non_ascii_chars" py:"Code contains non-ASCII characters"
              py:"critical" None).

(** The dict returned by [_execute_code_safe]; the two handlers leave
    [stdout] and [stderr] out. *)
Record execution := {
  success : bool;
  return_code : Z;
  stdout : option pystr;
  stderr : option pystr;
  output : pystr
}.

Definition _execute_code_safe (sandbox : pystr -> run) (code : pystr)
  : execution :=
  match sandbox (_sanitize_code code) with
  | Exited rc out err =>
    {| success := (rc =? 0)%Z; return_code := rc;
       stdout := Some out; stderr := Some err;
       output := match err with [] => out | _ :: _ => err end |}
  | TimeoutExpired =>
    {| success := false; return_code := (-1)%Z; stdout := None; stderr := None;
       output := py:"Timeout: Program ran for more than "
                 ++ MAX_CODE_EXECUTION_TIME ++ py:" seconds" |}
  | Failed message =>
    {| success := false; return_code := (-1)%Z; stdout := None; stderr := None;
       output := py:"Execution error: " ++ message |}
  end.

Fixpoint _extract_rag_context (similar_errors : list document)
  (error_type : pystr) : pystr :=
  match similar_errors with
  | [] => []
  | error :: rest =>
    if contains error_type (doc_type error) then
      prefix_n 300
        (List.filter (fun c => (c <? 128) || (c =? NL) || (c =? TAB) || (c =? CR))
                (text error))
    else _extract_rag_context rest error_type
  end.

Section WithCollaborators.
Variable U : unicode.
Variable sandbox : pystr -> run.
Variable rag : retrieval.
(** What [input] returns at the prompt; [None] when it raises. *)
Variable console : option pystr.
(** The outcome of the one repair request to the inference service. *)
Variable infer : inference.

Definition _analyze_runtime_error (code : pystr) (execution_result : execution)
  (task_description : pystr) : list Issue.t :=
  let error_output := output execution_result in
  let similar_errors :=
    rag (match error_output with
         | [] => py:"runtime error"
         | _ :: _ => prefix_n 100 error_output
         end) py:"error_patterns" 3%nat in
  when (contains py:"Non-UTF-8 code" error_output
        || contains py:"encoding declared" error_output)
    (Issue.mk py:"encoding_error" py:"Encoding problem (file not UTF-8)"
       py:"critical"
       (Some (_extract_rag_context similar_errors py:"encoding_error")))
  ++ when (contains py:"ImportError" error_output)
    (Issue.mk py:"import_error" py:"Module import error" py:"critical"
       (Some (_extract_rag_context similar_errors py:"import_error")))
  ++ when (contains py:"NameError" error_output)
    (Issue.mk py:"name_error" py:"Undefined variable or function" py:"high"
       (Some (_extract_rag_context similar_errors py:"name_error")))
  ++ when (contains py:"SyntaxError" error_output
           || contains py:"IndentationError" error_output)
    (Issue.mk py:"syntax_error" py:"Syntax or indentation error"
       py:"critical"
       (Some (_extract_rag_context similar_errors py:"syntax_error")))
  ++ when (contains py:"AttributeError" error_output)
    (Issue.mk py:"attribute_error" py:"Object attribute error" py:"high"
       (Some (_extract_rag_context similar_errors py:"attribute_error")))
  ++ when (match strip U error_output with [] => true | _ :: _ => false end
           || contains py:"ТАЙМАУТ" error_output
           || contains py:"Timeout" error_output)
    (Issue.mk py:"black_screen_or_timeout" py:"Black screen or infinite loop"
       py:"high"
       (Some (_extract_rag_context similar_errors py:"black_screen"))).

Definition _get_user_feedback (execution_success : bool) : pystr :=
  if execution_success then py:"success"
  else
    match console with
    | None => py:"auto_fix"
    | Some typed_text =>
      let choice := strip U typed_text in
      if str_eqb choice py:"1" then py:"auto_fix"
      else if str_eqb choice py:"2" then py:"manual_review"
      else if str_eqb choice py:"3" then py:"skip"
      else if str_eqb choice py:"4" then py:"cancel"
      else py:"auto_fix"
    end.

(** The loop that adds the initialization call after the import. *)
Fixpoint add_init (lines new_lines : list pystr) : list pystr :=
  match lines with
  | [] => new_lines
  | line :: rest =>
    let new_lines := new_lines ++ [line] in
    if contains py:"import pygame" line
       && negb (contains py:"pygame.init()" (join [NL] new_lines))
    then add_init rest (new_lines ++ [py:"pygame.init()"])
    else add_init rest new_lines
  end.

(** The loop over the errors that applies the mechanical repairs. *)
Fixpoint simple_fixes (errors : list Issue.t) (fixed_code : pystr) : pystr :=
  match errors with
  | [] => fixed_code
  | error :: rest =>
    if str_eqb (Issue.type error) py:"missing_init"
       && negb (contains py:"pygame.init()" fixed_code)
    then simple_fixes rest (join [NL] (add_init (split [NL] fixed_code) []))
    else simple_fixes rest fixed_code
  end.

(** [parts[1].split(fence)[0]] on the parts around the opening fence. *)
Definition fenced (parts : list pystr) : pystr :=
  match parts with
  | _ :: inner :: _ =>
    match split py:"```" inner with
    | body :: _ => body
    | [] => []
    end
  | _ => []
  end.

Definition _generate_fix (code : pystr) (errors : list Issue.t)
  (user_feedback task_description : pystr) : pystr :=
  if str_eqb user_feedback py:"skip"
     || match errors with [] => true | _ :: _ => false end
  then _sanitize_code code
  else
    let fixed_code := simple_fixes errors (_sanitize_code code) in
    if existsb (fun e => str_eqb (Issue.severity e) py:"critical") errors
       && str_eqb user_feedback py:"auto_fix"
    then
      match infer with
      | Reply response =>
        let fixed_code := strip U response in
        let fixed_code :=
          if contains py:"```python" fixed_code then
            let parts := split py:"```python" fixed_code in
            if (1 <? length parts)%nat then strip U (fenced parts)
            else fixed_code
          else fixed_code in
        _sanitize_code fixed_code
      | Raised _ => _sanitize_code code
      end
    else fixed_code.

Record results := {
  code : pystr;
  original_code : pystr;
  execution_success : bool;
  errors_detected : list Issue.t;
  user_feedback : option pystr;
  fixed_code : pystr;
  fix_applied : bool;
  execution_result : execution
}.

Definition analyze_code (code task_description : pystr) : results :=
  let static_issues := _static_analysis code in
  let execution_result := _execute_code_safe sandbox code in
  let errors :=
    static_issues ++
    (if success execution_result then []
     else _analyze_runtime_error code execution_result task_description) in
  if match errors with [] => false | _ :: _ => true end
     || negb (success execution_result)
  then
    let user_feedback := _get_user_feedback (success execution_result) in
    if negb (str_eqb user_feedback py:"skip") then
      let fixed := _generate_fix code errors user_feedback task_description in
      {| code := code; original_code := code;
         execution_success := success execution_result;
         errors_detected := errors;
         user_feedback := Some user_feedback;
         fixed_code := fixed;
         fix_applied := negb (str_eqb fixed code);
         execution_result := execution_result |}
    else
      {| code := code; original_code := code;
         execution_success := success execution_result;
         errors_detected := errors;
         user_feedback := Some user_feedback;
         fixed_code := code;
         fix_applied := false;
         execution_result := execution_result |}
  else
    {| code := code; original_code := code;
       execution_success := success execution_result;
       errors_detected := errors;
       user_feedback := None;
       fixed_code := code;
       fix_applied := false;
       execution_result := execution_result |}.
End WithCollaborators.

End Fixer.

(* ===================================================================== *)
(** * state_manager.py *)
(* ===================================================================== *)

Module State.

(** The exceptions the pipeline can meet. *)
Inductive exn :=
| JSONDecodeError | KeyError | ValueError | TypeError | IndexError
| ZeroDivisionError | OverflowError.

(** Outcome of a call that can raise. [IllTyped] is the outcome of a
    constructor call that returns normally in Python (dataclasses do not
    check annotations) with an object one of whose fields holds a value of
    another type than annotated: the typed records below have no such
    inhabitant. *)
Inductive result (A : Type) :=
| Ok (a : A)
| Raise (e : exn)
| IllTyped.
Arguments Ok {A} a.
Arguments Raise {A} e.
Arguments IllTyped {A}.

Definition bind {A B} (r : result A) (k : A -> result B) : result B :=
  match r with
  | Ok a => k a
  | Raise e => Raise e
  | IllTyped => IllTyped
  end.

Notation "x <~ r ;; k" := (bind r (fun x => k))
  (at level 100, r at next level, right associativity).

(** ** Floats

    The arithmetic of Python's [float]: IEEE 754 binary64, every operation
    giving the exact result rounded to the nearest representable number,
    ties to the even significand. NaN and the sign of zero are left out:
    no operation used here produces the one or looks at the other. *)
Module Float.

(** The precision, the least exponent of a significand bit, and the
    exponent at which the numbers end: the finite numbers are the
    [m * 2^e] with [|m| < 2^53], [emin <= e] and value below [2^1024]. *)
Definition prec : Z := 53.
Definition emin : Z := -1074.
Definition emax : Z := 1024.

Definition pow2 (e : Z) : Q := (2 ^ e)%Q.

(** The integer part of the binary logarithm of a positive rational. *)
Definition ilog2 (x : Q) : Z :=
  let d := (Z.log2 (Qnum x) - Z.log2 (Z.pos (Qden x)))%Z in
  if Qle_bool (pow2 d) x then d else (d - 1)%Z.

(** The nearest integer, the even one of two that are equally near. *)
Definition rne (x : Q) : Z :=
  let k := Qfloor x in
  match (x - inject_Z k ?= 1 # 2)%Q with
  | Lt => k
  | Gt => (k + 1)%Z
  | Eq => if Z.even k then k else (k + 1)%Z
  end.

(** Rounding of a positive rational to 53 significant bits, or to a
    multiple of [2^emin] when it is that small, with no bound above. *)
Definition round_pos (x : Q) : Q :=
  let e := Z.max emin (ilog2 x - (prec - 1)) in
  (inject_Z (rne (x / pow2 e)) * pow2 e)%Q.

Definition round (x : Q) : Q :=
  match (x ?= 0)%Q with
  | Eq => 0%Q
  | Gt => Qred (round_pos x)
  | Lt => Qred (- round_pos (- x))
  end.

(** A rounded result of this size or more is no finite float. *)
Definition overflows (r : Q) : bool := Qle_bool (pow2 emax) (Qabs r).

Inductive t :=
| Finite (q : Q)
| Infinity (negative : bool).

(** [a / b] on integers: the quotient is rounded once, from the exact
    value, and a quotient too large for a float raises. *)
Definition truediv (a b : Z) : result Q :=
  if (b =? 0)%Z then Raise ZeroDivisionError
  else
    let r := round (inject_Z a / inject_Z b) in
    if overflows r then Raise OverflowError else Ok r.

(** [x * y] on finite floats: a product too large is an infinity. *)
Definition mul (x y : Q) : t :=
  let r := round (x * y) in
  if overflows r
  then Infinity (match (x * y ?= 0)%Q with Lt => true | _ => false end)
  else Finite r.

(** The same quotient and product computed by the Standard Library's
    specification of IEEE 754 arithmetic, for integers that are floats. *)
Definition spec_of_int (z : Z) : SpecFloat.spec_float :=
  SpecFloat.binary_normalize prec emax z 0 false.

Definition spec_scaled (a b c : Z) : SpecFloat.spec_float :=
  SpecFloat.SFmul prec emax
    (SpecFloat.SFdiv prec emax (spec_of_int a) (spec_of_int b))
    (spec_of_int c).

Definition of_spec (f : SpecFloat.spec_float) : option t :=
  match f with
  | SpecFloat.S754_zero _ => Some (Finite 0)
  | SpecFloat.S754_infinity s => Some (Infinity s)
  | SpecFloat.S754_nan => None
  | SpecFloat.S754_finite s m e =>
    Some (Finite (Qred ((if s then -1 else 1) * inject_Z (Z.pos m) * pow2 e)))
  end.

End Float.

(** The result of [json.load]: numbers of the records are integers. A
    [JObj] is a dict: its keys are pairwise distinct. *)
#[local] Unset Elimination Schemes.
Inductive json :=
| JNull
| JBool (b : bool)
| JInt (z : Z)
| JStr (s : pystr)
| JList (l : list json)
| JObj (d : list (pystr * json)).
#[local] Set Elimination Schemes.

Definition dict := list (pystr * json).

(** [d.get(k)]. *)
Fixpoint dict_get (k : pystr) (d : dict) : option json :=
  match d with
  | [] => None
  | (k', v) :: d' => if str_eqb k k' then Some v else dict_get k d'
  end.

(** [d[k] = v]: an existing key keeps its position. *)
Fixpoint dict_set (k : pystr) (v : json) (d : dict) : dict :=
  match d with
  | [] => [(k, v)]
  | (k', v') :: d' =>
    if str_eqb k k' then (k, v) :: d' else (k', v') :: dict_set k v d'
  end.

(** [l[i]] with Python's negative indices; [None] is IndexError. *)
Definition getitem {A} (l : list A) (i : Z) : option A :=
  let n := Z.of_nat (length l) in
  if (0 <=? i)%Z then l !! Z.to_nat i
  else if (- n <=? i)%Z then l !! Z.to_nat (n + i)
  else None.

Inductive TaskStatus :=
| PENDING | PLANNING | CODING | TESTING | FIXING | COMPLETED | FAILED.

Inductive ValidationStatus :=
| V_NOT_STARTED | V_PENDING | V_PASSED | V_FAILED.

(** [member.value]. *)
Definition TaskStatus_value (s : TaskStatus) : pystr :=
  match s with
  | PENDING => py:"pending"
  | PLANNING => py:"planning"
  | CODING => py:"coding"
  | TESTING => py:"testing"
  | FIXING => py:"fixing"
  | COMPLETED => py:"completed"
  | FAILED => py:"failed"
  end.

Definition ValidationStatus_value (s : ValidationStatus) : pystr :=
  match s with
  | V_NOT_STARTED => py:"not_started"
  | V_PENDING => py:"pending"
  | V_PASSED => py:"passed"
  | V_FAILED => py:"failed"
  end.

(** [TaskStatus(v)]: the member whose value is [v], else ValueError. *)
Definition TaskStatus_of (v : json) : result TaskStatus :=
  match v with
  | JStr s =>
    match find (fun m => str_eqb s (TaskStatus_value m))
               [PENDING; PLANNING; CODING; TESTING; FIXING; COMPLETED; FAILED] with
    | Some m => Ok m
    | None => Raise ValueError
    end
  | _ => Raise ValueError
  end.

Definition ValidationStatus_of (v : json) : result ValidationStatus :=
  match v with
  | JStr s =>
    match find (fun m => str_eqb s (ValidationStatus_value m))
               [V_NOT_STARTED; V_PENDING; V_PASSED; V_FAILED] with
    | Some m => Ok m
    | None => Raise ValueError
    end
  | _ => Raise ValueError
  end.

(** ** Reading values out of a JSON document *)

Definition typed {A} (o : option A) : result A :=
  match o with
  | Some a => Ok a
  | None => IllTyped
  end.

(** [d[k]], KeyError when the key is absent. *)
Definition subscript (k : pystr) (d : dict) : result json :=
  match dict_get k d with
  | Some v => Ok v
  | None => Raise KeyError
  end.

(** [d.get(k, default)]. *)
Definition get_default (k : pystr) (default : json) (d : dict) : json :=
  match dict_get k d with
  | Some v => v
  | None => default
  end.

(** [for x in v]: a list yields its elements, a string its characters,
    a dict its keys; anything else is not iterable. *)
Definition iterate (v : json) : result (list json) :=
  match v with
  | JList l => Ok l
  | JStr s => Ok (map (fun c => JStr [c]) s)
  | JObj d => Ok (map (fun kv => JStr (fst kv)) d)
  | _ => Raise TypeError
  end.

(** The generated [__init__] called with [kwargs] unpacked as keyword
    arguments: TypeError unless [kwargs] is a mapping whose keys are
    fields and include every field without a default. The values are not
    inspected. *)
Definition check_kwargs (fields required : list pystr) (kwargs : json)
  : result unit :=
  match kwargs with
  | JObj d =>
    if forallb (fun kv => existsb (str_eqb (fst kv)) fields) d
       && forallb (fun k => bool_decide (is_Some (dict_get k d))) required
    then Ok tt
    else Raise TypeError
  | _ => Raise TypeError
  end.

Fixpoint each {A} (f : A -> result unit) (l : list A) : result unit :=
  match l with
  | [] => Ok tt
  | x :: l' => _ <~ f x;; each f l'
  end.

Definition as_str (v : json) : option pystr :=
  match v with JStr s => Some s | _ => None end.

Definition as_int (v : json) : option Z :=
  match v with JInt z => Some z | _ => None end.

Definition as_dict (v : json) : option dict :=
  match v with JObj d => Some d | _ => None end.

Definition as_optional {A} (f : json -> option A) (v : json) : option (option A) :=
  match v with
  | JNull => Some None
  | _ => a ← f v; Some (Some a)
  end.

Fixpoint as_all {A} (f : json -> option A) (l : list json) : option (list A) :=
  match l with
  | [] => Some []
  | v :: l' => a ← f v; r ← as_all f l'; Some (a :: r)
  end.

Definition as_list {A} (f : json -> option A) (v : json) : option (list A) :=
  match v with JList l => as_all f l | _ => None end.

(** A keyword argument with a default value. *)
Definition kwarg {A} (f : json -> option A) (k : pystr) (default : A) (d : dict)
  : option A :=
  match dict_get k d with
  | Some v => f v
  | None => Some default
  end.

(** A keyword argument without default. *)
Definition kwarg_req {A} (f : json -> option A) (k : pystr) (d : dict) : option A :=
  v ← dict_get k d; f v.

Definition opt_json {A} (f : A -> json) (o : option A) : json :=
  match o with
  | Some a => f a
  | None => JNull
  end.

Definition strs_json (l : list pystr) : json := JList (map JStr l).

(** ** The dataclasses *)

Module CodeChunk.
Record t := mk {
  subtask : pystr;
  code : pystr;
  timestamp : pystr;
  model_used : pystr;
  rag_context : option (list pystr);
  errors : list pystr
}.

Definition required : list pystr :=
  [py:"subtask"; py:"code"; py:"timestamp"; py:"model_used"].
Definition fields : list pystr :=
  required ++ [py:"rag_context"; py:"errors"].

Definition asdict (c : t) : json :=
  JObj [(py:"subtask", JStr (subtask c));
        (py:"code", JStr (code c));
        (py:"timestamp", JStr (timestamp c));
        (py:"model_used", JStr (model_used c));
        (py:"rag_context", opt_json strs_json (rag_context c));
        (py:"errors", strs_json (errors c))].

Definition construct (kwargs : json) : option t :=
  d ← as_dict kwargs;
  a ← kwarg_req as_str py:"subtask" d;
  b ← kwarg_req as_str py:"code" d;
  c ← kwarg_req as_str py:"timestamp" d;
  m ← kwarg_req as_str py:"model_used" d;
  r ← kwarg (as_optional (as_list as_str)) py:"rag_context" None d;
  e ← kwarg (as_list as_str) py:"errors" [] d;
  Some (mk a b c m r e).
End CodeChunk.

Module ErrorInfo.
Record t := mk {
  type : pystr;
  description : pystr;
  code_context : pystr;
  timestamp : pystr;
  user_feedback : option pystr;
  suggested_fix : option pystr
}.

Definition required : list pystr :=
  [py:"type"; py:"description"; py:"code_context"; py:"timestamp"].
Definition fields : list pystr :=
  required ++ [py:"user_feedback"; py:"suggested_fix"].

Definition asdict (e : t) : json :=
  JObj [(py:"type", JStr (type e));
        (py:"description", JStr (description e));
        (py:"code_context", JStr (code_context e));
        (py:"timestamp", JStr (timestamp e));
        (py:"user_feedback", opt_json JStr (user_feedback e));
        (py:"suggested_fix", opt_json JStr (suggested_fix e))].

Definition construct (kwargs : json) : option t :=
  d ← as_dict kwargs;
  a ← kwarg_req as_str py:"type" d;
  b ← kwarg_req as_str py:"description" d;
  c ← kwarg_req as_str py:"code_context" d;
  s ← kwarg_req as_str py:"timestamp" d;
  u ← kwarg (as_optional as_str) py:"user_feedback" None d;
  f ← kwarg (as_optional as_str) py:"suggested_fix" None d;
  Some (mk a b c s u f).
End ErrorInfo.

(** An entry of [code_history]: the dict built by [add_code_chunk]. *)
Module Revision.
Record t := mk {
  timestamp : pystr;
  subtask : pystr;
  previous_code : pystr;
  new_code : pystr;
  model_used : pystr
}.

Definition keys : list pystr :=
  [py:"timestamp"; py:"subtask"; py:"previous_code"; py:"new_code";
   py:"model_used"].

Definition to_json (r : t) : json :=
  JObj [(py:"timestamp", JStr (timestamp r));
        (py:"subtask", JStr (subtask r));
        (py:"previous_code", JStr (previous_code r));
        (py:"new_code", JStr (new_code r));
        (py:"model_used", JStr (model_used r))].

Definition of_json (v : json) : option t :=
  d ← as_dict v;
  guard (forallb (fun kv => existsb (str_eqb (fst kv)) keys) d = true);;
  a ← kwarg_req as_str py:"timestamp" d;
  b ← kwarg_req as_str py:"subtask" d;
  c ← kwarg_req as_str py:"previous_code" d;
  n ← kwarg_req as_str py:"new_code" d;
  m ← kwarg_req as_str py:"model_used" d;
  Some (mk a b c n m).
End Revision.

(** An entry of [user_feedback_history]. *)
Module Feedback.
Record t := mk {
  timestamp : pystr;
  question : pystr;
  answer : pystr
}.

Definition keys : list pystr := [py:"timestamp"; py:"question"; py:"answer"].

Definition to_json (f : t) : json :=
  JObj [(py:"timestamp", JStr (timestamp f));
        (py:"question", JStr (question f));
        (py:"answer", JStr (answer f))].

Definition of_json (v : json) : option t :=
  d ← as_dict v;
  guard (forallb (fun kv => existsb (str_eqb (fst kv)) keys) d = true);;
  a ← kwarg_req as_str py:"timestamp" d;
  q ← kwarg_req as_str py:"question" d;
  w ← kwarg_req as_str py:"answer" d;
  Some (mk a q w).
End Feedback.

(** [generated_code] is a property that reads and writes [current_code];
    it has no storage of its own. *)
Record TaskState := mkState {
  task_id : pystr;
  original_task : pystr;
  created_at : pystr;
  updated_at : pystr;
  task_status : TaskStatus;
  validation_status : ValidationStatus;
  subtasks : list pystr;
  current_subtask_index : Z;
  current_subtask : option pystr;
  metadata : dict;
  code_chunks : list CodeChunk.t;
  current_code : pystr;
  code_history : list Revision.t;
  errors_detected : list ErrorInfo.t;
  user_feedback_history : list Feedback.t;
  models_used : list pystr;
  rag_searches : Z;
  total_executions : Z;
  successful_executions : Z
}.

Definition generated_code (st : TaskState) : pystr := current_code st.

(** Attribute assignments [st.field = v]. *)
Definition set_updated_at (v : pystr) (st : TaskState) : TaskState :=
  mkState (task_id st) (original_task st) (created_at st) v
    (task_status st) (validation_status st) (subtasks st)
    (current_subtask_index st) (current_subtask st) (metadata st)
    (code_chunks st) (current_code st) (code_history st)
    (errors_detected st) (user_feedback_history st) (models_used st)
    (rag_searches st) (total_executions st) (successful_executions st).

Definition set_task_status (v : TaskStatus) (st : TaskState) : TaskState :=
  mkState (task_id st) (original_task st) (created_at st) (updated_at st)
    v (validation_status st) (subtasks st)
    (current_subtask_index st) (current_subtask st) (metadata st)
    (code_chunks st) (current_code st) (code_history st)
    (errors_detected st) (user_feedback_history st) (models_used st)
    (rag_searches st) (total_executions st) (successful_executions st).

Definition set_validation_status (v : ValidationStatus) (st : TaskState)
  : TaskState :=
  mkState (task_id st) (original_task st) (created_at st) (updated_at st)
    (task_status st) v (subtasks st)
    (current_subtask_index st) (current_subtask st) (metadata st)
    (code_chunks st) (current_code st) (code_history st)
    (errors_detected st) (user_feedback_history st) (models_used st)
    (rag_searches st) (total_executions st) (successful_executions st).

Definition set_subtasks (v : list pystr) (st : TaskState) : TaskState :=
  mkState (task_id st) (original_task st) (created_at st) (updated_at st)
    (task_status st) (validation_status st) v
    (current_subtask_index st) (current_subtask st) (metadata st)
    (code_chunks st) (current_code st) (code_history st)
    (errors_detected st) (user_feedback_history st) (models_used st)
    (rag_searches st) (total_executions st) (successful_executions st).

Definition set_current_subtask_index (v : Z) (st : TaskState) : TaskState :=
  mkState (task_id st) (original_task st) (created_at st) (updated_at st)
    (task_status st) (validation_status st) (subtasks st)
    v (current_subtask st) (metadata st)
    (code_chunks st) (current_code st) (code_history st)
    (errors_detected st) (user_feedback_history st) (models_used st)
    (rag_searches st) (total_executions st) (successful_executions st).

Definition set_current_subtask (v : option pystr) (st : TaskState) : TaskState :=
  mkState (task_id st) (original_task st) (created_at st) (updated_at st)
    (task_status st) (validation_status st) (subtasks st)
    (current_subtask_index st) v (metadata st)
    (code_chunks st) (current_code st) (code_history st)
    (errors_detected st) (user_feedback_history st) (models_used st)
    (rag_searches st) (total_executions st) (successful_executions st).

Definition set_metadata (v : dict) (st : TaskState) : TaskState :=
  mkState (task_id st) (original_task st) (created_at st) (updated_at st)
    (task_status st) (validation_status st) (subtasks st)
    (current_subtask_index st) (current_subtask st) v
    (code_chunks st) (current_code st) (code_history st)
    (errors_detected st) (user_feedback_history st) (models_used st)
    (rag_searches st) (total_executions st) (successful_executions st).

Definition set_current_code (v : pystr) (st : TaskState) : TaskState :=
  mkState (task_id st) (original_task st) (created_at st) (updated_at st)
    (task_status st) (validation_status st) (subtasks st)
    (current_subtask_index st) (current_subtask st) (metadata st)
    (code_chunks st) v (code_history st)
    (errors_detected st) (user_feedback_history st) (models_used st)
    (rag_searches st) (total_executions st) (successful_executions st).

Definition set_code_history (v : list Revision.t) (st : TaskState) : TaskState :=
  mkState (task_id st) (original_task st) (created_at st) (updated_at st)
    (task_status st) (validation_status st) (subtasks st)
    (current_subtask_index st) (current_subtask st) (metadata st)
    (code_chunks st) (current_code st) v
    (errors_detected st) (user_feedback_history st) (models_used st)
    (rag_searches st) (total_executions st) (successful_executions st).

Definition set_errors_detected (v : list ErrorInfo.t) (st : TaskState)
  : TaskState :=
  mkState (task_id st) (original_task st) (created_at st) (updated_at st)
    (task_status st) (validation_status st) (subtasks st)
    (current_subtask_index st) (current_subtask st) (metadata st)
    (code_chunks st) (current_code st) (code_history st)
    v (user_feedback_history st) (models_used st)
    (rag_searches st) (total_executions st) (successful_executions st).

Definition set_user_feedback_history (v : list Feedback.t) (st : TaskState)
  : TaskState :=
  mkState (task_id st) (original_task st) (created_at st) (updated_at st)
    (task_status st) (validation_status st) (subtasks st)
    (current_subtask_index st) (current_subtask st) (metadata st)
    (code_chunks st) (current_code st) (code_history st)
    (errors_detected st) v (models_used st)
    (rag_searches st) (total_executions st) (successful_executions st).

Definition set_models_used (v : list pystr) (st : TaskState) : TaskState :=
  mkState (task_id st) (original_task st) (created_at st) (updated_at st)
    (task_status st) (validation_status st) (subtasks st)
    (current_subtask_index st) (current_subtask st) (metadata st)
    (code_chunks st) (current_code st) (code_history st)
    (errors_detected st) (user_feedback_history st) v
    (rag_searches st) (total_executions st) (successful_executions st).

(** ** Methods of TaskState

    [datetime.now().isoformat()] is read from the clock: every method
    takes the readings it makes, in order. *)

(** [len(self.subtasks)]. *)
Definition n_subtasks (st : TaskState) : Z := Z.of_nat (length (subtasks st)).

(** [(self.current_subtask_index / len(self.subtasks)) * 100]: a true
    division of two integers, then a product of floats. *)
Definition progress_percentage (st : TaskState) : result Float.t :=
  match subtasks st with
  | [] => Ok (Float.Finite 0)
  | _ :: _ =>
    q <~ Float.truediv (current_subtask_index st) (n_subtasks st);;
    Ok (Float.mul q 100)
  end.

Definition add_code_chunk (subtask new_full_code model_used now1 now2 : pystr)
  (st : TaskState) : TaskState :=
  let entry := Revision.mk now1 subtask (current_code st) new_full_code model_used in
  let st := set_code_history (code_history st ++ [entry]) st in
  let st := set_current_code new_full_code st in
  set_updated_at now2 st.

Definition add_error (error_type description code_context : pystr)
  (user_feedback : option pystr) (now1 now2 : pystr) (st : TaskState)
  : TaskState :=
  let error :=
    ErrorInfo.mk error_type description code_context now1 user_feedback None in
  let st := set_errors_detected (errors_detected st ++ [error]) st in
  set_updated_at now2 st.

Definition add_user_feedback (question answer now1 now2 : pystr)
  (st : TaskState) : TaskState :=
  let feedback := Feedback.mk now1 question answer in
  let st := set_user_feedback_history (user_feedback_history st ++ [feedback]) st in
  set_updated_at now2 st.

(** The index is advanced before [self.subtasks[...]] is read; IndexError
    is raised by that read. *)
Definition move_to_next_subtask (st : TaskState) : result TaskState :=
  if (current_subtask_index st <? n_subtasks st - 1)%Z then
    let st := set_current_subtask_index (current_subtask_index st + 1) st in
    match getitem (subtasks st) (current_subtask_index st) with
    | Some s => Ok (set_task_status CODING (set_current_subtask (Some s) st))
    | None => Raise IndexError
    end
  else
    Ok (set_current_subtask None (set_task_status TESTING st)).

(** ** Serialization *)

Definition to_dict (st : TaskState) : json :=
  JObj [(py:"task_id", JStr (task_id st));
        (py:"original_task", JStr (original_task st));
        (py:"created_at", JStr (created_at st));
        (py:"updated_at", JStr (updated_at st));
        (py:"task_status", JStr (TaskStatus_value (task_status st)));
        (py:"validation_status",
           JStr (ValidationStatus_value (validation_status st)));
        (py:"subtasks", strs_json (subtasks st));
        (py:"current_subtask_index", JInt (current_subtask_index st));
        (py:"current_subtask", opt_json JStr (current_subtask st));
        (py:"metadata", JObj (metadata st));
        (py:"code_chunks", JList (map CodeChunk.asdict (code_chunks st)));
        (py:"generated_code", JStr (generated_code st));
        (py:"current_code", JStr (current_code st));
        (py:"code_history", JList (map Revision.to_json (code_history st)));
        (py:"errors_detected",
           JList (map ErrorInfo.asdict (errors_detected st)));
        (py:"user_feedback_history",
           JList (map Feedback.to_json (user_feedback_history st)));
        (py:"models_used", strs_json (models_used st));
        (py:"rag_searches", JInt (rag_searches st));
        (py:"total_executions", JInt (total_executions st));
        (py:"successful_executions", JInt (successful_executions st))].

Definition required : list pystr :=
  [py:"task_id"; py:"original_task"; py:"created_at"; py:"updated_at"].

Definition fields : list pystr :=
  required ++
  [py:"task_status"; py:"validation_status"; py:"subtasks";
   py:"current_subtask_index"; py:"current_subtask"; py:"metadata";
   py:"code_chunks"; py:"generated_code"; py:"current_code";
   py:"code_history"; py:"errors_detected"; py:"user_feedback_history";
   py:"models_used"; py:"rag_searches"; py:"total_executions";
   py:"successful_executions"].

(** The constructor call that ends [from_dict], once its keyword check has
    passed. The value given for [generated_code] is assigned through the
    property first and overwritten by [current_code]. *)
Definition construct (d : dict) (ts : TaskStatus) (vs : ValidationStatus)
  (chunks errors : list json) : option TaskState :=
  a ← kwarg_req as_str py:"task_id" d;
  b ← kwarg_req as_str py:"original_task" d;
  c ← kwarg_req as_str py:"created_at" d;
  u ← kwarg_req as_str py:"updated_at" d;
  subs ← kwarg (as_list as_str) py:"subtasks" [] d;
  idx ← kwarg as_int py:"current_subtask_index" 0%Z d;
  cur ← kwarg (as_optional as_str) py:"current_subtask" None d;
  meta ← kwarg as_dict py:"metadata" [] d;
  cc ← as_all CodeChunk.construct chunks;
  code ← kwarg as_str py:"current_code" [] d;
  hist ← kwarg (as_list Revision.of_json) py:"code_history" [] d;
  errs ← as_all ErrorInfo.construct errors;
  fb ← kwarg (as_list Feedback.of_json) py:"user_feedback_history" [] d;
  mu ← kwarg (as_list as_str) py:"models_used" [] d;
  rs ← kwarg as_int py:"rag_searches" 0%Z d;
  te ← kwarg as_int py:"total_executions" 0%Z d;
  se ← kwarg as_int py:"successful_executions" 0%Z d;
  Some (mkState a b c u ts vs subs idx cur meta cc code hist errs fb mu rs te se).

(** [from_dict] stores the enum members and the rebuilt lists back under
    their keys, then calls the constructor with the dict as keyword
    arguments; the four keys it assigns are fields, so the keyword check is
    that of the dict as loaded. *)
Definition from_dict (data : json) : result TaskState :=
  match data with
  | JObj d =>
    v <~ subscript py:"task_status" d;;
    ts <~ TaskStatus_of v;;
    v <~ subscript py:"validation_status" d;;
    vs <~ ValidationStatus_of v;;
    chunks <~ iterate (get_default py:"code_chunks" (JList []) d);;
    _ <~ each (check_kwargs CodeChunk.fields CodeChunk.required) chunks;;
    errors <~ iterate (get_default py:"errors_detected" (JList []) d);;
    _ <~ each (check_kwargs ErrorInfo.fields ErrorInfo.required) errors;;
    _ <~ check_kwargs fields required data;;
    typed (construct d ts vs chunks errors)
  | _ => Raise TypeError
  end.

(** ** StateManager *)

(** What [json.load] makes of a stored file: the text is rejected
    (JSONDecodeError, or a decoding error, which is a ValueError), or it is
    a document. [json.dump] writes a document that loads back as itself. *)
Inductive file :=
| NotJson
| Json (doc : json).

(** [storage_dir / f"{task_id}.json"], as pathlib builds a path on a POSIX
    system. The name is cut at its slashes; empty components and
    components "." are dropped; a name that begins with a slash is an
    absolute path, which replaces the storage directory (two leading
    slashes, and only two, are kept as they are). The path is written as
    pathlib prints it, a relative one relative to the storage directory.
    Paths that pathlib tells apart are taken to name different files: steps
    ".." and symbolic links are not followed, letter case matters, and the
    directories on the way exist. *)
Definition path_parts (name : pystr) : list pystr :=
  List.filter (fun part => negb (str_eqb part [] || str_eqb part py:"."))
              (split [SLASH] name).

Definition path_anchor (name : pystr) : pystr :=
  if startswith name py:"//" && negb (startswith name py:"///") then py:"//"
  else if startswith name py:"/" then py:"/"
  else [].

Definition filepath (task_id : pystr) : pystr :=
  let name := task_id ++ py:".json" in
  path_anchor name ++ join [SLASH] (path_parts name).

Definition save_state (store : gmap pystr file) (st : TaskState)
  : gmap pystr file * pystr :=
  let path := filepath (task_id st) in
  (<[path := Json (to_dict st)]> store, path).

(** The handler [except (json.JSONDecodeError, KeyError, ValueError)]. *)
Definition caught_by_load (e : exn) : bool :=
  match e with
  | JSONDecodeError | KeyError | ValueError => true
  | _ => false
  end.

Definition load_state (store : gmap pystr file) (task_id : pystr)
  : result (option TaskState) :=
  match store !! filepath task_id with
  | None => Ok None
  | Some NotJson => Ok None
  | Some (Json doc) =>
    match from_dict doc with
    | Ok st => Ok (Some st)
    | Raise e => if caught_by_load e then Ok None else Raise e
    | IllTyped => IllTyped
    end
  end.

(** [task_id] is built from the clock and a fresh uuid. *)
Definition create_new_state (stamp uid now1 now2 original_task : pystr)
  : TaskState :=
  mkState (py:"task_" ++ stamp ++ py:"_" ++ prefix_n 8 uid) original_task
    now1 now2 PENDING V_NOT_STARTED [] 0%Z None [] [] [] [] [] [] [] 0%Z 0%Z 0%Z.

End State.

Import State.

(* ===================================================================== *)
(** * modules/planner.py *)
(* ===================================================================== *)

Module Planner.

(** The longest prefix whose characters satisfy [p], and what follows. *)
Fixpoint span (p : char -> bool) (s : pystr) : pystr * pystr :=
  match s with
  | [] => ([], [])
  | c :: s' =>
    if p c then let '(a, b) := span p s' in (c :: a, b) else ([], s)
  end.

Section WithTables.
Variable U : unicode.

(** The tail [\s*(.+)$] ([at_least = 0]) or [\s+(.+)$] ([at_least = 1])
    of the three patterns, on a line without newline: the white space
    is matched greedily, and gives its last character back to the
    group when nothing else is left for it. *)
Definition spaces_then_group (at_least : nat) (s : pystr) : option pystr :=
  let '(ws, r) := span (isspace U) s in
  match r with
  | _ :: _ => if (at_least <=? length ws)%nat then Some r else None
  | [] =>
    match last ws with
    | Some c => if (at_least + 1 <=? length ws)%nat then Some [c] else None
    | None => None
    end
  end.

(** [^\d+[\.\)]\s*(.+)$]; no digit is a dot or a parenthesis, so the
    digits are the longest run. *)
Definition numbered (line : pystr) : option pystr :=
  match span (isdigit U) line with
  | (_ :: _, c :: r) =>
    if (c =? 46) || (c =? 41) then spaces_then_group 0 r else None
  | _ => None
  end.

(** [^[\-\*•]\s*(.+)$]. *)
Definition bulleted (line : pystr) : option pystr :=
  match line with
  | c :: r =>
    if (c =? 45) || (c =? 42) || (c =? 8226) then spaces_then_group 0 r
    else None
  | [] => None
  end.

(** [^\d+\s+(.+)$]; no digit is a white space. *)
Definition spaced (line : pystr) : option pystr :=
  match span (isdigit U) line with
  | (_ :: _, r) => spaces_then_group 1 r
  | _ => None
  end.

(** The loop over the patterns stops at the first that matches. *)
Definition first_match (line : pystr) : option pystr :=
  match numbered line with
  | Some g => Some g
  | None =>
    match bulleted line with
    | Some g => Some g
    | None => spaced line
    end
  end.

(** What one line of the reply adds to [subtasks]. *)
Definition subtask_of_line (line : pystr) : option pystr :=
  let line := strip U line in
  if (length line <? 10)%nat then None
  else
    match first_match line with
    | Some g =>
      let subtask := strip U g in
      if (15 <? length subtask)%nat
         && negb (startswith subtask py:"```")
         && negb (contains py:"пример" (lower U subtask))
      then Some subtask
      else None
    | None => None
    end.

Definition _parse_subtasks (response : pystr) : list pystr :=
  take 7 (omap subtask_of_line (split [NL] (strip U response))).

Definition _get_fallback_subtasks (task_description : pystr) : list pystr :=
  let base_tasks :=
    [py:"Инициализация PyGame и создание игрового окна";
     py:"Создание основного игрового объекта";
     py:"Реализация управления объектом";
     py:"Добавление игровой логики и механик";
     py:"Настройка отображения и интерфейса";
     py:"Тестирование и отладка"] in
  if contains py:"змейк" (lower U task_description) then
    [py:"Инициализация PyGame и игрового поля";
     py:"Создание класса Змейки с движением";
     py:"Генерация еды на поле";
     py:"Реализация управления стрелками";
     py:"Обработка столкновений и роста змейки";
     py:"Отображение счета и игры"]
  else if contains py:"платформер" (lower U task_description) then
    [py:"Создание окна и фона";
     py:"Реализация игрока с физикой и гравитацией";
     py:"Создание платформ и препятствий";
     py:"Реализация управления и прыжка";
     py:"Обнаружение столкновений с платформами";
     py:"Добавление врагов или собираемых предметов"]
  else base_tasks.

(** The two retrieval calls only feed the prompt and cannot raise; the
    outcome of the inference call is [infer]. *)
Definition decompose_task (infer : inference) (task_description : pystr)
  : list pystr :=
  match infer with
  | Reply response =>
    match _parse_subtasks response with
    | [] => _get_fallback_subtasks task_description
    | subtasks => subtasks
    end
  | Raised _ => _get_fallback_subtasks task_description
  end.
End WithTables.

End Planner.

(* ===================================================================== *)
(** * modules/coder.py *)
(* ===================================================================== *)

Module Coder.

Section WithTables.
Variable U : unicode.

(** [s.split(opening)[1].split(fence)[0]]; [opening] occurs in [s]
    where this is used, so the second part exists. *)
Definition between (opening s : pystr) : pystr :=
  match split opening s with
  | _ :: inner :: _ =>
    match split py:"```" inner with
    | body :: _ => body
    | [] => []
    end
  | _ => []
  end.

Definition is_explanation (line : pystr) : bool :=
  let stripped := strip U line in
  startswith stripped py:"Вот "
  || startswith stripped py:"Изменённый "
  || startswith stripped py:"Here "
  || startswith stripped py:"Modified ".

(** Steps 7 of [generate]: what is made of the reply. *)
Definition clean_reply (response : pystr) : pystr :=
  let generated_code := strip U response in
  let generated_code :=
    if contains py:"```python" generated_code
    then strip U (between py:"```python" generated_code)
    else if contains py:"```" generated_code
    then strip U (between py:"```" generated_code)
    else generated_code in
  let code_lines :=
    List.filter (fun line => negb (is_explanation line))
                (split [NL] generated_code) in
  strip U (join [NL] code_lines).

(** The text returned by the exception handler. *)
Definition fallback_code (modification message : pystr) : pystr :=
  py:"# Автоматически сгенерированный код для: " ++ modification ++ [NL]
  ++ py:"        Ошибка при обращении к модели: " ++ prefix_n 100 message
  ++ [NL]
  ++ join [NL]
       [py:"        import pygame";
        [];
        py:"        def main():";
        py:"        pygame.init()";
        py:"        screen = pygame.display.set_mode((800, 600))";
        py:"        clock = pygame.time.Clock()";
        py:"        running = True";
        [];
        py:"        while running:";
        py:"            for event in pygame.event.get():";
        py:"                if event.type == pygame.QUIT:";
        py:"                    running = False";
        py:"            ";
        py:"            screen.fill((0, 0, 0))";
        py:"            pygame.display.flip()";
        py:"            clock.tick(60)";
        [];
        py:"        pygame.quit()";
        py:"        if name == " ++ [DQUOTE] ++ py:"main" ++ [DQUOTE] ++ py:":";
        py:"        main()"].

Definition _validate_code (code : pystr) : bool :=
  contains py:"import pygame" code
  && (contains py:"pygame.display.set_mode" code
      || contains py:"pygame.display.set_mode" (lower U code)).

(** The retrieval calls only feed the prompt; validation only logs. *)
Definition generate (infer : inference) (current_code modification : pystr)
  : pystr :=
  match infer with
  | Reply response => clean_reply response
  | Raised message => fallback_code modification message
  end.
End WithTables.

End Coder.

(* ===================================================================== *)
(** * agent.py *)
(* ===================================================================== *)

Module Agent.

(** An image dict returned by the visualizer. *)
Module Sprite.
Record t := mk {
  path : pystr;
  filename : pystr;
  description : pystr;
  type : pystr;
  prompt : option pystr;
  method : pystr
}.

Definition to_json (sp : t) : json :=
  JObj ([(py:"path", JStr (path sp));
         (py:"filename", JStr (filename sp));
         (py:"description", JStr (description sp));
         (py:"type", JStr (type sp))]
        ++ match prompt sp with
           | Some text => [(py:"prompt", JStr text)]
           | None => []
           end
        ++ [(py:"method", JStr (method sp))]).
End Sprite.

Definition sprite_lines (sprite : Sprite.t) : list pystr :=
  let var_name := Sprite.type sprite ++ py:"_sprite" in
  let path := replace_char 92 47 (Sprite.path sprite) in
  [py:"try:";
   py:"    " ++ var_name ++ py:" = pygame.image.load('" ++ path
     ++ py:"').convert_alpha()";
   py:"    print(f'Загружен спрайт: " ++ prefix_n 20 (Sprite.description sprite)
     ++ py:"...')";
   py:"except Exception as e:";
   py:"    print(f'Ошибка загрузки спрайта " ++ Sprite.filename sprite
     ++ py:": {e}')";
   py:"    " ++ var_name ++ py:" = None  # Fallback" ++ [NL]].

Definition _create_sprite_loading_code (sprites : list Sprite.t) : pystr :=
  join [NL]
    (([NL] ++ py:"# ===== АВТОМАТИЧЕСКИ СГЕНЕРИРОВАННЫЕ СПРАЙТЫ ====="
      ++ [NL])
     :: concat (map sprite_lines sprites)).

Definition MAIN_GUARD : pystr :=
  py:"if __name__ == " ++ [DQUOTE] ++ py:"__main__" ++ [DQUOTE] ++ py:":".

(** The loop that looks for the line creating the window and inserts the
    sprite code after it; [None] when no line does. *)
Fixpoint insert_after_window (lines : list pystr) (sprite_code : pystr)
  : option (list pystr) :=
  match lines with
  | [] => None
  | line :: rest =>
    if contains py:"pygame.display.set_mode" line
    then Some (line :: sprite_code :: rest)
    else rest' ← insert_after_window rest sprite_code; Some (line :: rest')
  end.

Definition _inject_sprite_code (game_code sprite_code : pystr) : pystr :=
  match insert_after_window (split [NL] game_code) sprite_code with
  | Some lines => join [NL] lines
  | None =>
    if contains MAIN_GUARD game_code then
      match split MAIN_GUARD game_code with
      | before :: after :: _ =>
        before ++ sprite_code ++ [NL; NL] ++ MAIN_GUARD ++ after
      | _ => game_code
      end
    else game_code ++ [NL; NL] ++ sprite_code
  end.

Definition _add_sprites_to_game (sprites : list Sprite.t) (st : TaskState)
  : TaskState :=
  match sprites with
  | [] => st
  | _ :: _ =>
    let st :=
      set_metadata
        (dict_set py:"generated_sprites" (JList (map Sprite.to_json sprites))
                  (metadata st)) st in
    let sprite_code := _create_sprite_loading_code sprites in
    set_current_code (_inject_sprite_code (current_code st) sprite_code) st
  end.

Section WithCollaborators.
Variable U : unicode.
(** The readings of the clock, in the order they are made. *)
Variable clock : nat -> pystr.

(** [plan_task], up to the save: [planner] is the outcome of the Planner's
    inference call. The Planner catches what the call raises, so the
    handler of this method is not entered. *)
Definition plan_task (planner : inference) (st : TaskState) : TaskState :=
  let plan := Planner.decompose_task U planner (original_task st) in
  let st := set_subtasks plan st in
  let st := set_current_subtask_index 0 st in
  let st := set_current_subtask (head plan) st in
  let st := set_task_status CODING st in
  set_models_used (models_used st ++ [MODEL_planner]) st.

(** The head of the loop of [develop_game] over [range(len(subtasks))]. *)
Definition select_subtask (i : nat) (st : TaskState) : TaskState :=
  match subtasks st !! i with
  | Some subtask =>
    set_current_subtask (Some subtask)
      (set_current_subtask_index (Z.of_nat i) st)
  | None => st
  end.

(** The loop of [execute_subtask] that records the detected errors;
    [tick] counts the clock readings made so far. *)
Fixpoint record_errors (errors : list Fixer.Issue.t) (code_context : pystr)
  (user_feedback : option pystr) (tick : nat) (st : TaskState)
  : TaskState * nat :=
  match errors with
  | [] => (st, tick)
  | error :: rest =>
    record_errors rest code_context user_feedback (tick + 2)
      (add_error (Fixer.Issue.type error) (Fixer.Issue.description error)
         code_context user_feedback (clock tick) (clock (tick + 1)) st)
  end.

(** One subtask, on an agent that has its state, its Coder and its
    Validator: [coder] is the outcome of the Coder's inference call,
    the other four are the collaborators of the Validator's pass. The
    Coder and the Validator catch what their collaborators raise, so the
    handler of this method is not entered. The index is any integer: one
    at or past the end of the plan is refused, a negative one is not, and
    [self.current_state.subtasks[subtask_index]], which is read before the
    handler is set up, counts it from the end of the plan or raises
    IndexError, the state being as it was. *)
Definition execute_subtask (coder : inference) (sandbox : pystr -> run)
  (rag : retrieval) (console : option pystr) (fixer : inference)
  (subtask_index : Z) (tick : nat) (st : TaskState)
  : result (TaskState * nat * bool) :=
  if (subtask_index >=? n_subtasks st)%Z then Ok (st, tick, false)
  else
    match getitem (subtasks st) subtask_index with
    | None => Raise IndexError
    | Some subtask =>
      let generated_code :=
        Coder.generate U coder (current_code st) subtask in
      let fix_result :=
        Fixer.analyze_code U sandbox rag console fixer generated_code
                           (original_task st) in
      let final_code :=
        if Fixer.fix_applied fix_result then Fixer.fixed_code fix_result
        else generated_code in
      let st := add_code_chunk subtask final_code MODEL_coder
                  (clock tick) (clock (tick + 1)) st in
      let '(st, tick) :=
        record_errors (Fixer.errors_detected fix_result)
          (suffix_n 500 final_code) (Fixer.user_feedback fix_result)
          (tick + 2) st in
      Ok (st, tick, true)
    end.

(** Step 5 of [develop_game]: the final check. *)
Definition final_check (sandbox : pystr -> run) (rag : retrieval)
  (console : option pystr) (fixer : inference) (task_description : pystr)
  (st : TaskState) : TaskState :=
  let st := set_task_status TESTING st in
  match current_code st with
  | _ :: _ =>
    let fix_result :=
      Fixer.analyze_code U sandbox rag console fixer (current_code st)
                         task_description in
    if Fixer.execution_success fix_result then
      set_task_status COMPLETED (set_validation_status V_PASSED st)
    else set_validation_status V_FAILED st
  | [] => set_task_status FAILED st
  end.

(** Steps 5 and 6 of [develop_game]: the final check, then the save. *)
Definition finish_development (sandbox : pystr -> run) (rag : retrieval)
  (console : option pystr) (fixer : inference) (task_description : pystr)
  (store : gmap pystr file) (st : TaskState)
  : gmap pystr file * TaskState :=
  let st := final_check sandbox rag console fixer task_description st in
  (fst (save_state store st), st).
End WithCollaborators.

(** The name [_save_game_code] gives the file: [stamp] is the clock reading
    formatted by [strftime]. *)
Definition task_slug (st : TaskState) : pystr :=
  replace_char 47 95 (replace_char SPACE 95 (prefix_n 50 (original_task st))).

Definition game_filename (stamp : pystr) (st : TaskState) : pystr :=
  py:"game_" ++ task_slug st ++ py:"_" ++ stamp ++ py:".py".

End Agent.

(* ===================================================================== *)
(** * modules/finetuner.py *)
(* ===================================================================== *)

Module Finetuner.

(** [str(n)] of a non-negative integer: its decimal digits. *)
Fixpoint digits (fuel : nat) (n : N) (acc : pystr) : pystr :=
  match fuel with
  | O => acc
  | S fuel' =>
    let acc' := (48 + n mod 10) :: acc in
    if n <? 10 then acc' else digits fuel' (n / 10) acc'
  end.

Definition str_of_nat (n : nat) : pystr := digits (S n) (N.of_nat n) [].

(** A training example. *)
Record example := {
  instruction : pystr;
  response : pystr;
  model_type : pystr;
  task_id : pystr
}.

(** The lines [f"{i+1}. {subtask}"] for [enumerate(subtasks)], counted
    from [i]. *)
Fixpoint numbered_from (i : nat) (subtasks : list pystr) : list pystr :=
  match subtasks with
  | [] => []
  | subtask :: rest =>
    (str_of_nat (i + 1) ++ py:". " ++ subtask) :: numbered_from (S i) rest
  end.

Definition plan_text (subtasks : list pystr) : pystr :=
  join [NL] (numbered_from 0 subtasks).

Definition planner_example (st : TaskState) : example :=
  {| instruction := py:"Разбей задачу на подзадачи: " ++ original_task st;
     response := plan_text (subtasks st);
     model_type := py:"planner";
     task_id := State.task_id st |}.

Definition coder_example (st : TaskState) (chunk : CodeChunk.t) : example :=
  {| instruction := py:"Сгенерируй код PyGame для: " ++ CodeChunk.subtask chunk;
     response := prefix_n 1000 (CodeChunk.code chunk);
     model_type := py:"coder";
     task_id := State.task_id st |}.

(** What one loaded state adds to the examples in
    [collect_training_data]. *)
Definition examples_of_state (st : TaskState) : list example :=
  if str_eqb (TaskStatus_value (task_status st)) py:"completed"
     && match current_code st with [] => false | _ :: _ => true end
  then
    match subtasks st with
    | [] => []
    | _ :: _ => [planner_example st]
    end
    ++ map (coder_example st) (code_chunks st)
  else [].

End Finetuner.

(* ===================================================================== *)
(** * The vocabulary of the properties *)
(* ===================================================================== *)

(** The number of lines of [s] that hold the encoding declaration. *)
Definition declaration_lines (s : pystr) : nat :=
  length (List.filter (contains Fixer.ENCODING_DECL) (split [NL] s)).

(** Exactly one line holds the declaration, and the text begins with it. *)
Definition one_leading_declaration (s : pystr) : Prop :=
  startswith s Fixer.ENCODING_DECL = true /\ declaration_lines s = 1%nat.

(** Every character is printable ASCII, a newline, a tab or a carriage
    return. *)
Definition only_permitted (s : pystr) : Prop := forallb Fixer.permitted s = true.

(** The lines that do not hold the declaration. *)
Definition other_lines (ls : list pystr) : list pystr :=
  List.filter (fun l => negb (contains Fixer.ENCODING_DECL l)) ls.

(** Adjacent revisions chain: what one produced is what the next started
    from. *)
Definition chained (history : list Revision.t) : Prop :=
  forall i a b,
    history !! i = Some a -> history !! S i = Some b ->
    Revision.new_code a = Revision.previous_code b.

(** The code a history leads to: that of its last revision, or the empty
    text. *)
Definition latest_code (history : list Revision.t) : pystr :=
  match last history with
  | Some r => Revision.new_code r
  | None => []
  end.

(** The invariant of the code history of a session. *)
Definition history_chain (st : TaskState) : Prop :=
  chained (code_history st) /\ current_code st = latest_code (code_history st).

(** The bound of the data model on the position in the plan. *)
Definition index_in_plan (st : TaskState) : Prop :=
  (0 <= current_subtask_index st <= n_subtasks st)%Z.

(** A session that has received one revision, and a generated sprite. *)
Definition one_revision_session : TaskState :=
  add_code_chunk py:"Create the window" py:"import pygame" MODEL_coder
    py:"2025-12-21T07:29:40" py:"2025-12-21T07:29:41"
    (create_new_state py:"20251221_072935" py:"0123abcd4567"
       py:"2025-12-21T07:29:35" py:"2025-12-21T07:29:35"
       py:"create a platformer").

Definition hero_sprite : Agent.Sprite.t :=
  Agent.Sprite.mk py:"sprites/simple_character.png" py:"simple_character.png"
    py:"hero" py:"character" None py:"simple_pillow".

(** A session in the middle of a plan of three subtasks. *)
Definition mid_plan_session : TaskState :=
  set_current_subtask_index 1
    (set_subtasks [py:"Create the window"; py:"Add the player"; py:"Add scoring"]
       one_revision_session).


(** A stored record that gives the two status keys and nothing else. *)
Definition statuses_only : json :=
  JObj [(py:"task_status", JStr py:"pending");
        (py:"validation_status", JStr py:"not_started")].

Definition store_with_statuses_only : gmap pystr file :=
  <[filepath py:"task_1" := Json statuses_only]> ∅.

(** The issue the static analysis reports when the initialization call is
    missing. *)
Definition missing_init_issue : Fixer.Issue.t :=
  Fixer.Issue.mk py:"missing_init" py:"Missing pygame.init()" py:"critical" None.

(** Collaborators for the examples: an empty retrieval index, a sandbox in
    which every run ends with the given exit code and error output, and an
    inference service that is down. *)
Definition empty_index : retrieval := fun _ _ _ => [].

Definition sandbox_exit (returncode : Z) (stderr : pystr) : pystr -> run :=
  fun _ => Exited returncode [] stderr.

Definition service_down : inference := Raised py:"connection refused".

(** A sandbox in which every run is killed at the time limit. *)
Definition sandbox_timeout : pystr -> run := fun _ => TimeoutExpired.

(** A program the static analysis has nothing to say about. *)
Definition clean_program : pystr :=
  join [NL]
    [Fixer.ENCODING_DECL;
     py:"import pygame";
     py:"pygame.init()";
     py:"while True:";
     py:"    pygame.event.get()";
     py:"    pygame.display.flip()"].

(** The saved record of the session with one revision, with a key added
    that is no field of the state. *)
Definition record_with_unknown_key : json :=
  match to_dict one_revision_session with
  | JObj d => JObj (d ++ [(py:"color", JStr py:"blue")])
  | other => other
  end.

(** [k] calls of [move_to_next_subtask] in a row. *)
Fixpoint advance (k : nat) (st : TaskState) : result TaskState :=
  match k with
  | O => Ok st
  | S k' => st' <~ move_to_next_subtask st;; advance k' st'
  end.

(** A text without white space at either end. *)
Definition trimmed (U : unicode) (s : pystr) : Prop :=
  lstrip U s = s /\ lstrip U (rev s) = rev s.

(** The five dispositions [_get_user_feedback] can return. *)
Definition dispositions : list pystr :=
  [py:"success"; py:"auto_fix"; py:"manual_review"; py:"skip"; py:"cancel"].

(** What the tables must say of the characters of a numbered list for the
    Planner to read it: the digits 1 to 7 are digits and no white space,
    the dot is no digit, the space is white space. *)
Definition reads_numbered_lists (U : unicode) : Prop :=
  (forall d, 49 <= d <= 55 -> isdigit U d = true /\ isspace U d = false)
  /\ isdigit U 46 = false
  /\ isspace U SPACE = true.

(** A subtask the Planner's parser accepts as it is. *)
Definition plain_subtask (U : unicode) (s : pystr) : Prop :=
  (15 < length s)%nat
  /\ trimmed U s
  /\ (NL ∉ s)
  /\ startswith s py:"```" = false
  /\ contains py:"пример" (lower U s) = false.


(** A completed session with a plan of two subtasks. *)
Definition completed_session : TaskState :=
  set_task_status COMPLETED
    (set_subtasks [py:"Create the main game window";
                   py:"Add a red square moved by the arrows"]
       one_revision_session).

(* ===================================================================== *)
(** * Strings: prefixes, lines *)
(* ===================================================================== *)

Section StringFacts.

Lemma startswith_app (p s : pystr) : startswith (p ++ s) p = true.
Proof.
  induction p as [|a p IH]; simpl; [reflexivity|].
  rewrite N.eqb_refl. exact IH.
Qed.

Lemma startswith_inv (p s : pystr) :
  startswith s p = true -> exists r, s = p ++ r.
Proof.
  revert s. induction p as [|a p IH]; intros s H; simpl in H.
  - exists s. reflexivity.
  - destruct s as [|b s]; [discriminate|].
    apply andb_true_iff in H as [Hab Hs].
    apply N.eqb_eq in Hab. subst b.
    destruct (IH _ Hs) as [r ->]. exists r. reflexivity.
Qed.

Lemma contains_prefix (p s : pystr) : contains p (p ++ s) = true.
Proof.
  destruct (p ++ s) eqn:E; simpl; rewrite <- E, startswith_app; reflexivity.
Qed.

Lemma contains_app_r (sub a b : pystr) :
  contains sub b = true -> contains sub (a ++ b) = true.
Proof.
  intros H. induction a as [|c a IH]; simpl; [exact H|].
  rewrite IH. apply orb_true_r.
Qed.

Lemma split_nl_cons (c : char) (s : pystr) :
  split [NL] (c :: s) =
  if NL =? c then [] :: split [NL] s
  else match split [NL] s with
       | l :: ls => (c :: l) :: ls
       | [] => [[c]]
       end.
Proof.
  unfold split. cbn [split_from startswith length Nat.sub].
  rewrite andb_true_r. reflexivity.
Qed.

Lemma split_nl_not_nil (s : pystr) : split [NL] s <> [].
Proof.
  induction s as [|c s IH]; [discriminate|].
  rewrite split_nl_cons.
  destruct (NL =? c); [discriminate|].
  destruct (split [NL] s); discriminate.
Qed.

Lemma join_cons (sep p : pystr) (q : pystr) (rest : list pystr) :
  join sep (p :: q :: rest) = p ++ sep ++ join sep (q :: rest).
Proof. reflexivity. Qed.

Lemma join_split_nl (s : pystr) : join [NL] (split [NL] s) = s.
Proof.
  induction s as [|c s IH]; [reflexivity|].
  rewrite split_nl_cons.
  destruct (N.eqb_spec NL c) as [<-|Hc].
  - destruct (split [NL] s) as [|l ls] eqn:E.
    + exfalso. exact (split_nl_not_nil s E).
    + rewrite join_cons, IH. reflexivity.
  - destruct (split [NL] s) as [|l ls] eqn:E.
    + exfalso. exact (split_nl_not_nil s E).
    + destruct ls as [|l' ls].
      * change (c :: l = c :: s). f_equal. exact IH.
      * rewrite join_cons in IH |- *.
        change (c :: (l ++ [NL] ++ join [NL] (l' :: ls)) = c :: s).
        f_equal. exact IH.
Qed.

Lemma split_nl_line (l : pystr) : NL ∉ l -> split [NL] l = [l].
Proof.
  induction l as [|c l IH]; intros H; [reflexivity|].
  apply not_elem_of_cons in H as [Hc Hl].
  rewrite split_nl_cons, (IH Hl).
  destruct (N.eqb_spec NL c); [congruence | reflexivity].
Qed.

Lemma split_nl_app (l r : pystr) :
  NL ∉ l -> split [NL] (l ++ NL :: r) = l :: split [NL] r.
Proof.
  induction l as [|c l IH]; intros H.
  - simpl. rewrite split_nl_cons, N.eqb_refl. reflexivity.
  - apply not_elem_of_cons in H as [Hc Hl].
    simpl. rewrite split_nl_cons, (IH Hl).
    destruct (N.eqb_spec NL c); [congruence | reflexivity].
Qed.

Lemma split_nl_prefix (p t : pystr) :
  NL ∉ p ->
  exists l ls, split [NL] t = l :: ls /\ split [NL] (p ++ t) = (p ++ l) :: ls.
Proof.
  induction p as [|c p IH]; intros H.
  - destruct (split [NL] t) as [|l ls] eqn:E.
    + exfalso. exact (split_nl_not_nil t E).
    + exists l, ls. split; [reflexivity | exact E].
  - apply not_elem_of_cons in H as [Hc Hp].
    destruct (IH Hp) as (l & ls & Ht & Hpt).
    exists l, ls. split; [exact Ht|].
    simpl. rewrite split_nl_cons, Hpt.
    destruct (N.eqb_spec NL c); [congruence | reflexivity].
Qed.

Lemma split_nl_no_newline (s : pystr) : Forall (fun l => NL ∉ l) (split [NL] s).
Proof.
  induction s as [|c s IH].
  - repeat constructor. apply not_elem_of_nil.
  - rewrite split_nl_cons.
    destruct (N.eqb_spec NL c) as [|Hc].
    + constructor; [apply not_elem_of_nil | exact IH].
    + destruct (split [NL] s) as [|l ls].
      * repeat constructor. apply not_elem_of_cons. split; [congruence|].
        apply not_elem_of_nil.
      * inversion IH; subst. constructor; [|assumption].
        apply not_elem_of_cons. split; [congruence | assumption].
Qed.

Lemma split_join_nl (ls : list pystr) :
  ls <> [] -> Forall (fun l => NL ∉ l) ls -> split [NL] (join [NL] ls) = ls.
Proof.
  induction ls as [|l ls IH]; intros Hne Hall; [congruence|].
  inversion Hall as [|? ? Hl Hls]; subst.
  destruct ls as [|l' ls].
  - simpl. apply split_nl_line. exact Hl.
  - rewrite join_cons.
    change (l ++ [NL] ++ join [NL] (l' :: ls))
      with (l ++ NL :: join [NL] (l' :: ls)).
    rewrite (split_nl_app _ _ Hl).
    rewrite IH; [reflexivity | discriminate | exact Hls].
Qed.

Lemma forallb_join_nl (P : char -> bool) (ls : list pystr) :
  P NL = true -> Forall (fun l => forallb P l = true) ls ->
  forallb P (join [NL] ls) = true.
Proof.
  intros HP. induction ls as [|l ls IH]; intros H; [reflexivity|].
  inversion H as [|? ? Hl Hls]; subst.
  destruct ls as [|l' ls]; [exact Hl|].
  rewrite join_cons, forallb_app, Hl.
  change ([NL] ++ join [NL] (l' :: ls)) with (NL :: join [NL] (l' :: ls)).
  cbn [forallb andb]. rewrite HP. apply IH. exact Hls.
Qed.

Lemma forallb_split_nl (P : char -> bool) (s : pystr) :
  forallb P s = true -> Forall (fun l => forallb P l = true) (split [NL] s).
Proof.
  induction s as [|c s IH]; intros H.
  - repeat constructor.
  - simpl in H. apply andb_true_iff in H as [Hc Hs].
    specialize (IH Hs). rewrite split_nl_cons.
    destruct (NL =? c).
    + constructor; [reflexivity | exact IH].
    + destruct (split [NL] s) as [|l ls].
      * repeat constructor. simpl. rewrite Hc. reflexivity.
      * inversion IH; subst. constructor; [|assumption].
        simpl. rewrite Hc. assumption.
Qed.

End StringFacts.

(* ===================================================================== *)
(** * Sanitization *)
(* ===================================================================== *)

Section Sanitization.

Import Fixer.

Lemma decl_no_newline : NL ∉ ENCODING_DECL.
Proof.
  intros H. apply list_elem_of_In in H. vm_compute in H.
  repeat (destruct H as [H|H]; [discriminate H|]). exact H.
Qed.

Lemma blank_permitted (c : char) : permitted (blank c) = true.
Proof.
  unfold blank. destruct (permitted c) eqn:E; [exact E | reflexivity].
Qed.

Lemma map_blank_permitted (s : pystr) : forallb permitted (map blank s) = true.
Proof.
  induction s as [|c s IH]; [reflexivity|].
  cbn [map forallb]. rewrite blank_permitted. exact IH.
Qed.

Lemma map_blank_fixed (s : pystr) :
  forallb permitted s = true -> map blank s = s.
Proof.
  induction s as [|c s IH]; intros H; [reflexivity|].
  cbn [forallb] in H. apply andb_true_iff in H as [Hc Hs].
  cbn [map]. rewrite (IH Hs). unfold blank. rewrite Hc. reflexivity.
Qed.

Lemma map_blank_decl : map blank ENCODING_DECL = ENCODING_DECL.
Proof. reflexivity. Qed.

Lemma Forall_filter {A} (P : A -> Prop) (f : A -> bool) (l : list A) :
  Forall P l -> Forall P (List.filter f l).
Proof.
  induction 1 as [|x l Hx Hl IH]; cbn [List.filter]; [constructor|].
  destruct (f x); [constructor|]; assumption.
Qed.

Lemma other_lines_idem (ls : list pystr) :
  other_lines (other_lines ls) = other_lines ls.
Proof.
  unfold other_lines. induction ls as [|l ls IH]; [reflexivity|].
  cbn [List.filter]. destruct (contains ENCODING_DECL l) eqn:E; cbn [negb].
  - exact IH.
  - cbn [List.filter]. rewrite E. cbn [negb]. rewrite IH. reflexivity.
Qed.

Lemma other_lines_no_decl (ls : list pystr) :
  List.filter (contains ENCODING_DECL) (other_lines ls) = [].
Proof.
  unfold other_lines. induction ls as [|l ls IH]; [reflexivity|].
  cbn [List.filter]. destruct (contains ENCODING_DECL l) eqn:E; cbn [negb].
  - exact IH.
  - cbn [List.filter]. rewrite E. exact IH.
Qed.

Lemma drop_repeated_added (lines cleaned : list pystr) :
  drop_repeated lines cleaned true = (cleaned ++ other_lines lines, true).
Proof.
  revert cleaned. induction lines as [|l lines IH]; intros cleaned.
  - cbn. rewrite app_nil_r. reflexivity.
  - cbn [drop_repeated]. unfold other_lines. cbn [List.filter].
    destruct (contains ENCODING_DECL l); cbn [negb].
    + apply IH.
    + rewrite IH. rewrite <- app_assoc. reflexivity.
Qed.

Lemma drop_repeated_first (first : pystr) (rest : list pystr) :
  contains ENCODING_DECL first = true ->
  drop_repeated (first :: rest) [] false = (first :: other_lines rest, true).
Proof.
  intros H. cbn [drop_repeated]. rewrite H. apply drop_repeated_added.
Qed.

(** Once the declaration is in front, the result is the first line
    followed by the lines without declaration. *)
Lemma sanitize_with_prefix (s t l : pystr) (ls : list pystr) :
  s <> [] ->
  map blank (with_declaration s) = ENCODING_DECL ++ t ->
  split [NL] t = l :: ls ->
  _sanitize_code s = join [NL] ((ENCODING_DECL ++ l) :: other_lines ls).
Proof.
  intros Hs Hmap Ht.
  destruct s as [|c s]; [congruence|].
  unfold _sanitize_code. cbv zeta. rewrite Hmap.
  destruct (split_nl_prefix ENCODING_DECL t decl_no_newline)
    as (l' & ls' & Ht' & Hsplit).
  rewrite Ht in Ht'. injection Ht' as <- <-.
  rewrite Hsplit.
  rewrite (drop_repeated_first _ _ (contains_prefix ENCODING_DECL l)).
  rewrite (contains_prefix ENCODING_DECL l). reflexivity.
Qed.

(** The text the declaration is put in front of. *)
Lemma sanitize_prefixed (s : pystr) :
  exists t,
    map blank (with_declaration s) = ENCODING_DECL ++ t
    /\ forallb permitted t = true.
Proof.
  unfold with_declaration.
  destruct (startswith s ENCODING_DECL) eqn:E.
  - destruct (startswith_inv _ _ E) as [r ->].
    exists (map blank r).
    rewrite map_app, map_blank_decl. split; [reflexivity|].
    apply map_blank_permitted.
  - exists (map blank ([NL] ++ s)).
    rewrite map_app, map_blank_decl. split; [reflexivity|].
    apply map_blank_permitted.
Qed.

Lemma sanitize_shape (s : pystr) :
  s <> [] ->
  exists l ls,
    _sanitize_code s = join [NL] ((ENCODING_DECL ++ l) :: other_lines ls)
    /\ Forall (fun x => forallb permitted x = true) ((ENCODING_DECL ++ l) :: ls)
    /\ Forall (fun x => NL ∉ x) ((ENCODING_DECL ++ l) :: ls).
Proof.
  intros Hs.
  destruct (sanitize_prefixed s) as (t & Hmap & Hperm).
  destruct (split_nl_prefix ENCODING_DECL t decl_no_newline)
    as (l & ls & Ht & Hsplit).
  exists l, ls. split; [|split].
  - exact (sanitize_with_prefix s t l ls Hs Hmap Ht).
  - rewrite <- Hsplit. apply forallb_split_nl.
    rewrite forallb_app, Hperm. reflexivity.
  - rewrite <- Hsplit. apply split_nl_no_newline.
Qed.

Lemma join_head (sep p : pystr) (rest : list pystr) :
  exists r, join sep (p :: rest) = p ++ r.
Proof.
  destruct rest as [|q rest].
  - exists []. cbn. rewrite app_nil_r. reflexivity.
  - exists (sep ++ join sep (q :: rest)). reflexivity.
Qed.

(** What holds of any text of the shape sanitization produces. *)
Lemma shape_properties (l : pystr) (ls : list pystr) :
  Forall (fun x => forallb permitted x = true) ((ENCODING_DECL ++ l) :: ls) ->
  Forall (fun x => NL ∉ x) ((ENCODING_DECL ++ l) :: ls) ->
  let y := join [NL] ((ENCODING_DECL ++ l) :: other_lines ls) in
  _sanitize_code y = y /\ only_permitted y /\ one_leading_declaration y.
Proof.
  intros Hperm Hnl y.
  assert (Hperm' : Forall (fun x => forallb permitted x = true)
                     ((ENCODING_DECL ++ l) :: other_lines ls)).
  { inversion Hperm; subst. constructor; [assumption|].
    apply Forall_filter. assumption. }
  assert (Hnl' : Forall (fun x => NL ∉ x)
                   ((ENCODING_DECL ++ l) :: other_lines ls)).
  { inversion Hnl; subst. constructor; [assumption|].
    apply Forall_filter. assumption. }
  assert (Hy : only_permitted y).
  { apply forallb_join_nl; [reflexivity | exact Hperm']. }
  assert (Hsplit : split [NL] y = (ENCODING_DECL ++ l) :: other_lines ls).
  { apply split_join_nl; [discriminate | exact Hnl']. }
  assert (Hstart : startswith y ENCODING_DECL = true).
  { destruct (join_head [NL] (ENCODING_DECL ++ l) (other_lines ls)) as [r Hr].
    unfold y. rewrite Hr, <- app_assoc. apply startswith_app. }
  split; [|split].
  - destruct (startswith_inv _ _ Hstart) as [t Hyt].
    destruct (split_nl_prefix ENCODING_DECL t decl_no_newline)
      as (l' & ls' & Ht & Hpt).
    rewrite <- Hyt, Hsplit in Hpt. injection Hpt as Hl Hls.
    rewrite (sanitize_with_prefix y t l' ls').
    + rewrite <- Hl, <- Hls, other_lines_idem. reflexivity.
    + rewrite Hyt. discriminate.
    + unfold with_declaration. rewrite Hstart.
      rewrite (map_blank_fixed y Hy). exact Hyt.
    + exact Ht.
  - exact Hy.
  - split; [exact Hstart|].
    unfold declaration_lines. rewrite Hsplit.
    cbn [List.filter]. rewrite contains_prefix, other_lines_no_decl.
    reflexivity.
Qed.

(** C3, as the code has it. For every text [x], sanitizing twice gives what
    sanitizing once gives, and the result holds only printable ASCII,
    newlines, tabs and carriage returns. For every non-empty [x] exactly one
    line of the result holds the encoding declaration and the result begins
    with it; the empty text is returned as it is, without a declaration. *)
Theorem sanitize_idempotent_and_clean (x : pystr) :
  _sanitize_code (_sanitize_code x) = _sanitize_code x
  /\ only_permitted (_sanitize_code x)
  /\ match x with
     | [] => _sanitize_code x = []
     | _ :: _ => one_leading_declaration (_sanitize_code x)
     end.
Proof.
destruct x as [|c x].
- repeat split.
- destruct (sanitize_shape (c :: x)) as (l & ls & Heq & Hperm & Hnl);
    [discriminate|].
  rewrite Heq.
  destruct (shape_properties l ls Hperm Hnl) as (Hidem & Hclean & Hdecl).
  repeat split; assumption || apply Hdecl.
Qed.

(** C3 as stated fails on the empty text: its result is the empty text,
    which holds no encoding declaration. *)
Lemma sanitize_empty_no_declaration :
  ~ (_sanitize_code (_sanitize_code []) = _sanitize_code []
     /\ one_leading_declaration (_sanitize_code [])
     /\ only_permitted (_sanitize_code [])).
Proof.
intros (_ & (Hstart & _) & _). vm_compute in Hstart. discriminate Hstart.
Qed.

End Sanitization.

(* ===================================================================== *)
(** * Floats: rounding keeps the order *)
(* ===================================================================== *)

Section FloatFacts.
Import Float.
Local Open Scope Q_scope.




























(** For every plan length from 1 to 32 and every position from -32 to 96,
    within the plan or not, the progress computed by [round] is the one
    the Standard Library's specification of IEEE 754 division and
    multiplication gives. *)
Lemma scaled_agrees_with_SpecFloat :
  forallb
    (fun n =>
       forallb
         (fun i =>
            match of_spec (spec_scaled i n 100) with
            | Some (Finite q) =>
              Qeq_bool q (round (round (inject_Z i / inject_Z n) * 100))
            | _ => false
            end)
         (map (fun k => (Z.of_nat k - 32)%Z) (seq 0 129)))
    (map Z.of_nat (seq 1 32))
  = true.
Proof. vm_compute. reflexivity. Qed.

End FloatFacts.

(* ===================================================================== *)
(** * The task state *)
(* ===================================================================== *)

Section TaskStateFacts.

(** C10. [add_code_chunk] appends exactly one entry to the code history,
    replaces the current code and the update time, and leaves every other
    field of the state as it was. *)
Theorem add_code_chunk_frame
  (subtask new_full_code model_used now1 now2 : pystr) (st : TaskState) :
  let st' := add_code_chunk subtask new_full_code model_used now1 now2 st in
  code_history st' =
    code_history st
    ++ [Revision.mk now1 subtask (current_code st) new_full_code model_used]
  /\ current_code st' = new_full_code
  /\ updated_at st' = now2
  /\ task_id st' = task_id st
  /\ original_task st' = original_task st
  /\ created_at st' = created_at st
  /\ task_status st' = task_status st
  /\ validation_status st' = validation_status st
  /\ subtasks st' = subtasks st
  /\ current_subtask_index st' = current_subtask_index st
  /\ current_subtask st' = current_subtask st
  /\ errors_detected st' = errors_detected st
  /\ rag_searches st' = rag_searches st
  /\ total_executions st' = total_executions st
  /\ successful_executions st' = successful_executions st
  /\ metadata st' = metadata st
  /\ code_chunks st' = code_chunks st
  /\ user_feedback_history st' = user_feedback_history st
  /\ models_used st' = models_used st.
Proof.
intros st'. subst st'. unfold add_code_chunk. cbn.
repeat split.
Qed.

Lemma latest_code_snoc (history : list Revision.t) (r : Revision.t) :
  latest_code (history ++ [r]) = Revision.new_code r.
Proof.
unfold latest_code. rewrite last_snoc. reflexivity.
Qed.

Lemma chained_snoc (history : list Revision.t) (r : Revision.t) :
  chained history ->
  Revision.previous_code r = latest_code history ->
  chained (history ++ [r]).
Proof.
intros Hch Hprev i a b Ha Hb.
assert (Hlt : (S i < length (history ++ [r]))%nat)
  by (apply lookup_lt_is_Some; eauto).
rewrite length_app in Hlt. cbn in Hlt.
rewrite lookup_app_l in Ha by lia.
destruct (decide (S i < length history)%nat) as [Hin|Hout].
- rewrite lookup_app_l in Hb by lia. exact (Hch i a b Ha Hb).
- assert (Hi : S i = length history) by lia.
  rewrite Hi, list_lookup_middle in Hb by reflexivity.
  injection Hb as <-. rewrite Hprev. unfold latest_code.
  rewrite last_lookup. replace (pred (length history)) with i by lia.
  rewrite Ha. reflexivity.
Qed.

(** The initial state has the invariant. *)
Lemma history_chain_create (stamp uid now1 now2 task : pystr) :
  history_chain (create_new_state stamp uid now1 now2 task).
Proof.
split; [|reflexivity]. intros i a b Ha.
change (@nil Revision.t !! i = Some a) in Ha.
rewrite lookup_nil in Ha. discriminate.
Qed.

(** Recording a revision keeps it. *)
Lemma history_chain_add_code_chunk
  (subtask new_full_code model_used now1 now2 : pystr) (st : TaskState) :
  history_chain st ->
  history_chain (add_code_chunk subtask new_full_code model_used now1 now2 st).
Proof.
intros [Hch Hcur]. split; cbn.
- apply chained_snoc; [exact Hch | exact Hcur].
- rewrite latest_code_snoc. reflexivity.
Qed.

Lemma history_chain_add_error (t d c : pystr) (u : option pystr)
  (now1 now2 : pystr) (st : TaskState) :
  history_chain st -> history_chain (add_error t d c u now1 now2 st).
Proof. intros H. exact H. Qed.

Lemma history_chain_move (st st' : TaskState) :
  move_to_next_subtask st = Ok st' -> history_chain st -> history_chain st'.
Proof.
unfold move_to_next_subtask. intros H Hst.
destruct (current_subtask_index st <? n_subtasks st - 1)%Z.
- destruct (getitem _ _); [|discriminate]. injection H as <-. exact Hst.
- injection H as <-. exact Hst.
Qed.

(** Recording errors leaves the code and its history alone. *)
Lemma record_errors_code (clock : nat -> pystr) (errors : list Fixer.Issue.t)
  (context : pystr) (feedback : option pystr) (tick : nat) (st : TaskState) :
  let st' := fst (Agent.record_errors clock errors context feedback tick st) in
  code_history st' = code_history st /\ current_code st' = current_code st.
Proof.
revert tick st. induction errors as [|e errors IH]; intros tick st.
- split; reflexivity.
- cbn [Agent.record_errors].
  destruct (IH (tick + 2)%nat
              (add_error (Fixer.Issue.type e) (Fixer.Issue.description e)
                 context feedback (clock tick) (clock (tick + 1)%nat) st))
    as [Hh Hc].
  split; [rewrite Hh | rewrite Hc]; reflexivity.
Qed.

(** A whole subtask cycle of the orchestrator keeps the invariant,
    whatever the index. *)
Lemma history_chain_execute_subtask (U : unicode) (clock : nat -> pystr)
  (coder : inference) (sandbox : pystr -> run) (rag : retrieval)
  (console : option pystr) (fixer : inference) (i : Z) (tick : nat)
  (st : TaskState) (done : TaskState * nat * bool) :
  history_chain st ->
  Agent.execute_subtask U clock coder sandbox rag console fixer i tick st
  = Ok done ->
  history_chain (fst (fst done)).
Proof.
intros Hst. unfold Agent.execute_subtask.
destruct (i >=? n_subtasks st)%Z; [intros [= <-]; exact Hst|].
destruct (getitem (subtasks st) i) as [subtask|]; [|discriminate].
match goal with
| |- context [Agent.record_errors ?c ?e ?x ?f ?t ?s] =>
  pose proof (record_errors_code c e x f t s) as [Hh Hc];
  pose proof (history_chain_add_code_chunk
                subtask (current_code s) MODEL_coder (clock tick)
                (clock (tick + 1)%nat) st Hst) as Hs;
  destruct (Agent.record_errors c e x f t s) as [st' tick']
end.
intros [= <-].
cbn [fst] in *. unfold history_chain in *. rewrite Hh, Hc. exact Hs.
Qed.

(** The plan position stays within the plan along the pipeline. *)
Lemma index_in_plan_create (stamp uid now1 now2 task : pystr) :
  index_in_plan (create_new_state stamp uid now1 now2 task).
Proof. unfold index_in_plan, n_subtasks. cbn. lia. Qed.

Lemma index_in_plan_plan_task (U : unicode) (planner : inference)
  (st : TaskState) :
  index_in_plan (Agent.plan_task U planner st).
Proof. unfold index_in_plan, n_subtasks. cbn. lia. Qed.

Lemma index_in_plan_select_subtask (i : nat) (st : TaskState) :
  index_in_plan st -> index_in_plan (Agent.select_subtask i st).
Proof.
intros H. unfold Agent.select_subtask.
destruct (subtasks st !! i) as [s|] eqn:E; [|exact H].
apply lookup_lt_Some in E.
unfold index_in_plan, n_subtasks. cbn. lia.
Qed.

Lemma index_in_plan_add_code_chunk
  (subtask new_full_code model_used now1 now2 : pystr) (st : TaskState) :
  index_in_plan st ->
  index_in_plan (add_code_chunk subtask new_full_code model_used now1 now2 st).
Proof. intros H. exact H. Qed.

(** C1, at the input where the code departs from it. After one recorded
    revision the history chains and ends at the current code; the sprite
    injection of the orchestrator then replaces the current code without
    recording a revision, and the current code is no longer the new code of
    the last entry. *)
Theorem sprite_injection_breaks_history_chain :
  history_chain one_revision_session
  /\ ~ history_chain (Agent._add_sprites_to_game [hero_sprite] one_revision_session).
Proof.
split.
- apply history_chain_add_code_chunk, history_chain_create.
- intros [_ H]. vm_compute in H. discriminate H.
Qed.


(** Within the plan, the advance reads an existing subtask. *)
Lemma move_to_next_subtask_reads (st : TaskState) :
  index_in_plan st ->
  (current_subtask_index st < n_subtasks st - 1)%Z ->
  exists s,
    getitem (subtasks st) (current_subtask_index st + 1) = Some s.
Proof.
intros [H0 Hn] Hlt. unfold getitem.
destruct (Z.leb_spec 0 (current_subtask_index st + 1)) as [_|]; [|lia].
apply lookup_lt_is_Some. unfold n_subtasks in Hlt. lia.
Qed.




End TaskStateFacts.

(* ===================================================================== *)
(** * Persistence *)
(* ===================================================================== *)

Section Persistence.

Lemma as_all_map {A} (f : json -> option A) (g : A -> json) (l : list A) :
  (forall x, f (g x) = Some x) -> as_all f (map g l) = Some l.
Proof.
intros H. induction l as [|x l IH]; [reflexivity|].
cbn [map as_all]. rewrite H, IH. reflexivity.
Qed.

Lemma as_list_strs (l : list pystr) : as_list as_str (strs_json l) = Some l.
Proof. apply (as_all_map as_str JStr). reflexivity. Qed.

Lemma as_optional_str (o : option pystr) :
  as_optional as_str (opt_json JStr o) = Some o.
Proof. destruct o; reflexivity. Qed.

Lemma as_optional_strs (o : option (list pystr)) :
  as_optional (as_list as_str) (opt_json strs_json o) = Some o.
Proof.
destruct o as [l|]; [|reflexivity].
unfold as_optional, opt_json. change (strs_json l) with (JList (map JStr l)).
cbv iota.
change (as_list as_str (JList (map JStr l))) with (as_list as_str (strs_json l)).
rewrite as_list_strs. reflexivity.
Qed.

Lemma each_map {A} (f : json -> result unit) (g : A -> json) (l : list A) :
  (forall x, f (g x) = Ok tt) -> each f (map g l) = Ok tt.
Proof.
intros H. induction l as [|x l IH]; [reflexivity|].
cbn [map each]. rewrite H. exact IH.
Qed.

Lemma CodeChunk_roundtrip (c : CodeChunk.t) :
  CodeChunk.construct (CodeChunk.asdict c) = Some c.
Proof.
destruct c as [a b t m r e].
unfold CodeChunk.construct, CodeChunk.asdict.
cbn [as_dict mbind option_bind kwarg_req kwarg dict_get str_eqb N.eqb Pos.eqb
     andb as_str CodeChunk.subtask CodeChunk.code CodeChunk.timestamp
     CodeChunk.model_used CodeChunk.rag_context CodeChunk.errors].
rewrite as_optional_strs, as_list_strs. reflexivity.
Qed.

Lemma CodeChunk_kwargs (c : CodeChunk.t) :
  check_kwargs CodeChunk.fields CodeChunk.required (CodeChunk.asdict c) = Ok tt.
Proof. reflexivity. Qed.

Lemma ErrorInfo_roundtrip (e : ErrorInfo.t) :
  ErrorInfo.construct (ErrorInfo.asdict e) = Some e.
Proof.
destruct e as [a b c t u f].
unfold ErrorInfo.construct, ErrorInfo.asdict.
cbn [as_dict mbind option_bind kwarg_req kwarg dict_get str_eqb N.eqb Pos.eqb
     andb as_str ErrorInfo.type ErrorInfo.description ErrorInfo.code_context
     ErrorInfo.timestamp ErrorInfo.user_feedback ErrorInfo.suggested_fix].
rewrite !as_optional_str. reflexivity.
Qed.

Lemma ErrorInfo_kwargs (e : ErrorInfo.t) :
  check_kwargs ErrorInfo.fields ErrorInfo.required (ErrorInfo.asdict e) = Ok tt.
Proof. reflexivity. Qed.

Lemma Revision_roundtrip (r : Revision.t) :
  Revision.of_json (Revision.to_json r) = Some r.
Proof. destruct r. reflexivity. Qed.

Lemma Feedback_roundtrip (f : Feedback.t) :
  Feedback.of_json (Feedback.to_json f) = Some f.
Proof. destruct f. reflexivity. Qed.

Lemma TaskStatus_roundtrip (s : TaskStatus) :
  TaskStatus_of (JStr (TaskStatus_value s)) = Ok s.
Proof. destruct s; reflexivity. Qed.

Lemma ValidationStatus_roundtrip (s : ValidationStatus) :
  ValidationStatus_of (JStr (ValidationStatus_value s)) = Ok s.
Proof. destruct s; reflexivity. Qed.

Lemma construct_to_dict (st : TaskState) (d : dict) :
  to_dict st = JObj d ->
  construct d (task_status st) (validation_status st)
    (map CodeChunk.asdict (code_chunks st))
    (map ErrorInfo.asdict (errors_detected st)) = Some st.
Proof.
destruct st. intros H. injection H as <-.
unfold construct.
cbn [mbind option_bind kwarg_req kwarg dict_get str_eqb N.eqb Pos.eqb andb
     as_str as_int as_dict generated_code
     task_id original_task created_at updated_at task_status validation_status
     subtasks current_subtask_index current_subtask metadata code_chunks
     current_code code_history errors_detected user_feedback_history
     models_used rag_searches total_executions successful_executions].
rewrite !as_list_strs, as_optional_str.
rewrite (as_all_map _ _ _ CodeChunk_roundtrip).
rewrite (as_all_map _ _ _ ErrorInfo_roundtrip).
cbn [mbind option_bind as_list].
rewrite (as_all_map _ _ _ Revision_roundtrip).
rewrite (as_all_map _ _ _ Feedback_roundtrip).
reflexivity.
Qed.

(** Deserialization undoes serialization. *)
Lemma from_dict_to_dict (st : TaskState) : from_dict (to_dict st) = Ok st.
Proof.
unfold from_dict.
destruct (to_dict st) as [| | | | |d] eqn:E; try discriminate E.
pose proof (construct_to_dict st d E) as Hc.
unfold to_dict in E. injection E as <-.
change (subscript _ _) with (Ok (JStr (TaskStatus_value (task_status st)))) at 1.
cbn [bind]. rewrite TaskStatus_roundtrip. cbn [bind].
change (subscript _ _)
  with (Ok (JStr (ValidationStatus_value (validation_status st)))).
cbn [bind]. rewrite ValidationStatus_roundtrip. cbn [bind].
change (get_default _ _ _)
  with (JList (map CodeChunk.asdict (code_chunks st))) at 1.
cbn [iterate bind]. rewrite (each_map _ _ _ CodeChunk_kwargs). cbn [bind].
change (get_default _ _ _)
  with (JList (map ErrorInfo.asdict (errors_detected st))).
cbn [iterate bind]. rewrite (each_map _ _ _ ErrorInfo_kwargs). cbn [bind].
change (check_kwargs _ _ _) with (@Ok unit tt). cbn [bind].
rewrite Hc. reflexivity.
Qed.

(** C7. Saving a state and loading the record of its [task_id] returns a
    state equal to the saved one, in every field: the enum members, the code
    history, the errors and the other nested lists included. *)
Theorem load_state_after_save_state (store : gmap pystr file) (st : TaskState) :
  load_state (fst (save_state store st)) (task_id st) = Ok (Some st).
Proof.
unfold load_state, save_state. cbn [fst].
rewrite lookup_insert_eq, from_dict_to_dict. reflexivity.
Qed.

(** No record: absent. *)
Lemma load_state_no_record (store : gmap pystr file) (id : pystr) :
  store !! filepath id = None -> load_state store id = Ok None.
Proof. intros H. unfold load_state. rewrite H. reflexivity. Qed.

(** A record that is not a JSON document: absent. *)
Lemma load_state_not_json (store : gmap pystr file) (id : pystr) :
  store !! filepath id = Some NotJson -> load_state store id = Ok None.
Proof. intros H. unfold load_state. rewrite H. reflexivity. Qed.

(** A record without the status key: absent. *)
Lemma load_state_no_status_key (store : gmap pystr file) (id : pystr) (d : dict) :
  store !! filepath id = Some (Json (JObj d)) ->
  dict_get py:"task_status" d = None ->
  load_state store id = Ok None.
Proof.
intros H Hk. unfold load_state, from_dict, subscript. rewrite H, Hk.
reflexivity.
Qed.

(** A record whose status is no value of the enum: absent. *)
Lemma load_state_unknown_status (store : gmap pystr file) (id : pystr)
  (d : dict) (v : json) :
  store !! filepath id = Some (Json (JObj d)) ->
  dict_get py:"task_status" d = Some v ->
  TaskStatus_of v = Raise ValueError ->
  load_state store id = Ok None.
Proof.
intros H Hk Hv. unfold load_state, from_dict, subscript. rewrite H, Hk.
cbn [bind]. rewrite Hv. reflexivity.
Qed.

(** C9, at the input where the code departs from it. The stored record
    gives both status keys and lacks [task_id] and the other fields without
    default: the constructor call raises TypeError, which the handler of
    [load_state] does not catch. *)
Theorem load_state_missing_field_raises :
  store_with_statuses_only !! filepath py:"task_1" = Some (Json statuses_only)
  /\ load_state store_with_statuses_only py:"task_1" = Raise TypeError.
Proof.
assert (H : store_with_statuses_only !! filepath py:"task_1"
            = Some (Json statuses_only)).
{ unfold store_with_statuses_only. apply lookup_insert_eq. }
split; [exact H|].
unfold load_state. rewrite H. reflexivity.
Qed.


End Persistence.

(* ===================================================================== *)
(** * The Validator *)
(* ===================================================================== *)

Section Validator.

Lemma In_when {A} (b : bool) (x : A) : b = true -> In x (Fixer.when b x).
Proof. intros ->. left. reflexivity. Qed.

(** Source without the initialization call gets the critical issue. *)
Lemma static_analysis_missing_init (code : pystr) :
  contains py:"pygame.init()" code = false ->
  In missing_init_issue (Fixer._static_analysis code).
Proof.
intros H. unfold Fixer._static_analysis.
apply in_or_app. right. apply in_or_app. right. apply in_or_app. left.
apply In_when. rewrite H. reflexivity.
Qed.

(** A run that exits with code zero is a success, and then the errors
    detected are those of the static analysis. *)
Lemma analyze_code_zero_exit (U : unicode) (sandbox : pystr -> run)
  (rag : retrieval) (console : option pystr) (infer : inference)
  (code task out err : pystr) :
  sandbox (Fixer._sanitize_code code) = Exited 0 out err ->
  let r := Fixer.analyze_code U sandbox rag console infer code task in
  Fixer.execution_success r = true
  /\ Fixer.errors_detected r = Fixer._static_analysis code.
Proof.
intros H r. subst r. unfold Fixer.analyze_code, Fixer._execute_code_safe.
rewrite H. cbn [Fixer.success Z.eqb]. rewrite app_nil_r.
destruct (Fixer._static_analysis code) as [|i l]; cbn [orb negb].
- split; reflexivity.
- destruct (negb _); split; reflexivity.
Qed.

(** C6, as the code has it. Source without the call [pygame.init()] gets
    from the static analysis a critical issue of type missing_init. For
    source whose sandboxed run exits with code zero and empty error output,
    [analyze_code] reports success, and the errors it reports are exactly
    the issues of the static analysis: none when the static analysis has
    none. *)
Theorem validator_missing_init_and_success (U : unicode)
  (sandbox : pystr -> run) (rag : retrieval) (console : option pystr)
  (infer : inference) (code task : pystr) :
  (contains py:"pygame.init()" code = false ->
   In missing_init_issue (Fixer._static_analysis code))
  /\ (forall out,
       sandbox (Fixer._sanitize_code code) = Exited 0 out [] ->
       let r := Fixer.analyze_code U sandbox rag console infer code task in
       Fixer.execution_success r = true
       /\ Fixer.errors_detected r = Fixer._static_analysis code
       /\ (Fixer._static_analysis code = [] -> Fixer.errors_detected r = [])).
Proof.
split.
- apply static_analysis_missing_init.
- intros out H r.
  destruct (analyze_code_zero_exit U sandbox rag console infer code task out [] H)
    as [Hs He].
  split; [exact Hs|]. split; [exact He|].
  intros Hnone. subst r. rewrite He. exact Hnone.
Qed.

(** The theorem at the one-line program [x = 1] in a sandbox where every
    run exits with code zero. *)
Lemma validator_on_assignment :
  contains py:"pygame.init()" py:"x = 1" = false
  /\ sandbox_exit 0 [] (Fixer._sanitize_code py:"x = 1") = Exited 0 [] []
  /\ In missing_init_issue (Fixer._static_analysis py:"x = 1")
  /\ Fixer.execution_success
       (Fixer.analyze_code latin (sandbox_exit 0 []) empty_index None
          service_down py:"x = 1" py:"make a game") = true.
Proof.
pose proof (validator_missing_init_and_success latin (sandbox_exit 0 [])
              empty_index None service_down py:"x = 1" py:"make a game")
  as [Hinit Hrun].
assert (H1 : contains py:"pygame.init()" py:"x = 1" = false)
  by (vm_compute; reflexivity).
assert (H2 : sandbox_exit 0 [] (Fixer._sanitize_code py:"x = 1") = Exited 0 [] [])
  by reflexivity.
split; [exact H1|]. split; [exact H2|]. split.
- exact (Hinit H1).
- exact (proj1 (Hrun [] H2)).
Defined.

(** C6 as stated fails on the program [x = 1]: its run exits with code zero
    and empty error output, and the errors detected are not empty, for the
    static issues are reported with a successful run as well. *)
Lemma successful_run_keeps_static_issues :
  sandbox_exit 0 [] (Fixer._sanitize_code py:"x = 1") = Exited 0 [] []
  /\ Fixer.execution_success
       (Fixer.analyze_code latin (sandbox_exit 0 []) empty_index None
          service_down py:"x = 1" py:"make a game") = true
  /\ Fixer.errors_detected
       (Fixer.analyze_code latin (sandbox_exit 0 []) empty_index None
          service_down py:"x = 1" py:"make a game") <> [].
Proof.
split; [reflexivity|]. split; [vm_compute; reflexivity|].
intros H. vm_compute in H. discriminate H.
Qed.

End Validator.

(* ===================================================================== *)
(** * The orchestrator *)
(* ===================================================================== *)

Section Orchestrator.

(** C2, as the code has it. When the final check runs the Validator on
    non-empty accumulated code, the task status it leaves and saves is
    COMPLETED exactly when the pass reports a successful execution, with
    validation status PASSED; when the pass reports a failed execution the
    validation status is FAILED and the task status is left at TESTING, the
    status the check sets when it begins: of the ways the cycle ends, this
    one alone sets no terminal status. *)
Theorem final_check_status (U : unicode) (sandbox : pystr -> run)
  (rag : retrieval) (console : option pystr) (fixer : inference)
  (task : pystr) (store : gmap pystr file) (st : TaskState) :
  current_code st <> [] ->
  let pass :=
    Fixer.analyze_code U sandbox rag console fixer (current_code st) task in
  let done :=
    Agent.finish_development U sandbox rag console fixer task store st in
  (task_status (snd done) = COMPLETED <-> Fixer.execution_success pass = true)
  /\ (Fixer.execution_success pass = true ->
      validation_status (snd done) = V_PASSED)
  /\ (Fixer.execution_success pass = false ->
      task_status (snd done) = TESTING
      /\ validation_status (snd done) = V_FAILED)
  /\ fst done !! filepath (task_id st) = Some (Json (to_dict (snd done))).
Proof.
intros Hcode pass done. subst pass done.
unfold Agent.finish_development, Agent.final_check.
cbn [snd fst current_code set_task_status].
destruct (current_code st) as [|c s] eqn:E; [congruence|].
destruct (Fixer.execution_success _) eqn:Hs; cbn.
- repeat split; try reflexivity; try discriminate.
  apply lookup_insert_eq.
- repeat split; try reflexivity; try discriminate.
  apply lookup_insert_eq.
Qed.

(** The theorem at the session with one revision, whose code is not
    empty. *)
Lemma final_check_status_one_revision :
  current_code one_revision_session <> []
  /\ (task_status
        (snd (Agent.finish_development latin (sandbox_exit 0 []) empty_index
                None service_down py:"create a platformer" ∅
                one_revision_session)) = COMPLETED
      <-> Fixer.execution_success
            (Fixer.analyze_code latin (sandbox_exit 0 []) empty_index None
               service_down (current_code one_revision_session)
               py:"create a platformer") = true).
Proof.
assert (H : current_code one_revision_session <> []) by discriminate.
split; [exact H|].
exact (proj1 (final_check_status latin (sandbox_exit 0 []) empty_index None
                service_down py:"create a platformer" ∅
                one_revision_session H)).
Defined.

(** C2, at the input where the code departs from it: a final pass whose
    run exits with code one leaves the task status TESTING, not FAILED. *)
Lemma failed_final_pass_stays_testing :
  Fixer.execution_success
    (Fixer.analyze_code latin (sandbox_exit 1 py:"NameError: name 'x'")
       empty_index None service_down (current_code one_revision_session)
       py:"create a platformer") = false
  /\ task_status
       (snd (Agent.finish_development latin
               (sandbox_exit 1 py:"NameError: name 'x'") empty_index None
               service_down py:"create a platformer" ∅ one_revision_session))
     <> FAILED.
Proof.
split; [vm_compute; reflexivity|].
intros H. vm_compute in H. discriminate H.
Qed.

End Orchestrator.

(* ===================================================================== *)
(** * The Planner and the Coder *)
(* ===================================================================== *)

Section Generation.

Variable U : unicode.

Lemma fallback_subtasks_length (task : pystr) :
  length (Planner._get_fallback_subtasks U task) = 6%nat.
Proof.
unfold Planner._get_fallback_subtasks.
destruct (contains _ _); [reflexivity|].
destruct (contains _ _); reflexivity.
Qed.

Lemma parse_subtasks_length (response : pystr) :
  (length (Planner._parse_subtasks U response) <= 7)%nat.
Proof.
unfold Planner._parse_subtasks. rewrite length_take. lia.
Qed.

(** X28. What holds of every plan: it is not empty and has at most seven
    entries, and it is the fallback plan of six entries when the inference
    call raises. *)
Lemma decompose_task_length (infer : inference) (task : pystr) :
  (1 <= length (Planner.decompose_task U infer task) <= 7)%nat
  /\ (forall message, infer = Raised message ->
      length (Planner.decompose_task U infer task) = 6%nat).
Proof.
split.
- unfold Planner.decompose_task. destruct infer as [response|message].
  + pose proof (parse_subtasks_length response) as Hle.
    destruct (Planner._parse_subtasks U response) as [|s l].
    * rewrite fallback_subtasks_length. lia.
    * cbn [length] in *. lia.
  + rewrite fallback_subtasks_length. lia.
- intros message ->. apply fallback_subtasks_length.
Qed.




End Generation.

Section GenerationExamples.

(** C4, at the input where the code departs from it. A reply with a single
    numbered line is parsed into a plan of one subtask, which is returned as
    it is: fewer than the three subtasks the method documents. *)
Theorem decompose_task_single_line_reply :
  Planner.decompose_task latin (Reply py:"1. Create the main game window")
    py:"make a game"
  = [py:"Create the main game window"]
  /\ (length (Planner.decompose_task latin
                (Reply py:"1. Create the main game window") py:"make a game")
      < 3)%nat.
Proof.
split; [vm_compute; reflexivity|].
vm_compute. lia.
Qed.


End GenerationExamples.

(* ===================================================================== *)
(** * More on strings *)
(* ===================================================================== *)

Section MoreStringFacts.

Lemma str_eqb_eq (a b : pystr) : str_eqb a b = true <-> a = b.
Proof.
revert b. induction a as [|x a IH]; intros [|y b]; cbn; split;
  try discriminate; try reflexivity.
- intros H. apply andb_true_iff in H as [Hxy Hab].
  apply N.eqb_eq in Hxy. apply IH in Hab. congruence.
- intros H. injection H as -> ->. rewrite N.eqb_refl. apply IH. reflexivity.
Qed.

Lemma str_eqb_refl (a : pystr) : str_eqb a a = true.
Proof. apply str_eqb_eq. reflexivity. Qed.

Lemma str_eqb_neq (a b : pystr) : a <> b -> str_eqb a b = false.
Proof.
intros H. destruct (str_eqb a b) eqn:E; [|reflexivity].
apply str_eqb_eq in E. contradiction.
Qed.

Lemma split_char_cons (sep c : char) (s : pystr) :
  split [sep] (c :: s) =
  if sep =? c then [] :: split [sep] s
  else match split [sep] s with
       | l :: ls => (c :: l) :: ls
       | [] => [[c]]
       end.
Proof.
unfold split. cbn [split_from startswith length Nat.sub].
rewrite andb_true_r. reflexivity.
Qed.

(** A text without the separator is one part. *)
Lemma split_char_line (sep : char) (l : pystr) :
  sep ∉ l -> split [sep] l = [l].
Proof.
induction l as [|c l IH]; intros H; [reflexivity|].
apply not_elem_of_cons in H as [Hc Hl].
rewrite split_char_cons, (IH Hl).
destruct (N.eqb_spec sep c); [congruence | reflexivity].
Qed.

Lemma startswith_app_l (s p b : pystr) :
  startswith s p = true -> startswith (s ++ b) p = true.
Proof.
revert s. induction p as [|a p IH]; intros s H; [reflexivity|].
destruct s as [|c s]; [discriminate|].
cbn in *. apply andb_true_iff in H as [Hac Hs].
rewrite Hac. cbn. apply IH. exact Hs.
Qed.

Lemma contains_app_l (sub a b : pystr) :
  contains sub a = true -> contains sub (a ++ b) = true.
Proof.
induction a as [|c a IH]; intros H.
- cbn in H. rewrite orb_false_r in H.
  destruct sub; [|discriminate]. destruct b; reflexivity.
- cbn in H. apply orb_true_iff in H as [H|H].
  + change ((c :: a) ++ b) with (c :: (a ++ b)).
    cbn [contains]. change (c :: (a ++ b)) with ((c :: a) ++ b).
    rewrite (startswith_app_l _ _ b H). reflexivity.
  + cbn. rewrite (IH H). apply orb_true_r.
Qed.

Lemma contains_middle (sub a b : pystr) : contains sub (a ++ sub ++ b) = true.
Proof. apply contains_app_r, contains_prefix. Qed.

Lemma startswith_shorter (s a b : pystr) :
  startswith s (a ++ b) = true -> startswith s a = true.
Proof.
revert s. induction a as [|x a IH]; intros s H; [reflexivity|].
destruct s as [|c s]; [discriminate|].
cbn in *. apply andb_true_iff in H as [Hxc Hs].
rewrite Hxc. cbn. apply (IH _ Hs).
Qed.

(** A text that holds [a ++ b] holds [a]. *)
Lemma contains_shorter (a b s : pystr) :
  contains (a ++ b) s = true -> contains a s = true.
Proof.
induction s as [|c s IH]; intros H.
- cbn in *. rewrite orb_false_r in *. apply (startswith_shorter _ _ _ H).
- cbn in *. apply orb_true_iff in H as [H|H].
  + rewrite (startswith_shorter _ _ _ H). reflexivity.
  + rewrite (IH H). apply orb_true_r.
Qed.

Lemma split_from_not_nil (sep s : pystr) (k : nat) : split_from sep s k <> [].
Proof.
revert k. induction s as [|c s IH]; intros k; [discriminate|].
cbn [split_from]. destruct k as [|k]; [|apply IH].
destruct (startswith (c :: s) sep); [discriminate|].
destruct (split_from sep s 0); discriminate.
Qed.

(** A separator that occurs cuts the text in two parts at least. *)
Lemma split_two_parts (sep s : pystr) :
  sep <> [] -> contains sep s = true ->
  exists a b rest, split sep s = a :: b :: rest.
Proof.
intros Hsep. unfold split. induction s as [|c s IH]; intros H.
- cbn in H. rewrite orb_false_r in H. destruct sep; [congruence | discriminate].
- cbn [split_from]. cbn [contains] in H.
  destruct (startswith (c :: s) sep) eqn:E.
  + destruct (split_from sep s (length sep - 1)) as [|b rest] eqn:E2.
    * exfalso. exact (split_from_not_nil _ _ _ E2).
    * eauto.
  + cbn in H. destruct (IH H) as (a & b & rest & ->). eauto.
Qed.

Lemma join_In_contains (sep x : pystr) (parts : list pystr) :
  In x parts -> contains x (join sep parts) = true.
Proof.
induction parts as [|p parts IH]; intros H; [destruct H|].
destruct parts as [|q parts].
- destruct H as [->|[]]. cbn [join].
  rewrite <- (app_nil_r x) at 2. apply contains_prefix.
- rewrite join_cons. destruct H as [->|H].
  + apply contains_prefix.
  + do 2 apply contains_app_r. apply IH. exact H.
Qed.

Lemma join_snoc (sep x : pystr) (parts : list pystr) :
  parts <> [] -> join sep (parts ++ [x]) = join sep parts ++ sep ++ x.
Proof.
induction parts as [|p parts IH]; intros H; [congruence|].
destruct parts as [|q parts]; [reflexivity|].
change ((p :: q :: parts) ++ [x]) with (p :: ((q :: parts) ++ [x])).
change ((q :: parts) ++ [x]) with (q :: (parts ++ [x])) at 1.
rewrite join_cons.
change (q :: (parts ++ [x])) with ((q :: parts) ++ [x]).
rewrite IH by discriminate. rewrite join_cons, <- !app_assoc. reflexivity.
Qed.

Lemma join_app_prefix (sep : pystr) (parts extra : list pystr) :
  parts <> [] -> exists r, join sep (parts ++ extra) = join sep parts ++ r.
Proof.
intros H. induction extra as [|x extra IH] using rev_ind.
- exists []. rewrite !app_nil_r. reflexivity.
- destruct IH as [r Hr]. exists (r ++ sep ++ x).
  rewrite app_assoc, join_snoc, Hr, <- app_assoc; [reflexivity|].
  destruct parts; [congruence | discriminate].
Qed.

Section Strip.

Variable U : unicode.

Lemma lstrip_idem (s : pystr) : lstrip U (lstrip U s) = lstrip U s.
Proof.
induction s as [|c s IH]; [reflexivity|].
cbn [lstrip]. destruct (isspace U c) eqn:E; [exact IH|].
cbn [lstrip]. rewrite E. reflexivity.
Qed.

Lemma lstrip_split (s : pystr) :
  exists ws, s = ws ++ lstrip U s /\ forallb (isspace U) ws = true.
Proof.
induction s as [|c s (ws & Hs & Hws)].
- exists []. split; reflexivity.
- cbn [lstrip]. destruct (isspace U c) eqn:E.
  + exists (c :: ws). split; [cbn; congruence|]. cbn. rewrite E. exact Hws.
  + exists []. split; reflexivity.
Qed.

Lemma lstrip_head (s r : pystr) (c : char) :
  lstrip U s = c :: r -> isspace U c = false.
Proof.
induction s as [|x s IH]; [discriminate|].
cbn [lstrip]. destruct (isspace U x) eqn:E; [exact IH|].
intros H. injection H as <- _. exact E.
Qed.

Lemma lstrip_fixed_head (c : char) (r : pystr) :
  isspace U c = false -> lstrip U (c :: r) = c :: r.
Proof. intros H. cbn. rewrite H. reflexivity. Qed.

(** What [strip] returns has no white space at either end. *)
Lemma strip_trimmed (s : pystr) : trimmed U (strip U s).
Proof.
unfold trimmed, strip, rstrip. rewrite rev_involutive.
split; [|apply lstrip_idem].
set (t := lstrip U s).
destruct (lstrip_split (rev t)) as (ws & Hrev & Hws).
destruct (lstrip U (rev t)) as [|c v] eqn:Ev; [reflexivity|].
assert (Ht : t = rev (c :: v) ++ rev ws).
{ rewrite <- rev_app_distr, <- Hrev, rev_involutive. reflexivity. }
destruct (rev (c :: v)) as [|x u] eqn:Eu.
- reflexivity.
- assert (Hx : isspace U x = false).
  { apply (lstrip_head s (u ++ rev ws)). fold t. rewrite Ht. reflexivity. }
  apply lstrip_fixed_head. exact Hx.
Qed.

Lemma trimmed_strip (s : pystr) : trimmed U s -> strip U s = s.
Proof.
intros [Hl Hr]. unfold strip, rstrip. rewrite Hl, Hr. apply rev_involutive.
Qed.

Lemma strip_idem (s : pystr) : strip U (strip U s) = strip U s.
Proof. apply trimmed_strip, strip_trimmed. Qed.

End Strip.

Section SeparatorFacts.














End SeparatorFacts.

Section StripLines.

Variable U : unicode.










Section Lines.

(** A property of lines that the white space around a line does not
    change. *)
Variable P : pystr -> bool.
Hypothesis P_cons : forall c l, isspace U c = true -> P (c :: l) = P l.
Hypothesis P_snoc : forall c l, isspace U c = true -> P (l ++ [c]) = P l.




End Lines.

End StripLines.

End MoreStringFacts.

(* ===================================================================== *)
(** * More on sanitization *)
(* ===================================================================== *)

Section MoreSanitization.

Import Fixer.

Lemma sanitize_result (x : pystr) :
  x <> [] ->
  only_permitted (_sanitize_code x) /\ one_leading_declaration (_sanitize_code x).
Proof.
intros Hx.
destruct (sanitize_shape x Hx) as (l & ls & Heq & Hperm & Hnl).
rewrite Heq. destruct (shape_properties l ls Hperm Hnl) as (_ & Hp & Hd).
split; assumption.
Qed.

Lemma sanitize_permitted (x : pystr) : only_permitted (_sanitize_code x).
Proof.
destruct x as [|c x]; [reflexivity|].
apply sanitize_result. discriminate.
Qed.

Lemma filter_none_keeps_all {A} (f : A -> bool) (l : list A) :
  List.filter f l = [] -> List.filter (fun x => negb (f x)) l = l.
Proof.
induction l as [|x l IH]; [reflexivity|].
cbn [List.filter]. destruct (f x); [discriminate|].
intros H. cbn [negb]. rewrite (IH H). reflexivity.
Qed.

(** X1. A non-empty text is left as it is by sanitization exactly when it
    begins with the encoding declaration, no other line holds the
    declaration, and all its characters are permitted. *)
Theorem sanitize_fixed_points (x : pystr) :
  x <> [] ->
  (_sanitize_code x = x <-> one_leading_declaration x /\ only_permitted x).
Proof.
intros Hx. split.
- intros H. destruct (sanitize_result x Hx) as [Hp Hd].
  rewrite H in Hp, Hd. split; assumption.
- intros [[Hstart Hone] Hperm].
  destruct (startswith_inv _ _ Hstart) as [t Ht].
  destruct (split_nl_prefix ENCODING_DECL t decl_no_newline)
    as (l & ls & Hsplit_t & Hsplit).
  rewrite (sanitize_with_prefix x t l ls Hx).
  + unfold declaration_lines in Hone. rewrite Ht, Hsplit in Hone.
    cbn [List.filter] in Hone. rewrite contains_prefix in Hone.
    cbn [length] in Hone.
    assert (Hnone : List.filter (contains ENCODING_DECL) ls = []).
    { destruct (List.filter (contains ENCODING_DECL) ls); [reflexivity|].
      cbn in Hone. lia. }
    unfold other_lines. rewrite (filter_none_keeps_all _ _ Hnone).
    rewrite <- Hsplit, <- Ht. apply join_split_nl.
  + unfold with_declaration. rewrite Hstart.
    rewrite (map_blank_fixed x Hperm). exact Ht.
  + exact Hsplit_t.
Qed.

(** The theorem at a two-line text that begins with the declaration. *)
Lemma sanitize_fixed_points_example :
  ENCODING_DECL ++ [NL] ++ py:"x = 1" <> []
  /\ _sanitize_code (ENCODING_DECL ++ [NL] ++ py:"x = 1")
     = ENCODING_DECL ++ [NL] ++ py:"x = 1".
Proof.
assert (H : ENCODING_DECL ++ [NL] ++ py:"x = 1" <> []) by discriminate.
split; [exact H|].
apply (sanitize_fixed_points _ H).
split; [split|]; vm_compute; reflexivity.
Defined.

(** X2. Sanitization replaces first, then drops. The lines of the result
    that do not hold the encoding declaration are, in order, the lines of
    the input, every character that is not permitted replaced by a space,
    that do not hold the declaration then: a line is dropped only if it
    holds the declaration once its characters are replaced, which a line
    can do that did not hold it before. For an input of permitted
    characters only, the lines kept are the lines of the input without the
    declaration, as they were. *)
Theorem sanitize_keeps_other_lines (x : pystr) :
  other_lines (split [NL] (_sanitize_code x))
  = other_lines (split [NL] (map blank x))
  /\ (only_permitted x ->
      other_lines (split [NL] (_sanitize_code x))
      = other_lines (split [NL] x)).
Proof.
assert (Hlines : other_lines (split [NL] (_sanitize_code x))
                 = other_lines (split [NL] (map blank x))).
{ destruct x as [|c x]; [reflexivity|].
  set (s := c :: x).
  destruct (sanitize_prefixed s) as (t & Hmap & Hperm).
  destruct (split_nl_prefix ENCODING_DECL t decl_no_newline)
    as (l & ls & Hsplit_t & Hsplit).
  rewrite (sanitize_with_prefix s t l ls ltac:(discriminate) Hmap Hsplit_t).
  assert (Hnl : Forall (fun y => NL ∉ y) ((ENCODING_DECL ++ l) :: ls)).
  { rewrite <- Hsplit. apply split_nl_no_newline. }
  rewrite split_join_nl.
  - unfold other_lines at 1. cbn [List.filter].
    rewrite contains_prefix. cbn [negb].
    fold (other_lines (other_lines ls)). rewrite other_lines_idem.
    revert Hmap. unfold with_declaration.
    destruct (startswith s ENCODING_DECL) eqn:E; intros Hmap.
    + rewrite Hmap, Hsplit. unfold other_lines. cbn [List.filter].
      rewrite contains_prefix. reflexivity.
    + rewrite map_app, map_blank_decl in Hmap.
      apply app_inv_head in Hmap. rewrite <- Hmap in Hsplit_t.
      change (map blank ([NL] ++ s)) with (NL :: map blank s) in Hsplit_t.
      rewrite split_nl_cons, N.eqb_refl in Hsplit_t.
      injection Hsplit_t as _ <-. reflexivity.
  - discriminate.
  - inversion Hnl; subst. constructor; [assumption|].
    apply Forall_filter. assumption. }
split; [exact Hlines|].
intros Hperm. rewrite Hlines, (map_blank_fixed x Hperm). reflexivity.
Qed.

(** A line that holds the declaration only once a character of it is
    replaced, here a no-break space (code point 160), is dropped with the
    repeated declarations. *)
Lemma sanitize_drops_replaced_declaration :
  contains ENCODING_DECL (py:"#" ++ [160] ++ py:"-*- coding: utf-8 -*-") = false
  /\ _sanitize_code
       (py:"x = 1" ++ [NL] ++ py:"#" ++ [160] ++ py:"-*- coding: utf-8 -*-")
     = ENCODING_DECL ++ [NL] ++ py:"x = 1".
Proof. split; vm_compute; reflexivity. Qed.

Lemma permitted_ascii (s : pystr) :
  forallb permitted s = true -> existsb (fun c => 127 <? c) s = false.
Proof.
induction s as [|c s IH]; [reflexivity|].
cbn [forallb existsb]. intros H. apply andb_true_iff in H as [Hc Hs].
rewrite (IH Hs), orb_false_r.
unfold permitted, NL, TAB, CR in Hc.
apply N.ltb_ge.
repeat (apply orb_true_iff in Hc as [Hc|Hc]).
- apply andb_true_iff in Hc as [_ Hc]. apply N.leb_le in Hc. lia.
- apply N.eqb_eq in Hc. lia.
- apply N.eqb_eq in Hc. lia.
- apply N.eqb_eq in Hc. lia.
Qed.

(** X3. On sanitized text the static analysis never reports a missing
    encoding declaration nor non-ASCII characters: whatever it reports is
    about the import, the initialization, the game loop or the display
    update. *)
Theorem static_analysis_after_sanitize (x : pystr) :
  x <> [] ->
  Forall (fun issue =>
            Issue.type issue <> py:"encoding_error"
            /\ Issue.type issue <> py:"non_ascii_chars")
         (_static_analysis (_sanitize_code x)).
Proof.
intros Hx. destruct (sanitize_result x Hx) as [Hperm [Hstart _]].
unfold _static_analysis. rewrite Hstart, (permitted_ascii _ Hperm).
generalize (_sanitize_code x). intros s.
destruct (contains py:"import pygame" s), (contains py:"pygame.init()" s),
  (contains py:"while" s), (contains py:"pygame.event.get()" s),
  (contains py:"pygame.display.flip()" s),
  (contains py:"pygame.display.update()" s);
  cbn [negb orb andb when app];
  repeat constructor; cbn [Issue.type]; discriminate.
Qed.

(** The theorem at the one-line program [x = 1]. *)
Lemma static_analysis_after_sanitize_example :
  py:"x = 1" <> []
  /\ Forall (fun issue =>
               Issue.type issue <> py:"encoding_error"
               /\ Issue.type issue <> py:"non_ascii_chars")
            (_static_analysis (_sanitize_code py:"x = 1")).
Proof.
assert (H : py:"x = 1" <> []) by discriminate.
split; [exact H|]. exact (static_analysis_after_sanitize _ H).
Defined.

End MoreSanitization.

(* ===================================================================== *)
(** * More on the Validator *)
(* ===================================================================== *)

Section MoreValidator.

Variable U : unicode.
Variable sandbox : pystr -> run.
Variable rag : retrieval.
Variable console : option pystr.
Variable infer : inference.

(** What [analyze_code] reports of the run and of the errors, whatever the
    disposition. *)
Lemma analyze_code_reports (code task : pystr) :
  let r := Fixer.analyze_code U sandbox rag console infer code task in
  let run := Fixer._execute_code_safe sandbox code in
  Fixer.execution_success r = Fixer.success run
  /\ Fixer.execution_result r = run
  /\ Fixer.errors_detected r =
     Fixer._static_analysis code
     ++ (if Fixer.success run then []
         else Fixer._analyze_runtime_error U rag code run task).
Proof.
intros r run. subst r run. unfold Fixer.analyze_code.
destruct (_ || _); [destruct (negb _)|]; repeat split.
Qed.

Lemma execute_failed_exit (code out err : pystr) (rc : Z) :
  sandbox (Fixer._sanitize_code code) = Exited rc out err -> rc <> 0%Z ->
  Fixer.success (Fixer._execute_code_safe sandbox code) = false
  /\ Fixer.output (Fixer._execute_code_safe sandbox code)
     = match err with [] => out | _ :: _ => err end.
Proof.
intros H Hrc. unfold Fixer._execute_code_safe. rewrite H. cbn.
split; [|reflexivity]. apply Z.eqb_neq. exact Hrc.
Qed.

(** X4. A run that is killed at the time limit is reported as a failed
    execution with an issue of type black_screen_or_timeout and severity
    high. *)
Theorem timeout_is_black_screen (code task : pystr) :
  sandbox (Fixer._sanitize_code code) = TimeoutExpired ->
  let r := Fixer.analyze_code U sandbox rag console infer code task in
  Fixer.execution_success r = false
  /\ exists issue,
       In issue (Fixer.errors_detected r)
       /\ Fixer.Issue.type issue = py:"black_screen_or_timeout"
       /\ Fixer.Issue.severity issue = py:"high".
Proof.
intros H r. subst r.
destruct (analyze_code_reports code task) as (Hs & _ & He).
rewrite Hs, He. unfold Fixer._execute_code_safe. rewrite H.
cbn [Fixer.success]. split; [reflexivity|].
eexists. split.
- apply in_or_app. right. unfold Fixer._analyze_runtime_error.
  do 5 (apply in_or_app; right). apply In_when.
  cbn [Fixer.output].
  match goal with
  | |- _ || _ || contains ?p ?s = true =>
    replace (contains p s) with true; [apply orb_true_r|]
  end.
  symmetry. apply contains_app_l. reflexivity.
- split; reflexivity.
Qed.

(** X5. A run that exits with a non-zero code and whose error output names
    NameError is reported as a failed execution with an issue of type
    name_error and severity high. *)
Theorem name_error_is_classified (code task out err : pystr) (rc : Z) :
  sandbox (Fixer._sanitize_code code) = Exited rc out err ->
  rc <> 0%Z ->
  contains py:"NameError" err = true ->
  let r := Fixer.analyze_code U sandbox rag console infer code task in
  Fixer.execution_success r = false
  /\ exists issue,
       In issue (Fixer.errors_detected r)
       /\ Fixer.Issue.type issue = py:"name_error"
       /\ Fixer.Issue.severity issue = py:"high".
Proof.
intros H Hrc Hname r. subst r.
destruct (analyze_code_reports code task) as (Hs & _ & He).
destruct (execute_failed_exit code out err rc H Hrc) as [Hfail Hout].
rewrite Hs, He, Hfail. split; [reflexivity|].
assert (Herr : Fixer.output (Fixer._execute_code_safe sandbox code) = err).
{ rewrite Hout. destruct err; [discriminate Hname | reflexivity]. }
eexists. split.
- apply in_or_app. right. unfold Fixer._analyze_runtime_error.
  do 2 (apply in_or_app; right). apply in_or_app. left.
  apply In_when. rewrite Herr. exact Hname.
- split; reflexivity.
Qed.

(** X6. A run that exits with a non-zero code and prints nothing is
    reported as a failed execution with an issue of type
    black_screen_or_timeout and severity high. *)
Theorem silent_failure_is_black_screen (code task : pystr) (rc : Z) :
  sandbox (Fixer._sanitize_code code) = Exited rc [] [] ->
  rc <> 0%Z ->
  let r := Fixer.analyze_code U sandbox rag console infer code task in
  Fixer.execution_success r = false
  /\ exists issue,
       In issue (Fixer.errors_detected r)
       /\ Fixer.Issue.type issue = py:"black_screen_or_timeout"
       /\ Fixer.Issue.severity issue = py:"high".
Proof.
intros H Hrc r. subst r.
destruct (analyze_code_reports code task) as (Hs & _ & He).
destruct (execute_failed_exit code [] [] rc H Hrc) as [Hfail Hout].
rewrite Hs, He, Hfail. split; [reflexivity|].
eexists. split.
- apply in_or_app. right. unfold Fixer._analyze_runtime_error.
  do 5 (apply in_or_app; right). apply In_when.
  rewrite Hout. reflexivity.
- split; reflexivity.
Qed.

(** X7. The retrieval context attached to an issue has at most 300
    characters, all of them ASCII, and is the empty text when no hit has a
    type that holds the type of the issue. *)
Theorem extract_rag_context_bounded (similar_errors : list document)
  (error_type : pystr) :
  (length (Fixer._extract_rag_context similar_errors error_type) <= 300)%nat
  /\ forallb (fun c => c <? 128)
       (Fixer._extract_rag_context similar_errors error_type) = true
  /\ (forallb (fun d => negb (contains error_type (doc_type d))) similar_errors
      = true ->
      Fixer._extract_rag_context similar_errors error_type = []).
Proof.
induction similar_errors as [|d docs (IHlen & IHascii & IHnone)];
  [repeat split; cbn; lia|].
cbn [Fixer._extract_rag_context forallb].
destruct (contains error_type (doc_type d)) eqn:E; cbn [negb andb].
- split; [|split; [|discriminate]].
  + unfold prefix_n. rewrite length_take. lia.
  + unfold prefix_n. apply forallb_forall. intros c Hc.
    apply list_elem_of_In, elem_of_take in Hc as (i & Hc & _).
    apply list_elem_of_lookup_2, list_elem_of_In, filter_In in Hc as [_ Hc].
    repeat (apply orb_true_iff in Hc as [Hc|Hc]); [exact Hc| | |];
      apply N.eqb_eq in Hc; subst c; reflexivity.
- split; [exact IHlen|]. split; [exact IHascii | exact IHnone].
Qed.

(** X8. The disposition is always one of success, auto_fix, manual_review,
    skip and cancel; it is success exactly when the execution succeeded, and
    after a failed execution every input other than 2, 3 and 4, as well as no
    input at all, gives auto_fix. *)
Theorem get_user_feedback_dispositions (execution_success : bool) :
  let answer := Fixer._get_user_feedback U console execution_success in
  In answer dispositions
  /\ (answer = py:"success" <-> execution_success = true)
  /\ (execution_success = false ->
      match console with
      | None => answer = py:"auto_fix"
      | Some typed_text =>
        strip U typed_text <> py:"2" -> strip U typed_text <> py:"3" ->
        strip U typed_text <> py:"4" -> answer = py:"auto_fix"
      end).
Proof.
intros answer. subst answer. unfold Fixer._get_user_feedback, dispositions.
destruct execution_success.
- split; [left; reflexivity|]. split; [tauto | discriminate].
- destruct console as [typed_text|].
  + destruct (str_eqb (strip U typed_text) py:"1") eqn:E1;
      [|destruct (str_eqb (strip U typed_text) py:"2") eqn:E2;
        [|destruct (str_eqb (strip U typed_text) py:"3") eqn:E3;
          [|destruct (str_eqb (strip U typed_text) py:"4") eqn:E4]]];
      (split; [cbn; tauto|]); (split; [split; discriminate|]);
      intros _ H2 H3 H4; try reflexivity.
    * apply str_eqb_eq in E2. contradiction.
    * apply str_eqb_eq in E3. contradiction.
    * apply str_eqb_eq in E4. contradiction.
  + split; [cbn; tauto|]. split; [split; discriminate | reflexivity].
Qed.

End MoreValidator.

(* ===================================================================== *)
(** * The repair *)
(* ===================================================================== *)

Section Repair.

Lemma contains_init_grows (new extra : list pystr) :
  contains py:"pygame.init()" (join [NL] new) = true ->
  contains py:"pygame.init()" (join [NL] (new ++ extra)) = true.
Proof.
intros H. destruct new as [|n new]; [discriminate H|].
destruct (join_app_prefix [NL] (n :: new) extra) as [r Hr]; [discriminate|].
rewrite Hr. apply contains_app_l. exact H.
Qed.

(** Once the call is there, the loop copies the remaining lines. *)
Lemma add_init_present (lines new : list pystr) :
  contains py:"pygame.init()" (join [NL] new) = true ->
  Fixer.add_init lines new = new ++ lines.
Proof.
revert new. induction lines as [|line rest IH]; intros new H.
- cbn. rewrite app_nil_r. reflexivity.
- cbn [Fixer.add_init].
  rewrite (contains_init_grows new [line] H), andb_false_r.
  rewrite IH by (apply contains_init_grows; exact H).
  rewrite <- app_assoc. reflexivity.
Qed.

Lemma contains_init_added (new : list pystr) :
  new <> [] ->
  contains py:"pygame.init()" (join [NL] (new ++ [py:"pygame.init()"])) = true.
Proof.
intros H. rewrite join_snoc by exact H.
do 2 apply contains_app_r.
rewrite <- (app_nil_r py:"pygame.init()") at 2. apply contains_prefix.
Qed.

Lemma add_init_extends (lines new : list pystr) :
  exists extra,
    Fixer.add_init lines new = new ++ extra
    /\ (length extra <= S (length lines))%nat.
Proof.
revert new. induction lines as [|line rest IH]; intros new.
- exists []. cbn. rewrite app_nil_r. split; [reflexivity | lia].
- cbn [Fixer.add_init].
  destruct (contains py:"import pygame" line
            && negb (contains py:"pygame.init()" (join [NL] (new ++ [line])))).
  + rewrite add_init_present
      by (apply contains_init_added; destruct new; discriminate).
    exists (line :: py:"pygame.init()" :: rest).
    rewrite <- !app_assoc. split; [reflexivity | cbn; lia].
  + destruct (IH (new ++ [line])) as (extra & -> & Hlen).
    exists (line :: extra). rewrite <- app_assoc.
    split; [reflexivity | cbn; lia].
Qed.

Lemma add_init_reaches (lines new : list pystr) :
  Exists (fun line => contains py:"import pygame" line = true) lines ->
  contains py:"pygame.init()" (join [NL] (Fixer.add_init lines new)) = true.
Proof.
intros H. revert new. induction H as [line rest Hline|line rest _ IH];
  intros new; cbn [Fixer.add_init].
- rewrite Hline. cbn [andb].
  destruct (contains py:"pygame.init()" (join [NL] (new ++ [line]))) eqn:E;
    cbn [negb].
  + rewrite add_init_present by exact E. apply contains_init_grows. exact E.
  + assert (Hadded : contains py:"pygame.init()"
                       (join [NL] ((new ++ [line]) ++ [py:"pygame.init()"]))
                     = true)
      by (apply contains_init_added; destruct new; discriminate).
    rewrite add_init_present by exact Hadded.
    apply contains_init_grows. exact Hadded.
- destruct (_ && _); apply IH.
Qed.

Lemma add_init_no_import (lines new : list pystr) :
  Forall (fun line => contains py:"import pygame" line = false) lines ->
  Fixer.add_init lines new = new ++ lines.
Proof.
intros H. revert new. induction H as [|line rest Hline _ IH]; intros new.
- cbn. rewrite app_nil_r. reflexivity.
- cbn [Fixer.add_init]. rewrite Hline. cbn [andb].
  rewrite IH, <- app_assoc. reflexivity.
Qed.

(** The lines before the first import are copied. *)
Lemma add_init_skips (pre rest new : list pystr) :
  Forall (fun line => contains py:"import pygame" line = false) pre ->
  Fixer.add_init (pre ++ rest) new = Fixer.add_init rest (new ++ pre).
Proof.
intros H. revert new. induction H as [|line pre Hline _ IH]; intros new.
- rewrite app_nil_r. reflexivity.
- cbn [app Fixer.add_init]. rewrite Hline. cbn [andb].
  rewrite IH, <- app_assoc. reflexivity.
Qed.

(** X9. The loop that repairs a missing initialization. When no line
    imports pygame it returns the lines as they were. Otherwise, with
    [line] the first line that imports pygame, it returns the lines as they
    were if the text up to and including [line] already holds the call
    [pygame.init()], and else the lines with the one line [pygame.init()]
    inserted right after [line]: every line is kept, in place. So it adds at
    most one line, and whenever a line imports pygame the program it
    returns holds the call. *)
Theorem add_init_at_most_once (lines : list pystr) :
  (Forall (fun line => contains py:"import pygame" line = false) lines ->
   Fixer.add_init lines [] = lines)
  /\ (forall pre line post,
        lines = pre ++ line :: post ->
        Forall (fun l => contains py:"import pygame" l = false) pre ->
        contains py:"import pygame" line = true ->
        Fixer.add_init lines []
        = if contains py:"pygame.init()" (join [NL] (pre ++ [line]))
          then lines
          else pre ++ line :: py:"pygame.init()" :: post)
  /\ (length lines <= length (Fixer.add_init lines []) <= S (length lines))%nat
  /\ (Exists (fun line => contains py:"import pygame" line = true) lines ->
      contains py:"pygame.init()" (join [NL] (Fixer.add_init lines [])) = true).
Proof.
assert (Hfirst : forall pre line post,
          lines = pre ++ line :: post ->
          Forall (fun l => contains py:"import pygame" l = false) pre ->
          contains py:"import pygame" line = true ->
          Fixer.add_init lines []
          = if contains py:"pygame.init()" (join [NL] (pre ++ [line]))
            then lines
            else pre ++ line :: py:"pygame.init()" :: post).
{ intros pre line post -> Hpre Hline.
  rewrite (add_init_skips pre (line :: post) [] Hpre).
  cbn [app Fixer.add_init]. rewrite Hline. cbn [andb].
  destruct (contains py:"pygame.init()" (join [NL] (pre ++ [line]))) eqn:E;
    cbn [negb].
  - rewrite add_init_present by exact E.
    rewrite <- app_assoc. reflexivity.
  - rewrite add_init_present
      by (apply contains_init_added; destruct pre; discriminate).
    rewrite <- !app_assoc. reflexivity. }
assert (Hsplit : Forall (fun l => contains py:"import pygame" l = false) lines
                 \/ exists pre line post,
                      lines = pre ++ line :: post
                      /\ Forall (fun l => contains py:"import pygame" l = false)
                           pre
                      /\ contains py:"import pygame" line = true).
{ clear Hfirst. induction lines as [|l lines IH]; [left; constructor|].
  destruct (contains py:"import pygame" l) eqn:E.
  - right. exists [], l, lines. repeat split; [constructor | exact E].
  - destruct IH as [IH|(pre & line & post & -> & Hpre & Hline)].
    + left. constructor; assumption.
    + right. exists (l :: pre), line, post.
      repeat split; [constructor; assumption | exact Hline]. }
split; [intros H; apply (add_init_no_import lines [] H)|].
split; [exact Hfirst|]. split.
- destruct Hsplit as [Hnone|(pre & line & post & Heq & Hpre & Hline)].
  + rewrite (add_init_no_import lines [] Hnone). cbn [app]. lia.
  + rewrite (Hfirst pre line post Heq Hpre Hline).
    destruct (contains py:"pygame.init()" _); [lia|].
    rewrite Heq, !length_app. cbn [length]. lia.
- apply add_init_reaches.
Qed.

Lemma add_init_permitted (lines new : list pystr) :
  Forall (fun line => forallb Fixer.permitted line = true) lines ->
  Forall (fun line => forallb Fixer.permitted line = true) new ->
  Forall (fun line => forallb Fixer.permitted line = true)
         (Fixer.add_init lines new).
Proof.
intros H. revert new. induction H as [|line rest Hline _ IH]; intros new Hnew;
  [exact Hnew|].
cbn [Fixer.add_init].
assert (H1 : Forall (fun line => forallb Fixer.permitted line = true)
               (new ++ [line])).
{ apply Forall_app. split; [exact Hnew | repeat constructor; exact Hline]. }
destruct (_ && _); apply IH; [|exact H1].
apply Forall_app. split; [exact H1 | repeat constructor].
Qed.

Lemma simple_fixes_permitted (errors : list Fixer.Issue.t) (fixed : pystr) :
  only_permitted fixed -> only_permitted (Fixer.simple_fixes errors fixed).
Proof.
revert fixed. induction errors as [|e errors IH]; intros fixed H; [exact H|].
cbn [Fixer.simple_fixes]. destruct (_ && _); apply IH; [|exact H].
apply forallb_join_nl; [reflexivity|].
apply add_init_permitted; [|constructor].
apply forallb_split_nl. exact H.
Qed.

(** X10. Whatever the errors, the disposition and the outcome of the
    inference call, the repaired text holds only permitted characters. *)
Theorem generate_fix_only_permitted (U : unicode) (infer : inference)
  (code : pystr) (errors : list Fixer.Issue.t) (user_feedback task : pystr) :
  only_permitted (Fixer._generate_fix U infer code errors user_feedback task).
Proof.
unfold Fixer._generate_fix.
destruct (_ || _); [apply sanitize_permitted|].
destruct (_ && _).
- destruct infer; apply sanitize_permitted.
- apply simple_fixes_permitted, sanitize_permitted.
Qed.

(** Without the disposition auto_fix the inference service is not asked. *)
Lemma generate_fix_without_escalation (U : unicode) (infer infer' : inference)
  (code : pystr) (errors : list Fixer.Issue.t) (user_feedback task : pystr) :
  str_eqb user_feedback py:"auto_fix" = false ->
  Fixer._generate_fix U infer code errors user_feedback task
  = Fixer._generate_fix U infer' code errors user_feedback task.
Proof.
intros H. unfold Fixer._generate_fix. rewrite H, andb_false_r. reflexivity.
Qed.

(** X11. [fix_applied] tells whether the code was changed: it is true
    exactly when [fixed_code] differs from the code that was analyzed. *)
Theorem fix_applied_iff_changed (U : unicode) (sandbox : pystr -> run)
  (rag : retrieval) (console : option pystr) (infer : inference)
  (code task : pystr) :
  let r := Fixer.analyze_code U sandbox rag console infer code task in
  Fixer.fix_applied r = true <-> Fixer.fixed_code r <> code.
Proof.
intros r. subst r. unfold Fixer.analyze_code.
destruct (_ || _); [destruct (negb (str_eqb _ py:"skip"))|];
  cbn [Fixer.fix_applied Fixer.fixed_code].
- rewrite negb_true_iff. split.
  + intros H E. apply str_eqb_eq in E. congruence.
  + intros H. apply str_eqb_neq. exact H.
- split; [discriminate | congruence].
- split; [discriminate | congruence].
Qed.

(** X12. When the run exits with code zero, nobody is asked anything: the
    result of [analyze_code] is the same whatever the retrieval index
    holds, whatever is typed at the console and whatever the inference
    service would answer. *)
Theorem successful_run_asks_nobody (U : unicode) (sandbox : pystr -> run)
  (rag rag' : retrieval) (console console' : option pystr)
  (infer infer' : inference) (code task out err : pystr) :
  sandbox (Fixer._sanitize_code code) = Exited 0 out err ->
  Fixer.analyze_code U sandbox rag console infer code task
  = Fixer.analyze_code U sandbox rag' console' infer' code task.
Proof.
intros H. unfold Fixer.analyze_code, Fixer._execute_code_safe. rewrite H.
cbn [Fixer.success Z.eqb negb]. unfold Fixer._get_user_feedback.
rewrite (generate_fix_without_escalation U infer infer') by reflexivity.
reflexivity.
Qed.

(** X13. When the run exits with code zero and the static analysis finds
    nothing, the code comes back untouched: no error, no disposition, no
    fix. *)
Theorem clean_success_is_untouched (U : unicode) (sandbox : pystr -> run)
  (rag : retrieval) (console : option pystr) (infer : inference)
  (code task out err : pystr) :
  sandbox (Fixer._sanitize_code code) = Exited 0 out err ->
  Fixer._static_analysis code = [] ->
  let r := Fixer.analyze_code U sandbox rag console infer code task in
  Fixer.execution_success r = true
  /\ Fixer.errors_detected r = []
  /\ Fixer.user_feedback r = None
  /\ Fixer.fixed_code r = code
  /\ Fixer.fix_applied r = false.
Proof.
intros H Hstatic r. subst r.
unfold Fixer.analyze_code, Fixer._execute_code_safe. rewrite H, Hstatic.
cbn. repeat split.
Qed.

End Repair.

(* ===================================================================== *)
(** * More on the orchestrator *)
(* ===================================================================== *)

Section MoreOrchestrator.

Lemma dict_get_set_same (k : pystr) (v : json) (d : dict) :
  dict_get k (dict_set k v d) = Some v.
Proof.
induction d as [|[k' v'] d IH]; cbn.
- rewrite str_eqb_refl. reflexivity.
- destruct (str_eqb k k') eqn:E; cbn.
  + rewrite str_eqb_refl. reflexivity.
  + rewrite E. exact IH.
Qed.

Lemma dict_get_set_other (k k' : pystr) (v : json) (d : dict) :
  k' <> k -> dict_get k' (dict_set k v d) = dict_get k' d.
Proof.
intros H. induction d as [|[k0 v0] d IH]; cbn.
- rewrite (str_eqb_neq _ _ H). reflexivity.
- destruct (str_eqb k k0) eqn:E; cbn.
  + apply str_eqb_eq in E. subst k0. rewrite (str_eqb_neq _ _ H). reflexivity.
  + destruct (str_eqb k' k0); [reflexivity | exact IH].
Qed.

(** X14. Adding no sprite changes nothing. Adding sprites stores them
    under the metadata key generated_sprites, leaves every other metadata
    key, the code history, the errors and the plan as they were, and puts
    the sprite-loading code into the current code. *)
Theorem add_sprites_records_metadata (sprites : list Agent.Sprite.t)
  (st : TaskState) :
  let st' := Agent._add_sprites_to_game sprites st in
  match sprites with
  | [] => st' = st
  | _ :: _ =>
    dict_get py:"generated_sprites" (metadata st')
    = Some (JList (map Agent.Sprite.to_json sprites))
    /\ (forall k, k <> py:"generated_sprites" ->
        dict_get k (metadata st') = dict_get k (metadata st))
    /\ current_code st'
       = Agent._inject_sprite_code (current_code st)
           (Agent._create_sprite_loading_code sprites)
    /\ code_history st' = code_history st
    /\ errors_detected st' = errors_detected st
    /\ subtasks st' = subtasks st
    /\ task_status st' = task_status st
  end.
Proof.
intros st'. subst st'. destruct sprites as [|sp sprites]; [reflexivity|].
cbn. split; [apply dict_get_set_same|].
split; [intros k Hk; apply dict_get_set_other; exact Hk|].
repeat split.
Qed.

Lemma insert_after_window_spec (lines lines' : list pystr) (sprite_code : pystr) :
  Agent.insert_after_window lines sprite_code = Some lines' ->
  exists before line after,
    lines = before ++ line :: after
    /\ Forall (fun l => contains py:"pygame.display.set_mode" l = false) before
    /\ contains py:"pygame.display.set_mode" line = true
    /\ lines' = before ++ line :: sprite_code :: after.
Proof.
revert lines'. induction lines as [|l lines IH]; intros lines' H;
  [discriminate|].
cbn [Agent.insert_after_window] in H.
destruct (contains py:"pygame.display.set_mode" l) eqn:E.
- injection H as <-. exists [], l, lines. repeat split; [constructor | exact E].
- destruct (Agent.insert_after_window lines sprite_code) as [rest|] eqn:Er;
    [|discriminate].
  cbn in H. injection H as <-.
  destruct (IH rest eq_refl) as (before & line & after & -> & Hb & Hl & ->).
  exists (l :: before), line, after.
  repeat split; [constructor; assumption | exact Hl].
Qed.

Lemma main_guard_not_empty : Agent.MAIN_GUARD <> [].
Proof. discriminate. Qed.

Lemma insert_after_window_none (lines : list pystr) (sprite_code : pystr) :
  Forall (fun l => contains py:"pygame.display.set_mode" l = false) lines ->
  Agent.insert_after_window lines sprite_code = None.
Proof.
induction 1 as [|l lines Hl _ IH]; [reflexivity|].
cbn [Agent.insert_after_window]. rewrite Hl, IH. reflexivity.
Qed.

Lemma insert_after_window_first (before after : list pystr)
  (line sprite_code : pystr) :
  Forall (fun l => contains py:"pygame.display.set_mode" l = false) before ->
  contains py:"pygame.display.set_mode" line = true ->
  Agent.insert_after_window (before ++ line :: after) sprite_code
  = Some (before ++ line :: sprite_code :: after).
Proof.
intros Hb Hl. induction Hb as [|l before Hlb _ IH].
- cbn [app Agent.insert_after_window]. rewrite Hl. reflexivity.
- cbn [app Agent.insert_after_window]. rewrite Hlb, IH. reflexivity.
Qed.

(** X15. The injection never loses the sprite code: the text it returns
    holds the sprite-loading code. When a line of the game holds
    [pygame.display.set_mode], the code is inserted as one element right
    after the first such line and every line of the game stays in place.
    When no line does and the game holds the main guard, the code is put
    before the first guard, and what follows a second guard is lost. When
    no line does and the game has no main guard, the code is appended to
    the game. *)
Theorem inject_sprite_code_places (game_code sprite_code : pystr) :
  contains sprite_code (Agent._inject_sprite_code game_code sprite_code) = true
  /\ (forall before line after,
        split [NL] game_code = before ++ line :: after ->
        Forall (fun l => contains py:"pygame.display.set_mode" l = false)
          before ->
        contains py:"pygame.display.set_mode" line = true ->
        Agent._inject_sprite_code game_code sprite_code
        = join [NL] (before ++ line :: sprite_code :: after))
  /\ (Forall (fun l => contains py:"pygame.display.set_mode" l = false)
        (split [NL] game_code) ->
      (contains Agent.MAIN_GUARD game_code = true ->
       exists before after rest,
         split Agent.MAIN_GUARD game_code = before :: after :: rest
         /\ Agent._inject_sprite_code game_code sprite_code
            = before ++ sprite_code ++ [NL; NL] ++ Agent.MAIN_GUARD ++ after)
      /\ (contains Agent.MAIN_GUARD game_code = false ->
          Agent._inject_sprite_code game_code sprite_code
          = game_code ++ [NL; NL] ++ sprite_code)).
Proof.
split; [|split].
- unfold Agent._inject_sprite_code.
  destruct (Agent.insert_after_window (split [NL] game_code) sprite_code)
    as [lines'|] eqn:E.
  + destruct (insert_after_window_spec _ _ _ E)
      as (before & line & after & Hsplit & Hb & Hl & ->).
    apply join_In_contains, in_or_app. right. right. left. reflexivity.
  + destruct (contains Agent.MAIN_GUARD game_code) eqn:Eg.
    * destruct (split_two_parts _ _ main_guard_not_empty Eg)
        as (a & b & rest & ->).
      apply contains_middle.
    * do 2 apply contains_app_r.
      rewrite <- (app_nil_r sprite_code) at 2. apply contains_prefix.
- intros before line after Hsplit Hb Hl.
  unfold Agent._inject_sprite_code.
  rewrite Hsplit, (insert_after_window_first _ _ _ _ Hb Hl). reflexivity.
- intros Hnone. unfold Agent._inject_sprite_code.
  rewrite (insert_after_window_none _ _ Hnone). split.
  + intros Eg. rewrite Eg.
    destruct (split_two_parts _ _ main_guard_not_empty Eg)
      as (a & b & rest & Hparts).
    exists a, b, rest. rewrite Hparts. split; reflexivity.
  + intros ->. reflexivity.
Qed.

Lemma record_errors_appends (clock : nat -> pystr)
  (errors : list Fixer.Issue.t) (context : pystr) (feedback : option pystr)
  (tick : nat) (st : TaskState) :
  let done := Agent.record_errors clock errors context feedback tick st in
  map (fun e => (ErrorInfo.type e, ErrorInfo.description e,
                 ErrorInfo.code_context e, ErrorInfo.user_feedback e))
      (errors_detected (fst done))
  = map (fun e => (ErrorInfo.type e, ErrorInfo.description e,
                   ErrorInfo.code_context e, ErrorInfo.user_feedback e))
        (errors_detected st)
    ++ map (fun i => (Fixer.Issue.type i, Fixer.Issue.description i,
                      context, feedback)) errors
  /\ snd done = (tick + 2 * length errors)%nat
  /\ subtasks (fst done) = subtasks st
  /\ current_subtask_index (fst done) = current_subtask_index st.
Proof.
revert tick st. induction errors as [|e errors IH]; intros tick st.
- cbn. rewrite app_nil_r. repeat split. lia.
- cbn [Agent.record_errors].
  destruct (IH (tick + 2)%nat
              (add_error (Fixer.Issue.type e) (Fixer.Issue.description e)
                 context feedback (clock tick) (clock (tick + 1)%nat) st))
    as (He & Ht & Hs & Hi).
  cbv zeta. rewrite He, Ht, Hs, Hi. cbn.
  rewrite map_app, <- app_assoc. cbn. repeat split. lia.
Qed.

(** [l[i]] for an index the list has, counted from either end. *)
Lemma getitem_in_range {A} (l : list A) (i : Z) :
  (- Z.of_nat (length l) <= i < Z.of_nat (length l))%Z ->
  getitem l i = l !! Z.to_nat (i mod Z.of_nat (length l))
  /\ is_Some (getitem l i).
Proof.
intros H. unfold getitem.
assert (Hsome : forall k, (0 <= k < Z.of_nat (length l))%Z ->
          is_Some (l !! Z.to_nat k)).
{ intros k Hk. apply lookup_lt_is_Some. lia. }
destruct (Z.leb_spec 0 i).
- rewrite Z.mod_small by lia. split; [reflexivity | apply Hsome; lia].
- destruct (Z.leb_spec (- Z.of_nat (length l)) i); [|lia].
  replace (i mod Z.of_nat (length l))%Z with (Z.of_nat (length l) + i)%Z.
  + split; [reflexivity | apply Hsome; lia].
  + apply Z.mod_unique with (q := (-1)%Z); lia.
Qed.

Lemma getitem_below {A} (l : list A) (i : Z) :
  (i < - Z.of_nat (length l))%Z -> getitem l i = None.
Proof.
intros H. unfold getitem.
destruct (Z.leb_spec 0 i); [lia|].
destruct (Z.leb_spec (- Z.of_nat (length l)) i); [lia | reflexivity].
Qed.

(** X16. A subtask cycle takes any integer as index. On an index at or
    past the end of the plan it returns false and changes nothing. On an
    index of the plan, counted from the start or, when negative, from the
    end, it returns true, appends exactly one revision that leads from the
    code before to the final code (the fixed code when a fix was applied,
    else the generated code), and appends one error record per detected
    issue, in order, each with the last 500 characters of the final code
    as context. On a negative index before the start of the plan it raises
    IndexError. *)
Theorem execute_subtask_records (U : unicode) (clock : nat -> pystr)
  (coder : inference) (sandbox : pystr -> run) (rag : retrieval)
  (console : option pystr) (fixer : inference) (i : Z) (tick : nat)
  (st : TaskState) :
  let done :=
    Agent.execute_subtask U clock coder sandbox rag console fixer i tick st in
  ((n_subtasks st <= i)%Z -> done = Ok (st, tick, false))
  /\ ((i < - n_subtasks st)%Z -> done = Raise IndexError)
  /\ ((- n_subtasks st <= i < n_subtasks st)%Z ->
      exists subtask st' tick',
        subtasks st !! Z.to_nat (i mod n_subtasks st) = Some subtask
        /\ done = Ok (st', tick', true)
        /\ let generated := Coder.generate U coder (current_code st) subtask in
           let fix_result :=
             Fixer.analyze_code U sandbox rag console fixer generated
               (original_task st) in
           let final :=
             if Fixer.fix_applied fix_result then Fixer.fixed_code fix_result
             else generated in
           code_history st'
           = code_history st
             ++ [Revision.mk (clock tick) subtask (current_code st) final
                   MODEL_coder]
           /\ current_code st' = final
           /\ map (fun e => (ErrorInfo.type e, ErrorInfo.description e,
                             ErrorInfo.code_context e,
                             ErrorInfo.user_feedback e))
                  (errors_detected st')
              = map (fun e => (ErrorInfo.type e, ErrorInfo.description e,
                               ErrorInfo.code_context e,
                               ErrorInfo.user_feedback e))
                    (errors_detected st)
                ++ map (fun i => (Fixer.Issue.type i,
                                  Fixer.Issue.description i,
                                  suffix_n 500 final,
                                  Fixer.user_feedback fix_result))
                       (Fixer.errors_detected fix_result)
           /\ subtasks st' = subtasks st
           /\ current_subtask_index st' = current_subtask_index st).
Proof.
intros done. subst done. unfold Agent.execute_subtask, n_subtasks.
split; [|split].
- intros H. destruct (Z.geb_spec i (Z.of_nat (length (subtasks st)))); [|lia].
  reflexivity.
- intros H. destruct (Z.geb_spec i (Z.of_nat (length (subtasks st)))); [lia|].
  rewrite getitem_below by exact H. reflexivity.
- intros H. destruct (Z.geb_spec i (Z.of_nat (length (subtasks st)))); [lia|].
  destruct (getitem_in_range (subtasks st) i H) as [Hget [subtask Hs]].
  rewrite Hs. rewrite Hs in Hget.
  cbv zeta.
  match goal with
  | |- context [Agent.record_errors ?c ?e ?x ?f ?t ?s] =>
    pose proof (record_errors_appends c e x f t s) as (He & _ & Hsub & Hi);
    pose proof (record_errors_code c e x f t s) as [Hh Hc];
    destruct (Agent.record_errors c e x f t s) as [st' tick']
  end.
  exists subtask, st', tick'. cbn [fst snd] in *.
  split; [symmetry; exact Hget|]. split; [reflexivity|].
  rewrite He, Hh, Hc, Hsub, Hi. repeat split.
Qed.

Lemma decompose_task_cons (U : unicode) (planner : inference) (task : pystr) :
  exists s plan,
    Planner.decompose_task U planner task = s :: plan
    /\ (length plan < 7)%nat.
Proof.
unfold Planner.decompose_task.
assert (Hfb : exists s plan,
          Planner._get_fallback_subtasks U task = s :: plan
          /\ (length plan < 7)%nat).
{ unfold Planner._get_fallback_subtasks.
  destruct (contains _ _); [|destruct (contains _ _)];
    eexists; eexists; (split; [reflexivity | cbn; lia]). }
destruct planner as [response|message]; [|exact Hfb].
pose proof (parse_subtasks_length U response) as Hle.
destruct (Planner._parse_subtasks U response) as [|s plan]; [exact Hfb|].
exists s, plan. split; [reflexivity | cbn in Hle; lia].
Qed.

(** X17. After planning the session has a plan of one to seven subtasks,
    stands at its first subtask, which is the current subtask, with status
    CODING and progress 0; the planner model is noted, and the code and its
    history are untouched. *)
Theorem plan_task_starts_plan (U : unicode) (planner : inference)
  (st : TaskState) :
  let st' := Agent.plan_task U planner st in
  subtasks st' = Planner.decompose_task U planner (original_task st)
  /\ (1 <= length (subtasks st') <= 7)%nat
  /\ current_subtask_index st' = 0%Z
  /\ is_Some (current_subtask st')
  /\ current_subtask st' = subtasks st' !! 0%nat
  /\ task_status st' = CODING
  /\ progress_percentage st' = Ok (Float.Finite 0)
  /\ models_used st' = models_used st ++ [MODEL_planner]
  /\ current_code st' = current_code st
  /\ code_history st' = code_history st.
Proof.
intros st'. subst st'. unfold Agent.plan_task. cbv zeta.
destruct (decompose_task_cons U planner (original_task st))
  as (s & plan & Hplan & Hlen).
unfold progress_percentage. cbn. rewrite Hplan. cbn.
repeat split; try lia. eexists. reflexivity.
Qed.

(** X18. The file name of a saved game has neither a space nor a slash in
    its task part, which is at most fifty characters long and as long as
    the first fifty characters of the task. *)
Theorem task_slug_is_clean (st : TaskState) :
  (SPACE ∉ Agent.task_slug st)
  /\ (47 ∉ Agent.task_slug st)
  /\ length (Agent.task_slug st) = min 50 (length (original_task st)).
Proof.
unfold Agent.task_slug, replace_char, prefix_n.
split; [|split].
- intros H. apply list_elem_of_In, in_map_iff in H as (c & Hc & H).
  apply in_map_iff in H as (c0 & Hc0 & _). subst c.
  destruct (N.eqb_spec c0 SPACE); cbn in Hc; [discriminate|].
  destruct (N.eqb_spec c0 47); [discriminate | congruence].
- intros H. apply list_elem_of_In, in_map_iff in H as (c & Hc & _).
  destruct (N.eqb_spec c 47); [discriminate | congruence].
- rewrite !length_map, length_take. reflexivity.
Qed.

End MoreOrchestrator.

(* ===================================================================== *)
(** * More on persistence *)
(* ===================================================================== *)

Section MorePersistence.

Lemma check_kwargs_unknown_key (fields required : list pystr) (d : dict)
  (k : pystr) (v : json) :
  existsb (str_eqb k) fields = false ->
  check_kwargs fields required (JObj (d ++ [(k, v)])) = Raise TypeError.
Proof.
intros H. unfold check_kwargs. rewrite forallb_app. cbn [forallb fst].
rewrite H. cbn [andb]. rewrite andb_false_r. reflexivity.
Qed.

(** X19. A record with a key that is no field of the state cannot be
    loaded: a saved state to which one unknown key is added makes
    [load_state] raise TypeError instead of returning a state or None. *)
Theorem load_state_unknown_key_raises (store : gmap pystr file) (id : pystr)
  (st : TaskState) (d : dict) (k : pystr) (v : json) :
  to_dict st = JObj d ->
  existsb (str_eqb k) State.fields = false ->
  store !! filepath id = Some (Json (JObj (d ++ [(k, v)]))) ->
  load_state store id = Raise TypeError.
Proof.
intros Hd Hk Hstore. unfold load_state. rewrite Hstore.
unfold to_dict in Hd. injection Hd as <-.
unfold from_dict.
change (subscript _ _) with (Ok (JStr (TaskStatus_value (task_status st)))) at 1.
cbn [bind]. rewrite TaskStatus_roundtrip. cbn [bind].
change (subscript _ _)
  with (Ok (JStr (ValidationStatus_value (validation_status st)))).
cbn [bind]. rewrite ValidationStatus_roundtrip. cbn [bind].
change (get_default _ _ _)
  with (JList (map CodeChunk.asdict (code_chunks st))) at 1.
cbn [iterate bind]. rewrite (each_map _ _ _ CodeChunk_kwargs). cbn [bind].
change (get_default _ _ _)
  with (JList (map ErrorInfo.asdict (errors_detected st))).
cbn [iterate bind]. rewrite (each_map _ _ _ ErrorInfo_kwargs). cbn [bind].
rewrite (check_kwargs_unknown_key _ _ _ _ _ Hk). reflexivity.
Qed.

(** X20. A record that gives only the four fields without default and the
    two statuses loads as a state with every other field at its default:
    empty plan, code, histories and metadata, index and counters 0. *)
Theorem from_dict_defaults (a b c u : pystr) (ts : TaskStatus)
  (vs : ValidationStatus) :
  from_dict
    (JObj [(py:"task_id", JStr a); (py:"original_task", JStr b);
           (py:"created_at", JStr c); (py:"updated_at", JStr u);
           (py:"task_status", JStr (TaskStatus_value ts));
           (py:"validation_status", JStr (ValidationStatus_value vs))])
  = Ok (mkState a b c u ts vs [] 0%Z None [] [] [] [] [] [] [] 0%Z 0%Z 0%Z).
Proof. destruct ts, vs; reflexivity. Qed.

(** The path of an id without a slash is the file of that name in the
    storage directory. *)
Lemma filepath_plain (id : pystr) :
  (SLASH ∉ id) -> filepath id = id ++ py:".json".
Proof.
intros H. unfold filepath, path_parts.
assert (Hname : SLASH ∉ id ++ py:".json").
{ intros Hin. apply elem_of_app in Hin as [Hin|Hin]; [exact (H Hin)|].
  vm_compute in Hin. repeat (apply elem_of_cons in Hin as [Hin|Hin];
    [discriminate Hin|]). exact (not_elem_of_nil _ Hin). }
rewrite (split_char_line _ _ Hname).
assert (Hkept : negb (str_eqb (id ++ py:".json") []
                      || str_eqb (id ++ py:".json") py:".") = true).
{ destruct id as [|c id]; [reflexivity|]. cbn [app str_eqb orb].
  destruct id as [|c' id]; cbn; rewrite ?andb_false_r; reflexivity. }
cbn [List.filter]. rewrite Hkept. cbn [join].
assert (Hanchor : path_anchor (id ++ py:".json") = []).
{ destruct id as [|c id]; [reflexivity|].
  apply not_elem_of_cons in H as [Hc _].
  unfold path_anchor. cbn [app startswith].
  destruct (N.eqb_spec 47 c) as [E|_]; [exfalso; apply Hc; exact E|].
  reflexivity. }
rewrite Hanchor. reflexivity.
Qed.

(** The id with "./" in front names the same file. *)
Lemma filepath_dot_slash (id : pystr) :
  (SLASH ∉ id) -> filepath (py:"./" ++ id) = filepath id.
Proof.
intros H. rewrite (filepath_plain id H).
unfold filepath, path_parts, path_anchor.
change ((py:"./" ++ id) ++ py:".json")
  with (46 :: SLASH :: (id ++ py:".json")).
assert (Hname : SLASH ∉ id ++ py:".json").
{ rewrite <- (filepath_plain id H). rewrite (filepath_plain id H).
  intros Hin. apply elem_of_app in Hin as [Hin|Hin]; [exact (H Hin)|].
  vm_compute in Hin. repeat (apply elem_of_cons in Hin as [Hin|Hin];
    [discriminate Hin|]). exact (not_elem_of_nil _ Hin). }
rewrite split_char_cons. change (SLASH =? 46) with false. cbv iota.
rewrite split_char_cons, N.eqb_refl.
rewrite (split_char_line _ _ Hname). cbn [List.filter str_eqb orb negb].
change (46 =? 46) with true. cbn [andb str_eqb orb negb].
assert (Hkept : negb (str_eqb (id ++ py:".json") []
                      || str_eqb (id ++ py:".json") py:".") = true).
{ destruct id as [|c id]; [reflexivity|]. cbn [app str_eqb orb].
  destruct id as [|c' id]; cbn; rewrite ?andb_false_r; reflexivity. }
rewrite Hkept. reflexivity.
Qed.

(** X21. Among ids without a slash, saving a state touches the record of
    its own [task_id] only: the load of any other such id gives what it gave
    before. An id with a slash can name the same file as another id: the
    load of "./" followed by the [task_id] gives the state just saved. *)
Theorem save_state_other_ids (store : gmap pystr file) (st : TaskState)
  (id : pystr) :
  (SLASH ∉ task_id st) ->
  (SLASH ∉ id) ->
  (id <> task_id st ->
   load_state (fst (save_state store st)) id = load_state store id)
  /\ load_state (fst (save_state store st)) (py:"./" ++ task_id st)
     = Ok (Some st).
Proof.
intros Hst Hid. split.
- intros H. unfold load_state, save_state. cbn [fst].
  rewrite lookup_insert_ne; [reflexivity|].
  rewrite (filepath_plain _ Hst), (filepath_plain _ Hid).
  intros E. apply app_inv_tail in E. congruence.
- unfold load_state, save_state. cbn [fst].
  rewrite (filepath_dot_slash _ Hst), lookup_insert_eq, from_dict_to_dict.
  reflexivity.
Qed.

Lemma final_check_task_id (U : unicode) (sandbox : pystr -> run)
  (rag : retrieval) (console : option pystr) (fixer : inference)
  (task : pystr) (st : TaskState) :
  task_id (Agent.final_check U sandbox rag console fixer task st) = task_id st.
Proof.
unfold Agent.final_check. cbn [current_code set_task_status].
destruct (current_code st); [reflexivity|].
destruct (Fixer.execution_success _); reflexivity.
Qed.

(** X22. The development cycle ends resumable: the record it saves loads
    back as the very state it ends with, whose task status is COMPLETED,
    TESTING or FAILED, and FAILED when no code was accumulated; the code,
    its history and the errors are those before the final check. *)
Theorem finish_development_resumable (U : unicode) (sandbox : pystr -> run)
  (rag : retrieval) (console : option pystr) (fixer : inference)
  (task : pystr) (store : gmap pystr file) (st : TaskState) :
  let done :=
    Agent.finish_development U sandbox rag console fixer task store st in
  load_state (fst done) (task_id st) = Ok (Some (snd done))
  /\ In (task_status (snd done)) [COMPLETED; TESTING; FAILED]
  /\ (current_code st = [] -> task_status (snd done) = FAILED)
  /\ current_code (snd done) = current_code st
  /\ code_history (snd done) = code_history st
  /\ errors_detected (snd done) = errors_detected st.
Proof.
intros done. subst done. unfold Agent.finish_development. cbn [fst snd].
split.
- unfold load_state, save_state. cbn [fst].
  rewrite final_check_task_id, lookup_insert_eq, from_dict_to_dict.
  reflexivity.
- unfold Agent.final_check. cbn [current_code set_task_status].
  destruct (current_code st) as [|c s] eqn:E.
  + cbn. rewrite ?E. repeat split;
      first [reflexivity | tauto | intros; reflexivity].
  + destruct (Fixer.execution_success _); cbn; rewrite ?E; repeat split;
      first [reflexivity | tauto | discriminate].
Qed.

Lemma advance_from (k : nat) (st : TaskState) :
  (0 <= current_subtask_index st)%Z ->
  (current_subtask_index st + Z.of_nat k < n_subtasks st)%Z ->
  exists st',
    advance k st = Ok st'
    /\ current_subtask_index st' = (current_subtask_index st + Z.of_nat k)%Z
    /\ subtasks st' = subtasks st
    /\ current_code st' = current_code st
    /\ code_history st' = code_history st
    /\ (k <> O ->
        current_subtask st'
        = subtasks st !! Z.to_nat (current_subtask_index st + Z.of_nat k)
        /\ task_status st' = CODING).
Proof.
revert st. induction k as [|k IH]; intros st H0 Hlt.
- exists st. cbn [advance]. rewrite Z.add_0_r.
  repeat split; try reflexivity; congruence.
- cbn [advance]. unfold move_to_next_subtask.
  destruct (Z.ltb_spec (current_subtask_index st) (n_subtasks st - 1));
    [|lia].
  destruct (move_to_next_subtask_reads st) as [s Hs];
    [unfold index_in_plan; lia | lia |].
  cbn [subtasks current_subtask_index set_current_subtask_index].
  rewrite Hs. cbn [bind].
  set (st1 := set_task_status CODING _).
  destruct (IH st1) as (st' & Hadv & Hidx & Hsub & Hcode & Hhist & Hcur).
  + cbn. lia.
  + unfold n_subtasks. cbn. unfold n_subtasks in Hlt. lia.
  + exists st'. split; [exact Hadv|].
    cbn in Hidx, Hsub, Hcode, Hhist, Hcur.
    split; [rewrite Hidx; lia|].
    split; [exact Hsub|]. split; [exact Hcode|]. split; [exact Hhist|].
    intros _. replace (current_subtask_index st + Z.of_nat (S k))%Z
      with (current_subtask_index st + 1 + Z.of_nat k)%Z by lia.
    destruct k as [|k].
    * cbn [advance] in Hadv. injection Hadv as <-. cbn.
      unfold getitem in Hs.
      destruct (Z.leb_spec 0 (current_subtask_index st + 1)); [|lia].
      rewrite Z.add_0_r, Hs. split; reflexivity.
    * apply Hcur. discriminate.
Qed.

(** X23. Walking the plan. From the first subtask of a plan, [k] advances
    with [k] below the length of the plan lead to subtask [k], which is the
    current subtask, with status CODING; one advance more than the plan has
    subtasks left ends the plan: status TESTING, no current subtask, the
    index at the last subtask. The plan, the code and its history are
    untouched all along, at the end of the plan as on the way. *)
Theorem advance_walks_the_plan (k : nat) (st : TaskState) :
  current_subtask_index st = 0%Z ->
  (k < length (subtasks st))%nat ->
  (exists st',
     advance k st = Ok st'
     /\ current_subtask_index st' = Z.of_nat k
     /\ subtasks st' = subtasks st
     /\ current_code st' = current_code st
     /\ code_history st' = code_history st
     /\ (k <> O ->
         current_subtask st' = subtasks st !! k /\ task_status st' = CODING))
  /\ (exists st'',
        advance (length (subtasks st)) st = Ok st''
        /\ task_status st'' = TESTING
        /\ current_subtask st'' = None
        /\ current_subtask_index st'' = (n_subtasks st - 1)%Z
        /\ subtasks st'' = subtasks st
        /\ current_code st'' = current_code st
        /\ code_history st'' = code_history st).
Proof.
intros H0 Hk. split.
- destruct (advance_from k st) as (st' & Hadv & Hidx & Hsub & Hc & Hh & Hcur).
  + lia.
  + unfold n_subtasks. lia.
  + exists st'. rewrite H0 in Hidx, Hcur. cbn in Hidx.
    rewrite Z.add_0_l, Nat2Z.id in Hcur.
    repeat split; assumption || apply Hcur; assumption.
- destruct (length (subtasks st)) as [|n] eqn:En; [lia|].
  destruct (advance_from n st) as (st' & Hadv & Hidx & Hsub & Hc & Hh & _).
  + lia.
  + unfold n_subtasks. lia.
  + assert (Hstep : forall m s s', advance m s = Ok s' ->
              advance (S m) s = move_to_next_subtask s').
    { induction m as [|m IHm]; intros s s' Hm.
      - cbn in Hm. injection Hm as <-. cbn.
        destruct (move_to_next_subtask s); reflexivity.
      - cbn [advance] in Hm |- *.
        destruct (move_to_next_subtask s) as [s1| |]; cbn [bind] in *;
          try discriminate.
        apply (IHm s1 s' Hm). }
    rewrite (Hstep n st st' Hadv). unfold move_to_next_subtask.
    assert (Hn : n_subtasks st' = n_subtasks st)
      by (unfold n_subtasks; rewrite Hsub; reflexivity).
    rewrite Hidx, H0, Hn.
    assert (Hlen : n_subtasks st = Z.of_nat (S n))
      by (unfold n_subtasks; rewrite En; reflexivity).
    destruct (Z.ltb_spec (0 + Z.of_nat n) (n_subtasks st - 1)); [lia|].
    eexists. split; [reflexivity|]. cbn.
    repeat split; [lia | exact Hsub | exact Hc | exact Hh].
Qed.

End MorePersistence.

(* ===================================================================== *)
(** * More on the Planner and the Coder *)
(* ===================================================================== *)

Section MoreGeneration.

Variable U : unicode.

Lemma Forall_omap {A B} (f : A -> option B) (P : B -> Prop) (l : list A) :
  (forall x y, f x = Some y -> P y) -> Forall P (omap f l).
Proof.
intros H. induction l as [|x l IH]; [constructor|].
cbn [omap list_omap]. destruct (f x) as [y|] eqn:E; [|exact IH].
constructor; [exact (H x y E) | exact IH].
Qed.

Lemma subtask_of_line_accepts (line s : pystr) :
  Planner.subtask_of_line U line = Some s ->
  (15 < length s)%nat /\ trimmed U s /\ startswith s py:"```" = false.
Proof.
unfold Planner.subtask_of_line.
destruct (length (strip U line) <? 10)%nat; [discriminate|].
destruct (Planner.first_match U (strip U line)) as [g|]; [|discriminate].
destruct (15 <? length (strip U g))%nat eqn:Elen; [|discriminate].
destruct (startswith (strip U g) py:"```") eqn:Efence; [discriminate|].
destruct (contains _ _); [discriminate|].
cbn [andb negb]. intros H. injection H as <-.
split; [apply Nat.ltb_lt; exact Elen|].
split; [apply strip_trimmed | exact Efence].
Qed.

(** X24. Every subtask of a plan is a non-empty text. A subtask parsed
    from the reply is longer than fifteen characters, has no white space at
    either end and does not begin with a code fence. *)
Theorem decompose_task_entries (infer : inference) (task : pystr) :
  Forall (fun s => s <> []) (Planner.decompose_task U infer task)
  /\ forall response,
       Forall (fun s => (15 < length s)%nat /\ trimmed U s
                        /\ startswith s py:"```" = false)
              (Planner._parse_subtasks U response).
Proof.
assert (Hparse : forall response,
          Forall (fun s => (15 < length s)%nat /\ trimmed U s
                           /\ startswith s py:"```" = false)
                 (Planner._parse_subtasks U response)).
{ intros response. unfold Planner._parse_subtasks.
  apply Forall_take, Forall_omap. apply subtask_of_line_accepts. }
split; [|exact Hparse].
assert (Hfb : Forall (fun s : pystr => s <> [])
                (Planner._get_fallback_subtasks U task)).
{ unfold Planner._get_fallback_subtasks.
  destruct (contains _ _); [|destruct (contains _ _)];
    repeat constructor; discriminate. }
unfold Planner.decompose_task. destruct infer as [response|message];
  [|exact Hfb].
specialize (Hparse response).
destruct (Planner._parse_subtasks U response) as [|s plan]; [exact Hfb|].
eapply Forall_impl; [exact Hparse|].
intros x [Hlen _] ->. cbn in Hlen. lia.
Qed.

(** X25. The fallback skeleton of the Coder passes the Coder's own sanity
    check, and the static analysis of the Validator reports exactly two
    issues for it, both critical: the missing encoding declaration and the
    non-ASCII characters of its first lines. *)
Theorem fallback_code_static_issues (modification message : pystr) :
  Coder._validate_code U (Coder.fallback_code modification message) = true
  /\ Fixer._static_analysis (Coder.fallback_code modification message)
     = [Fixer.Issue.mk py:"encoding_error" py:"Missing encoding declaration"
          py:"critical" None;
        Fixer.Issue.mk py:"non_ascii_chars"
          py:"Code contains non-ASCII characters" py:"critical" None].
Proof.
assert (Hin : forall sub,
          contains sub
            (join [NL]
               [py:"        import pygame";
                [];
                py:"        def main():";
                py:"        pygame.init()";
                py:"        screen = pygame.display.set_mode((800, 600))";
                py:"        clock = pygame.time.Clock()";
                py:"        running = True";
                [];
                py:"        while running:";
                py:"            for event in pygame.event.get():";
                py:"                if event.type == pygame.QUIT:";
                py:"                    running = False";
                py:"            ";
                py:"            screen.fill((0, 0, 0))";
                py:"            pygame.display.flip()";
                py:"            clock.tick(60)";
                [];
                py:"        pygame.quit()";
                py:"        if name == " ++ [DQUOTE] ++ py:"main" ++ [DQUOTE]
                  ++ py:":";
                py:"        main()"]) = true ->
          contains sub (Coder.fallback_code modification message) = true).
{ intros sub H. unfold Coder.fallback_code.
  do 6 apply contains_app_r. exact H. }
assert (H1 : contains py:"import pygame"
               (Coder.fallback_code modification message) = true)
  by (apply Hin; vm_compute; reflexivity).
assert (H2 : contains py:"pygame.init()"
               (Coder.fallback_code modification message) = true)
  by (apply Hin; vm_compute; reflexivity).
assert (H3 : contains py:"while"
               (Coder.fallback_code modification message) = true)
  by (apply Hin; vm_compute; reflexivity).
assert (H4 : contains py:"pygame.event.get()"
               (Coder.fallback_code modification message) = true)
  by (apply Hin; vm_compute; reflexivity).
assert (H5 : contains py:"pygame.display.flip()"
               (Coder.fallback_code modification message) = true)
  by (apply Hin; vm_compute; reflexivity).
assert (H6 : contains py:"pygame.display.set_mode"
               (Coder.fallback_code modification message) = true)
  by (apply Hin; vm_compute; reflexivity).
split.
- unfold Coder._validate_code. rewrite H1, H6. reflexivity.
- unfold Fixer._static_analysis. rewrite H1, H2, H3, H4, H5.
  reflexivity.
Qed.

Lemma filter_all_keeps {A} (f : A -> bool) (l : list A) :
  Forall (fun x => f x = true) l -> List.filter f l = l.
Proof.
induction 1 as [|x l Hx _ IH]; [reflexivity|].
cbn [List.filter]. rewrite Hx, IH. reflexivity.
Qed.

(** X26. The text the Coder makes of a reply has no white space at either
    end. A reply without code fence and without explanation line comes
    back as it is, up to the white space around it. *)
Theorem clean_reply_plain_code (response : pystr) :
  trimmed U (Coder.clean_reply U response)
  /\ (contains py:"```" (strip U response) = false ->
      Forall (fun line => Coder.is_explanation U line = false)
             (split [NL] (strip U response)) ->
      Coder.clean_reply U response = strip U response).
Proof.
split; [apply strip_trimmed|].
intros Hfence Hlines. unfold Coder.clean_reply.
assert (Hpy : contains py:"```python" (strip U response) = false).
{ destruct (contains py:"```python" (strip U response)) eqn:E;
    [|reflexivity].
  change (py:"```python") with (py:"```" ++ py:"python") in E.
  apply contains_shorter in E. congruence. }
rewrite Hpy, Hfence. rewrite filter_all_keeps.
- rewrite join_split_nl. apply strip_idem.
- eapply Forall_impl; [exact Hlines|]. intros line ->. reflexivity.
Qed.

End MoreGeneration.

(* ===================================================================== *)
(** * The cleaning of the Coder's reply *)
(* ===================================================================== *)

Section CleanReply.

Variable U : unicode.

Lemma is_explanation_nil : Coder.is_explanation U [] = false.
Proof. reflexivity. Qed.











Section Fenced.

Hypothesis newline_is_space : isspace U NL = true.
Hypothesis backtick_no_space : isspace U 96 = false.

Variable body : pystr.
Hypothesis body_clean : contains py:"```" body = false.












End Fenced.

End CleanReply.

Section CleanedReply.

Variable U : unicode.


End CleanedReply.


(* ===================================================================== *)
(** * The theorems at concrete inputs *)
(* ===================================================================== *)

Section Instances.

(** [timeout_is_black_screen] on an endless loop. *)
Lemma timeout_is_black_screen_example :
  sandbox_timeout (Fixer._sanitize_code py:"while True: pass") = TimeoutExpired
  /\ Fixer.execution_success
       (Fixer.analyze_code latin sandbox_timeout empty_index None
          service_down py:"while True: pass" py:"make a game") = false.
Proof.
assert (H : sandbox_timeout (Fixer._sanitize_code py:"while True: pass")
            = TimeoutExpired) by reflexivity.
split; [exact H|].
exact (proj1 (timeout_is_black_screen latin sandbox_timeout empty_index None
                service_down py:"while True: pass" py:"make a game" H)).
Defined.

(** [name_error_is_classified] on a run that ends with a NameError. *)
Lemma name_error_is_classified_example :
  sandbox_exit 1 py:"NameError: name 'x'" (Fixer._sanitize_code py:"print(x)")
  = Exited 1 [] py:"NameError: name 'x'"
  /\ (1 <> 0)%Z
  /\ contains py:"NameError" py:"NameError: name 'x'" = true
  /\ Fixer.execution_success
       (Fixer.analyze_code latin (sandbox_exit 1 py:"NameError: name 'x'")
          empty_index None service_down py:"print(x)" py:"make a game")
     = false.
Proof.
assert (H1 : sandbox_exit 1 py:"NameError: name 'x'"
               (Fixer._sanitize_code py:"print(x)")
             = Exited 1 [] py:"NameError: name 'x'") by reflexivity.
assert (H2 : (1 <> 0)%Z) by lia.
assert (H3 : contains py:"NameError" py:"NameError: name 'x'" = true)
  by reflexivity.
split; [exact H1|]. split; [exact H2|]. split; [exact H3|].
exact (proj1 (name_error_is_classified latin
                (sandbox_exit 1 py:"NameError: name 'x'") empty_index None
                service_down py:"print(x)" py:"make a game" []
                py:"NameError: name 'x'" 1%Z H1 H2 H3)).
Defined.

(** [silent_failure_is_black_screen] on a run that exits with code one and
    prints nothing. *)
Lemma silent_failure_is_black_screen_example :
  sandbox_exit 1 [] (Fixer._sanitize_code py:"exit(1)") = Exited 1 [] []
  /\ (1 <> 0)%Z
  /\ Fixer.execution_success
       (Fixer.analyze_code latin (sandbox_exit 1 []) empty_index None
          service_down py:"exit(1)" py:"make a game") = false.
Proof.
assert (H1 : sandbox_exit 1 [] (Fixer._sanitize_code py:"exit(1)")
             = Exited 1 [] []) by reflexivity.
assert (H2 : (1 <> 0)%Z) by lia.
split; [exact H1|]. split; [exact H2|].
exact (proj1 (silent_failure_is_black_screen latin (sandbox_exit 1 [])
                empty_index None service_down py:"exit(1)" py:"make a game"
                1%Z H1 H2)).
Defined.

(** [successful_run_asks_nobody] on the program [x = 1]. *)
Lemma successful_run_asks_nobody_example :
  sandbox_exit 0 [] (Fixer._sanitize_code py:"x = 1") = Exited 0 [] []
  /\ Fixer.analyze_code latin (sandbox_exit 0 []) empty_index None
       service_down py:"x = 1" py:"make a game"
     = Fixer.analyze_code latin (sandbox_exit 0 []) empty_index
         (Some py:"3") (Reply py:"pass") py:"x = 1" py:"make a game".
Proof.
assert (H : sandbox_exit 0 [] (Fixer._sanitize_code py:"x = 1")
            = Exited 0 [] []) by reflexivity.
split; [exact H|].
exact (successful_run_asks_nobody latin (sandbox_exit 0 []) empty_index
         empty_index None (Some py:"3") service_down (Reply py:"pass")
         py:"x = 1" py:"make a game" [] [] H).
Defined.

(** [clean_success_is_untouched] on [clean_program]. *)
Lemma clean_success_is_untouched_example :
  sandbox_exit 0 [] (Fixer._sanitize_code clean_program) = Exited 0 [] []
  /\ Fixer._static_analysis clean_program = []
  /\ Fixer.fixed_code
       (Fixer.analyze_code latin (sandbox_exit 0 []) empty_index None
          service_down clean_program py:"make a game") = clean_program.
Proof.
assert (H1 : sandbox_exit 0 [] (Fixer._sanitize_code clean_program)
             = Exited 0 [] []) by reflexivity.
assert (H2 : Fixer._static_analysis clean_program = [])
  by (vm_compute; reflexivity).
split; [exact H1|]. split; [exact H2|].
exact (proj1 (proj2 (proj2 (proj2
         (clean_success_is_untouched latin (sandbox_exit 0 []) empty_index
            None service_down clean_program py:"make a game" [] [] H1 H2))))).
Defined.

(** [load_state_unknown_key_raises] on the record of the session with one
    revision, with the key color added. *)
Lemma load_state_unknown_key_example :
  existsb (str_eqb py:"color") State.fields = false
  /\ load_state (<[filepath py:"task_1" := Json record_with_unknown_key]> ∅)
       py:"task_1" = Raise TypeError.
Proof.
assert (Hk : existsb (str_eqb py:"color") State.fields = false)
  by (vm_compute; reflexivity).
split; [exact Hk|].
eapply (load_state_unknown_key_raises _ py:"task_1" one_revision_session _
          py:"color" (JStr py:"blue") eq_refl Hk).
apply lookup_insert_eq.
Defined.

(** [save_state_other_ids] on an empty store. *)
Lemma save_state_other_ids_example :
  (SLASH ∉ task_id one_revision_session)
  /\ (SLASH ∉ py:"task_1")
  /\ py:"task_1" <> task_id one_revision_session
  /\ load_state (fst (save_state ∅ one_revision_session)) py:"task_1"
     = load_state ∅ py:"task_1".
Proof.
assert (Hst : SLASH ∉ task_id one_revision_session)
  by (apply (bool_decide_unpack _); vm_compute; exact I).
assert (Hid : SLASH ∉ py:"task_1")
  by (apply (bool_decide_unpack _); vm_compute; exact I).
assert (H : py:"task_1" <> task_id one_revision_session)
  by (vm_compute; discriminate).
split; [exact Hst|]. split; [exact Hid|]. split; [exact H|].
exact (proj1 (save_state_other_ids ∅ one_revision_session py:"task_1"
                Hst Hid) H).
Defined.

(** [advance_walks_the_plan] on a plan of three subtasks, two advances. *)
Lemma advance_walks_the_plan_example :
  current_subtask_index (set_current_subtask_index 0 mid_plan_session) = 0%Z
  /\ (2 < length (subtasks (set_current_subtask_index 0 mid_plan_session)))%nat
  /\ exists st'',
       advance 3 (set_current_subtask_index 0 mid_plan_session) = Ok st''
       /\ task_status st'' = TESTING.
Proof.
assert (H1 : current_subtask_index
               (set_current_subtask_index 0 mid_plan_session) = 0%Z)
  by reflexivity.
assert (H2 : (2 < length (subtasks
                 (set_current_subtask_index 0 mid_plan_session)))%nat)
  by (cbn; lia).
split; [exact H1|]. split; [exact H2|].
destruct (proj2 (advance_walks_the_plan 2
                   (set_current_subtask_index 0 mid_plan_session) H1 H2))
  as (st'' & Hadv & Hstatus & _).
exists st''. split; [exact Hadv | exact Hstatus].
Defined.

End Instances.

(* ===================================================================== *)
(** * From the training examples back to the plan *)
(* ===================================================================== *)

Section PlanRoundTrip.

Variable U : unicode.
Hypothesis tables : reads_numbered_lists U.

Lemma number_digit (i : nat) :
  (i < 7)%nat ->
  exists d, Finetuner.str_of_nat (i + 1) = [d] /\ 49 <= d <= 55.
Proof.
intros H.
destruct i as [|[|[|[|[|[|[|i]]]]]]];
  [exists 49 | exists 50 | exists 51 | exists 52 | exists 53 | exists 54
   | exists 55 | lia];
  (split; [reflexivity | lia]).
Qed.

Lemma trimmed_intro (s : pystr) :
  (forall c r, s = c :: r -> isspace U c = false) ->
  (forall c r, rev s = c :: r -> isspace U c = false) ->
  trimmed U s.
Proof.
intros Hhead Hlast. split.
- destruct s as [|c r]; [reflexivity|].
  apply lstrip_fixed_head. exact (Hhead c r eq_refl).
- destruct (rev s) as [|c r]; [reflexivity|].
  apply lstrip_fixed_head. exact (Hlast c r eq_refl).
Qed.

Lemma trimmed_head (s r : pystr) (c : char) :
  trimmed U s -> s = c :: r -> isspace U c = false.
Proof. intros [H _] ->. exact (lstrip_head U _ _ _ H). Qed.

Lemma trimmed_last (s r : pystr) (c : char) :
  trimmed U s -> rev s = c :: r -> isspace U c = false.
Proof. intros [_ H] E. rewrite E in H. exact (lstrip_head U _ _ _ H). Qed.

Lemma trimmed_around (a m b : pystr) :
  a <> [] -> b <> [] -> trimmed U a -> trimmed U b -> trimmed U (a ++ m ++ b).
Proof.
intros Ha Hb Hta Htb. apply trimmed_intro.
- intros c r E. destruct a as [|x a]; [congruence|].
  injection E as <- _. exact (trimmed_head _ _ _ Hta eq_refl).
- intros c r E. rewrite !rev_app_distr in E.
  destruct (rev b) as [|x rb] eqn:Eb.
  + apply (f_equal (@rev N)) in Eb. rewrite rev_involutive in Eb.
    cbn in Eb. congruence.
  + rewrite <- !app_assoc in E. injection E as <- _.
    exact (trimmed_last _ _ _ Htb Eb).
Qed.

Lemma join_trimmed (lines : list pystr) :
  lines <> [] ->
  Forall (fun l => l <> [] /\ trimmed U l) lines ->
  join [NL] lines <> [] /\ trimmed U (join [NL] lines).
Proof.
induction lines as [|l lines IH]; intros Hne Hall; [congruence|].
inversion Hall as [|? ? [Hl Htl] Hrest]; subst.
destruct lines as [|l' lines]; [split; assumption|].
destruct IH as [Hj Htj]; [discriminate | exact Hrest |].
rewrite join_cons. split.
- destruct l; [congruence | discriminate].
- apply trimmed_around; assumption.
Qed.

(** A numbered line of a plain subtask, as the parser sees it. *)
Lemma numbered_line_facts (d : char) (s : pystr) :
  49 <= d <= 55 -> plain_subtask U s ->
  let line := [d] ++ py:". " ++ s in
  line <> [] /\ trimmed U line /\ (NL ∉ line)
  /\ Planner.subtask_of_line U line = Some s.
Proof.
intros Hd (Hlen & Hts & Hnl & Hfence & Hex) line. subst line.
destruct tables as (Hdigits & Hdot & Hspace). unfold SPACE in Hspace.
destruct (Hdigits d Hd) as [Hdig Hnsp].
destruct s as [|c s'] eqn:Es; [cbn in Hlen; lia|]. rewrite <- Es in *.
assert (Hc : isspace U c = false) by exact (trimmed_head _ _ _ Hts Es).
assert (Hline : trimmed U ([d] ++ py:". " ++ s)).
{ apply (trimmed_around [d] py:". " s); [discriminate | congruence | | exact Hts].
  apply trimmed_intro; intros x r E; cbn in E; injection E as <- _; exact Hnsp. }
split; [discriminate|]. split; [exact Hline|]. split.
- cbn. rewrite !not_elem_of_cons. unfold NL.
  repeat split; try lia; try discriminate. exact Hnl.
- unfold Planner.subtask_of_line.
  rewrite (trimmed_strip U _ Hline).
  assert (Hlong : (length ([d] ++ py:". " ++ s) <? 10)%nat = false).
  { apply Nat.ltb_ge. cbn. lia. }
  rewrite Hlong.
  assert (Hmatch : Planner.first_match U ([d] ++ py:". " ++ s) = Some s).
  { unfold Planner.first_match, Planner.numbered.
    cbn [app Planner.span]. rewrite Hdig, Hdot. cbn [N.eqb Pos.eqb orb].
    unfold Planner.spaces_then_group. cbn [Planner.span]. rewrite Hspace.
    rewrite Es. cbn [Planner.span]. rewrite Hc. reflexivity. }
  rewrite Hmatch, (trimmed_strip U _ Hts), Hfence, Hex.
  assert (Hl : (15 <? length s)%nat = true) by (apply Nat.ltb_lt; exact Hlen).
  rewrite Hl. reflexivity.
Qed.

Lemma numbered_from_facts (i : nat) (subtasks : list pystr) :
  (i + length subtasks <= 7)%nat ->
  Forall (plain_subtask U) subtasks ->
  Forall (fun l => l <> [] /\ trimmed U l)
         (Finetuner.numbered_from i subtasks)
  /\ Forall (fun l => NL ∉ l) (Finetuner.numbered_from i subtasks)
  /\ omap (Planner.subtask_of_line U) (Finetuner.numbered_from i subtasks)
     = subtasks.
Proof.
revert i. induction subtasks as [|s rest IH]; intros i Hi Hall.
- repeat split; constructor.
- inversion Hall as [|? ? Hs Hrest]; subst. cbn [length] in Hi.
  destruct (number_digit i) as (d & Hstr & Hd); [lia|].
  destruct (numbered_line_facts d s Hd Hs) as (H1 & H2 & H3 & H4).
  destruct (IH (S i)) as (I1 & I2 & I3); [lia | exact Hrest |].
  cbn [Finetuner.numbered_from]. rewrite Hstr.
  split; [constructor; [split|]; assumption|].
  split; [constructor; assumption|].
  cbn [omap list_omap]. rewrite H4, I3. reflexivity.
Qed.

(** X27. The plan of a completed session survives the training example:
    when the plan has at most seven subtasks and each of them is a text the
    parser accepts as it is, the Planner's parser reads the response of the
    planner example back into the plan. *)
Theorem planner_example_round_trip (st : TaskState) :
  task_status st = COMPLETED ->
  current_code st <> [] ->
  subtasks st <> [] ->
  (length (subtasks st) <= 7)%nat ->
  Forall (plain_subtask U) (subtasks st) ->
  exists e,
    Finetuner.examples_of_state st
    = e :: map (Finetuner.coder_example st) (code_chunks st)
    /\ Finetuner.model_type e = py:"planner"
    /\ Planner._parse_subtasks U (Finetuner.response e) = subtasks st.
Proof.
intros Hstatus Hcode Hplan Hlen Hall.
exists (Finetuner.planner_example st). split; [|split; [reflexivity|]].
- unfold Finetuner.examples_of_state. rewrite Hstatus.
  destruct (current_code st); [congruence|].
  destruct (subtasks st); [congruence | reflexivity].
- cbn [Finetuner.response Finetuner.planner_example].
  unfold Finetuner.plan_text, Planner._parse_subtasks.
  destruct (numbered_from_facts 0 (subtasks st)) as (H1 & H2 & H3);
    [lia | exact Hall |].
  assert (Hne : Finetuner.numbered_from 0 (subtasks st) <> []).
  { destruct (subtasks st); [congruence | discriminate]. }
  destruct (join_trimmed _ Hne H1) as [_ Htrim].
  rewrite (trimmed_strip U _ Htrim), (split_join_nl _ Hne H2), H3.
  apply take_ge. exact Hlen.
Qed.

End PlanRoundTrip.

Section PlanRoundTripInstance.

Lemma latin_reads_numbered_lists : reads_numbered_lists latin.
Proof.
split; [|split; reflexivity].
intros d Hd. cbn. unfold latin_isdigit, latin_isspace.
split.
- apply andb_true_iff. split; apply N.leb_le; lia.
- apply orb_false_iff. split; apply andb_false_iff.
  + right. apply N.leb_gt. lia.
  + right. apply N.leb_gt. lia.
Qed.

(** [planner_example_round_trip] on [completed_session]. *)
Lemma planner_example_round_trip_example :
  reads_numbered_lists latin
  /\ task_status completed_session = COMPLETED
  /\ current_code completed_session <> []
  /\ subtasks completed_session <> []
  /\ (length (subtasks completed_session) <= 7)%nat
  /\ Forall (plain_subtask latin) (subtasks completed_session)
  /\ exists e,
       Finetuner.examples_of_state completed_session
       = e :: map (Finetuner.coder_example completed_session)
                  (code_chunks completed_session)
       /\ Finetuner.model_type e = py:"planner"
       /\ Planner._parse_subtasks latin (Finetuner.response e)
          = subtasks completed_session.
Proof.
assert (H1 : task_status completed_session = COMPLETED) by reflexivity.
assert (H2 : current_code completed_session <> []) by discriminate.
assert (H3 : subtasks completed_session <> []) by discriminate.
assert (H4 : (length (subtasks completed_session) <= 7)%nat) by (cbn; lia).
assert (H5 : Forall (plain_subtask latin) (subtasks completed_session)).
{ repeat constructor; try (cbn; lia); try (vm_compute; reflexivity);
    intros H; apply list_elem_of_In in H; vm_compute in H;
    repeat (destruct H as [H|H]; [discriminate H|]); exact H. }
repeat (split; [assumption || exact latin_reads_numbered_lists|]).
exact (planner_example_round_trip latin latin_reads_numbered_lists
         completed_session H1 H2 H3 H4 H5).
Defined.

End PlanRoundTripInstance.
